(** * Urepli campaign launcher: a shallow embedding and its properties

    The repository holds two parallel Python packages:

    - [python_campaign_launcher/src] (module [Src] below): the template
      catalog, the Gemini script composer, the Celery publishing task and the
      FastAPI handlers over an in-process campaign dictionary;
    - [python-campaign-launcher/app] (module [App] below): the SQLAlchemy
      backed campaign manager, the social poster and the engagement worker.

    Part I embeds the Python code, function by function, keeping the names of
    the source.  Part II defines the notions the statements use and the
    concrete inputs they are tried on.  Part III states and proves the
    properties. *)

From Stdlib Require Import String Ascii ZArith NArith List Lia Floats Uint63.
From stdpp Require Import base numbers list option gmap.

Set Default Proof Using "Type".
Local Open Scope N_scope.

(* ===================================================================== *)
(** * Part I.  The embedding                                              *)
(* ===================================================================== *)

(** ** Python runtime notions used by the code *)

Module Py.

(** A Python [str] is a sequence of Unicode code points. *)
Abbreviation str := (list N).

(** Source literals are written as UTF-8 text and decoded to code points. *)
Fixpoint decode_utf8 (bs : list N) (need : nat) (acc : N) : str :=
  match bs with
  | [] => []
  | b :: bs' =>
      match need with
      | O =>
          if b <? 0x80 then b :: decode_utf8 bs' 0 0
          else if b <? 0xE0 then decode_utf8 bs' 1 (b mod 0x20)
          else if b <? 0xF0 then decode_utf8 bs' 2 (b mod 0x10)
          else decode_utf8 bs' 3 (b mod 0x08)
      | S O => (acc * 64 + b mod 64) :: decode_utf8 bs' 0 0
      | S n => decode_utf8 bs' n (acc * 64 + b mod 64)
      end
  end.

Definition u (s : string) : str :=
  decode_utf8 (map N_of_ascii (list_ascii_of_string s)) 0 0.
Arguments u s%_string.

(** [str.isspace] for one character: the code points CPython treats as
    whitespace in [strip()] and [split()]. *)
Definition isspace (c : N) : bool :=
  ((0x09 <=? c) && (c <=? 0x0D)) || ((0x1C <=? c) && (c <=? 0x20))
  || (c =? 0x85) || (c =? 0xA0) || (c =? 0x1680)
  || ((0x2000 <=? c) && (c <=? 0x200A))
  || (c =? 0x2028) || (c =? 0x2029) || (c =? 0x202F) || (c =? 0x205F)
  || (c =? 0x3000).

Fixpoint lstrip (s : str) : str :=
  match s with
  | [] => []
  | c :: s' => if isspace c then lstrip s' else s
  end.

Fixpoint rstrip (s : str) : str :=
  match s with
  | [] => []
  | c :: s' =>
      match rstrip s' with
      | [] => if isspace c then [] else [c]
      | r => c :: r
      end
  end.

(** [s.strip()] *)
Definition strip (s : str) : str := rstrip (lstrip s).

(** [s.startswith(p)] *)
Fixpoint startswith (p s : str) : bool :=
  match p, s with
  | [], _ => true
  | _ :: _, [] => false
  | a :: p', b :: s' => (a =? b) && startswith p' s'
  end.

(** [p in s] for strings *)
Fixpoint contains (p s : str) : bool :=
  startswith p s ||
  match s with
  | [] => false
  | _ :: s' => contains p s'
  end.

(** [s.split(sep)] for a one-character separator: empty pieces are kept. *)
Fixpoint split_go (sep : N) (s : str) : str * list str :=
  match s with
  | [] => ([], [])
  | c :: s' =>
      let '(w, ws) := split_go sep s' in
      if c =? sep then ([], w :: ws) else (c :: w, ws)
  end.

Definition split (sep : N) (s : str) : list str :=
  let '(w, ws) := split_go sep s in w :: ws.

(** [s.split(sep, 1)]: at most one cut, at the first separator. *)
Fixpoint split1 (sep : N) (s : str) : list str :=
  match s with
  | [] => [[]]
  | c :: s' =>
      if c =? sep then [[]; s']
      else match split1 sep s' with
           | w :: ws => (c :: w) :: ws
           | [] => [[c]]
           end
  end.

(** [s.split()]: cut at runs of whitespace, no empty pieces. *)
Fixpoint split_ws_go (s : str) : str * list str :=
  match s with
  | [] => ([], [])
  | c :: s' =>
      let '(w, ws) := split_ws_go s' in
      if isspace c
      then ([], match w with [] => ws | _ => w :: ws end)
      else (c :: w, ws)
  end.

Definition split_ws (s : str) : list str :=
  let '(w, ws) := split_ws_go s in
  match w with [] => ws | _ => w :: ws end.

(** [sep.join(l)] *)
Fixpoint join (sep : str) (l : list str) : str :=
  match l with
  | [] => []
  | [x] => x
  | x :: l' => x ++ sep ++ join sep l'
  end.

(** [str(n)] for a non-negative integer. *)
Fixpoint digits (fuel : nat) (n : N) (acc : str) : str :=
  match fuel with
  | O => acc
  | S f =>
      let acc' := (0x30 + n mod 10) :: acc in
      if n <? 10 then acc' else digits f (n / 10) acc'
  end.

Definition str_of_N (n : N) : str := digits (S (N.to_nat (N.log2 n))) n [].

(** Truth value of a string, and of an optional string ([None] is false). *)
Definition truthy (s : str) : bool :=
  match s with [] => false | _ => true end.

Definition truthy_opt (o : option str) : bool :=
  match o with Some s => truthy s | None => false end.

(** Exceptions, by class, with their message. *)
Inductive exn :=
| AttributeError (msg : str)
| IndexError (msg : str)
| ValueError (msg : str)
| ZeroDivisionError (msg : str)
| HTTPException (status_code : N) (detail : str)
| SyntaxError (msg : str)
| StatementError (msg : str)
| Exception (msg : str).

(** [str(e)] *)
Definition str_of_exn (e : exn) : str :=
  match e with
  | AttributeError m | IndexError m | ValueError m
  | ZeroDivisionError m | SyntaxError m | StatementError m | Exception m => m
  | HTTPException _ d => d
  end.

(** The outcome of a call: a value or a raised exception. *)
Inductive result (A : Type) :=
| Ok (a : A)
| Raise (e : exn).
Arguments Ok {A} a.
Arguments Raise {A} e.

(** Code that reads and writes a world [W] and may raise. *)
Definition M (W A : Type) : Type := W -> result A * W.

Definition ret {W A} (a : A) : M W A := fun w => (Ok a, w).
Definition raise {W A} (e : exn) : M W A := fun w => (Raise e, w).
Definition bind {W A B} (m : M W A) (k : A -> M W B) : M W B :=
  fun w => match m w with
           | (Ok a, w') => k a w'
           | (Raise e, w') => (Raise e, w')
           end.
(** [try: m except Exception as e: h e] *)
Definition try_except {W A} (m : M W A) (h : exn -> M W A) : M W A :=
  fun w => match m w with
           | (Ok a, w') => (Ok a, w')
           | (Raise e, w') => h e w'
           end.

(** A function definition as the compiler meets it: the keyword that
    introduces it, and whether an [await] expression occurs in its body.
    An [await] in the body of a plain [def] is a [SyntaxError]: the module
    holding the definition is refused when it is compiled, that is when it
    is imported, so a call of the function raises before any statement of
    its body runs.  In every other case a call runs the body. *)
Inductive def_keyword := plain_def | async_def.

Definition define {W A} (k : def_keyword) (awaits : bool) (body : M W A)
  : M W A :=
  match k, awaits with
  | plain_def, true => raise (SyntaxError (u "'await' outside async function"))
  | _, _ => body
  end.

Definition get {W} : M W W := fun w => (Ok w, w).
Definition modify {W} (f : W -> W) : M W unit := fun w => (Ok tt, f w).
Definition lift {W A} (r : result A) : M W A := fun w => (r, w).

(** [for x in l: body x] *)
Fixpoint for_each {W A} (l : list A) (body : A -> M W unit) : M W unit :=
  match l with
  | [] => ret tt
  | x :: l' => bind (body x) (fun _ => for_each l' body)
  end.

(** [l[i]] *)
Definition index {A} (l : list A) (i : nat) : result A :=
  match l !! i with
  | Some a => Ok a
  | None => Raise (IndexError (u "list index out of range"))
  end.

(** Values held in JSON-like dictionaries. *)
#[warnings="-register-all"]
Inductive value :=
| VNone
| VBool (b : bool)
| VInt (n : Z)
| VStr (s : str)
| VList (l : list value)
| VDict (d : list (str * value)).

(** A [dict] with string keys, in insertion order. *)
Abbreviation dict := (list (str * value)).

(** [d.get(k)]: the value stored under [k], [None] when absent. *)
Fixpoint dict_get (d : dict) (k : str) : value :=
  match d with
  | [] => VNone
  | (k', v) :: d' => if bool_decide (k' = k) then v else dict_get d' k
  end.

(** [a == b] on such values: [True == 1], lists entry by entry, dictionaries
    by their keys whatever the order. *)
Fixpoint value_eqb (a b : value) : bool :=
  match a, b with
  | VNone, VNone => true
  | VBool x, VBool y => Bool.eqb x y
  | VBool x, VInt y | VInt y, VBool x => (y =? (if x then 1 else 0))%Z
  | VInt x, VInt y => (x =? y)%Z
  | VStr x, VStr y => bool_decide (x = y)
  | VList x, VList y =>
      (fix entries (x y : list value) : bool :=
         match x, y with
         | [], [] => true
         | a' :: x', b' :: y' => value_eqb a' b' && entries x' y'
         | _, _ => false
         end) x y
  | VDict x, VDict y =>
      (length x =? length y)%nat
      && (fix entries (x : list (str * value)) : bool :=
            match x with
            | [] => true
            | (k, v) :: x' =>
                (fix lookup_in (y : list (str * value)) : bool :=
                   match y with
                   | [] => false
                   | (k', v') :: y' =>
                       if bool_decide (k' = k) then value_eqb v v'
                       else lookup_in y'
                   end) y
                && entries x'
            end) x
  | _, _ => false
  end.

(** [v == s] for a string [s] *)
Definition eq_str (v : value) (s : str) : bool :=
  match v with
  | VStr s' => bool_decide (s' = s)
  | _ => false
  end.

(** [bool(v)] *)
Definition bool_of (v : value) : bool :=
  match v with
  | VNone => false
  | VBool b => b
  | VInt n => negb (n =? 0)%Z
  | VStr s => truthy s
  | VList l => match l with [] => false | _ => true end
  | VDict d => match d with [] => false | _ => true end
  end.

(** [int(x)] for a float [x]: truncation towards zero. *)
Definition int_of_float (x : float) : Z :=
  match Prim2SF x with
  | S754_finite neg m e =>
      let v := if (0 <=? e)%Z then (Z.pos m * 2 ^ e)%Z
               else (Z.pos m / 2 ^ (- e))%Z in
      if neg then (- v)%Z else v
  | _ => 0%Z
  end.

(** [float(n)] for a machine-sized natural number. *)
Definition float_of_nat (n : nat) : float :=
  PrimFloat.of_uint63 (Uint63.of_Z (Z.of_nat n)).

(** [a / b] on integers: true division, in double precision. *)
Definition truediv (a b : nat) : result float :=
  match b with
  | O => Raise (ZeroDivisionError (u "division by zero"))
  | _ => Ok (PrimFloat.div (float_of_nat a) (float_of_nat b))
  end.

(** Readings of the system clock, one per call of [datetime.now()] or
    [datetime.utcnow()]. *)
Record clock := { readings : nat -> Z; reads : nat }.

Definition tick (c : clock) : Z * clock :=
  (readings c (reads c), {| readings := readings c; reads := S (reads c) |}).

(** The [random] module draws from a source of numbers. *)
Record rng := { draw : nat -> N; pos : nat }.

Definition next (g : rng) : N * rng :=
  (draw g (pos g), {| draw := draw g; pos := S (pos g) |}).

(** [random.randint(a, b)] with [a <= b] *)
Definition randint (a b : N) (g : rng) : N * rng :=
  let '(r, g') := next g in (a + r mod (b - a + 1), g').

(** [random.choice(l)] *)
Definition choice {A} (l : list A) (g : rng) : result A * rng :=
  match l with
  | [] => (Raise (IndexError (u "Cannot choose from an empty sequence")), g)
  | _ => let '(r, g') := next g in
         (index l (N.to_nat (r mod N.of_nat (length l))), g')
  end.

(** Remove the element at position [i]. *)
Fixpoint remove_at {A} (i : nat) (l : list A) : list A :=
  match l, i with
  | [], _ => []
  | _ :: l', O => l'
  | x :: l', S j => x :: remove_at j l'
  end.

(** [random.sample(l, k)]: [k] elements at distinct positions. *)
Fixpoint sample_go {A} (k : nat) (l : list A) (g : rng) : list A * rng :=
  match k with
  | O => ([], g)
  | S k' =>
      let '(r, g') := next g in
      let i := N.to_nat (r mod N.of_nat (length l)) in
      match l !! i with
      | Some x =>
          let '(xs, g'') := sample_go k' (remove_at i l) g' in
          (x :: xs, g'')
      | None => ([], g')
      end
  end.

Definition sample {A} (l : list A) (k : nat) (g : rng) : result (list A) * rng :=
  if (length l <? k)%nat
  then (Raise (ValueError (u "Sample larger than population or is negative")), g)
  else let '(xs, g') := sample_go k l g in (Ok xs, g').

End Py.

Notation "'let*' x ':=' m 'in' k" := (Py.bind m (fun x => k))
  (at level 10, x pattern, m at level 100, k at level 200).

Import Py.

(** ** Package [python_campaign_launcher/src] *)

Module Src.

(** *** [models/campaign.py] *)
Module Models.

Inductive PlatformType := TIKTOK | INSTAGRAM | YOUTUBE.

Definition PlatformType_value (p : PlatformType) : str :=
  match p with
  | TIKTOK => u "tiktok"
  | INSTAGRAM => u "instagram"
  | YOUTUBE => u "youtube"
  end.

Inductive CampaignStatus := PENDING | PROCESSING | COMPLETED | FAILED | SCHEDULED.

Definition CampaignStatus_value (s : CampaignStatus) : str :=
  match s with
  | PENDING => u "pending"
  | PROCESSING => u "processing"
  | COMPLETED => u "completed"
  | FAILED => u "failed"
  | SCHEDULED => u "scheduled"
  end.

Inductive ContentType :=
| AI_PRODUCT_REACTION | MYSTERY_LAUNCH | AI_VS_HUMAN_POLL | DAY_IN_LIFE
| MEMEABLE_CONTENT.

Definition ContentType_value (c : ContentType) : str :=
  match c with
  | AI_PRODUCT_REACTION => u "ai_product_reaction"
  | MYSTERY_LAUNCH => u "mystery_launch"
  | AI_VS_HUMAN_POLL => u "ai_vs_human_poll"
  | DAY_IN_LIFE => u "day_in_life"
  | MEMEABLE_CONTENT => u "memeable_content"
  end.

Record CampaignTemplate := {
  key : str;
  display : str;
  style_primary : str;
  style_secondary : str;
  has_affiliate : bool;
  keywords : list str;
  sources_rss : list str;
  affiliate_url_env : option str
}.

Record VideoGenerationRequest := {
  vg_script : str;
  vg_style : str;
  voice_language : str;
  duration : option N;
  resolution : str;
  background_music : bool
}.

Record CampaignConfig := {
  name : str;
  template_key : str;
  platforms : list PlatformType;
  content_type : ContentType;
  schedule : option str;
  daily_limit : N;
  video_config : VideoGenerationRequest;
  tags : list str;
  enabled : bool
}.

(** The script dictionary built by the content generator. *)
Record VideoScript := {
  hook : str;
  bullets : list str;
  twist : str;
  cta : str;
  hashtags : list str;
  style : str;
  estimated_duration : N
}.

(** [datetime] values are points on a time line. *)
Abbreviation datetime := Z.

Record Campaign := {
  id : str;
  config : CampaignConfig;
  status : CampaignStatus;
  created_at : datetime;
  updated_at : datetime;
  error_message : option str;
  generated_content : option VideoScript;
  published_urls : gmap str str;
  analytics : gmap str str
}.

End Models.

(** *** [core/templates.py] *)
Module Templates.
Import Models.

(** What opening and parsing the YAML file at [config_path] gave: the
    templates built from its [streams] entries, a missing file, or any
    other failure (malformed YAML, a stream without one of the required
    fields, a field of the wrong type). *)
Inductive config_file :=
| Streams (ts : list CampaignTemplate)
| FileNotFoundError
| LoadFailure (e : exn).

Definition _get_default_templates : list CampaignTemplate :=
  [ {| key := u "mnp";
       display := u "MNP/携帯乗換";
       style_primary := u "serious";
       style_secondary := u "kawaii";
       has_affiliate := true;
       keywords := [u "mnp"; u "乗り換え"; u "スマホ"; u "端末割引"; u "ポイント還元"];
       sources_rss := [u "https://news.yahoo.co.jp/rss/topics/it.xml"];
       affiliate_url_env := Some (u "AFFILIATE_MNP_URL") |};
    {| key := u "anime";
       display := u "アニメ/エンタメ";
       style_primary := u "kawaii";
       style_secondary := u "fun";
       has_affiliate := true;
       keywords := [u "アニメ"; u "声優"; u "映画化"; u "コラボ"];
       sources_rss := [u "https://news.yahoo.co.jp/rss/topics/entertainment.xml"];
       affiliate_url_env := Some (u "AFFILIATE_ANIME_URL") |};
    {| key := u "tech";
       display := u "テック/ガジェット";
       style_primary := u "tech";
       style_secondary := u "serious";
       has_affiliate := false;
       keywords := [u "発表"; u "発売"; u "比較"; u "性能"; u "レビュー"; u "新製品"];
       sources_rss := [u "https://news.yahoo.co.jp/rss/topics/it.xml"];
       affiliate_url_env := None |} ].

Definition load_templates (f : config_file) : list CampaignTemplate :=
  match f with
  | Streams ts => ts
  | FileNotFoundError => _get_default_templates
  | LoadFailure _ => _get_default_templates
  end.

(** The loop [for template in templates: if template.key == key: return
    template], followed by the [raise ValueError]. *)
Fixpoint first_with_key (k : str) (templates : list CampaignTemplate)
  : result CampaignTemplate :=
  match templates with
  | [] => Raise (ValueError (u "Template with key '" ++ k ++ u "' not found"))
  | template :: rest =>
      if bool_decide (key template = k) then Ok template
      else first_with_key k rest
  end.

Definition get_template_by_key (f : config_file) (k : str)
  : result CampaignTemplate :=
  first_with_key k (load_templates f).

End Templates.

(** *** [services/content_generator.py] *)
Module ContentGenerator.
Import Models.

(** What the generator touches outside its arguments: the [random]
    module and the standard output. *)
Record world := { rand : rng; stdout : list str }.

Definition print (s : str) : M world unit :=
  modify (fun w => {| rand := rand w; stdout := stdout w ++ [s] |}).

Definition with_rand {A} (f : rng -> A * rng) : M world A :=
  fun w => let '(a, g) := f (rand w) in
           (Ok a, {| rand := g; stdout := stdout w |}).

Definition random_choice {A} (l : list A) : M world A :=
  let* r := with_rand (choice l) in lift r.

Definition random_sample {A} (l : list A) (k : nat) : M world (list A) :=
  let* r := with_rand (sample l k) in lift r.

Definition random_randint (a b : N) : M world N := with_rand (randint a b).

(** [self.model]: [None] without an API key, else the Gemini model, of
    which the code uses [generate_content(prompt).text]. *)
Record GeminiContentGenerator := { model : option (str -> result str) }.

Definition content_type_prompts (c : ContentType) : option str :=
  match c with
  | AI_PRODUCT_REACTION => Some (u "
AI商品リアクション動画を作成してください：
- 新商品への驚きと興奮を表現
- 「えっ、これすごくない？」のような自然なリアクション
- 商品の特徴を3つのポイントで説明
- 視聴者への質問で終わる
")
  | MYSTERY_LAUNCH => Some (u "
ミステリー商品発表動画を作成してください：
- 「実は...」で始まる謎めいた導入
- 段階的に情報を明かす構成
- 最後に大きな発表
- 続きが気になる終わり方
")
  | AI_VS_HUMAN_POLL => Some (u "
AI vs 人間の投票動画を作成してください：
- 面白い比較テーマを設定
- AIと人間の違いを強調
- 視聴者に投票を促す
- コメント欄での議論を誘発
")
  | DAY_IN_LIFE => Some (u "
一日の生活動画を作成してください：
- 朝から夜までの流れ
- 商品/サービスの自然な使用場面
- リアルな日常感
- 共感できるエピソード
")
  | MEMEABLE_CONTENT => Some (u "
ミーム性のあるコンテンツを作成してください：
- トレンドを意識した内容
- シェアしたくなる要素
- キャッチーなフレーズ
- 真似しやすい構成
")
  end.

Definition _build_prompt (template : CampaignTemplate)
    (content_type : ContentType) (topic : option str) : str :=
  let base_prompt :=
    u "
あなたは日本のソーシャルメディア向けの短尺動画コンテンツを作成するプロのライターです。

テンプレート: " ++ display template ++
    u "
コンテンツタイプ: " ++ ContentType_value content_type ++
    u "
スタイル: " ++ style_primary template ++
    u " + " ++ style_secondary template ++
    u "
キーワード: " ++ join (u ", ") (keywords template) ++
    u "
" in
  let base_prompt :=
    match topic with
    | Some t => if truthy t
                then base_prompt ++ u "トピック: " ++ t ++ [0x0A]
                else base_prompt
    | None => base_prompt
    end in
  let base_prompt :=
    base_prompt ++ default [] (content_type_prompts content_type) in
  base_prompt ++ u "

以下の形式で15-30秒の動画用スクリプトを作成してください：

フック（最初の3秒）: [視聴者の注意を引く一言]
メインコンテンツ（3つのポイント）:
1. [ポイント1]
2. [ポイント2] 
3. [ポイント3]
ツイスト（意外な要素）: [驚きや新情報]
CTA（行動喚起）: [視聴者に求める行動]

ハッシュタグ: #関連タグ #日本語ハッシュタグ
".

Inductive section := sec_hook | sec_bullets | sec_twist | sec_cta.

#[global] Instance section_eq_dec : EqDecision section.
Proof. solve_decision. Defined.

(** The two variables the parsing loop updates. *)
Record parse_state := {
  script : VideoScript;
  current_section : option section
}.

Definition set_section (c : section) (st : parse_state) : parse_state :=
  {| script := script st; current_section := Some c |}.

Definition set_script (s : VideoScript) (st : parse_state) : parse_state :=
  {| script := s; current_section := current_section st |}.

Definition set_hook (v : str) (s : VideoScript) : VideoScript :=
  {| hook := v; bullets := bullets s; twist := twist s; cta := cta s;
     hashtags := hashtags s; style := style s;
     estimated_duration := estimated_duration s |}.

Definition set_twist (v : str) (s : VideoScript) : VideoScript :=
  {| hook := hook s; bullets := bullets s; twist := v; cta := cta s;
     hashtags := hashtags s; style := style s;
     estimated_duration := estimated_duration s |}.

Definition set_cta (v : str) (s : VideoScript) : VideoScript :=
  {| hook := hook s; bullets := bullets s; twist := twist s; cta := v;
     hashtags := hashtags s; style := style s;
     estimated_duration := estimated_duration s |}.

Definition append_bullet (v : str) (s : VideoScript) : VideoScript :=
  {| hook := hook s; bullets := bullets s ++ [v]; twist := twist s;
     cta := cta s; hashtags := hashtags s; style := style s;
     estimated_duration := estimated_duration s |}.

Definition extend_hashtags (l : list str) (s : VideoScript) : VideoScript :=
  {| hook := hook s; bullets := bullets s; twist := twist s; cta := cta s;
     hashtags := hashtags s ++ l; style := style s;
     estimated_duration := estimated_duration s |}.

Definition is_section (c : section) (st : parse_state) : bool :=
  bool_decide (current_section st = Some c).

(** [line.split(sep, 1)[1].strip()] *)
Definition after_first (sep : N) (line : str) : result str :=
  match index (split1 sep line) 1 with
  | Ok v => Ok (strip v)
  | Raise e => Raise e
  end.

(** [line.startswith(('1.', '2.', '3.', '-', '・'))] *)
Definition bullet_marker (line : str) : bool :=
  startswith (u "1.") line || startswith (u "2.") line
  || startswith (u "3.") line || startswith (u "-") line
  || startswith (u "・") line.

(** One turn of the loop [for line in lines] of
    [_parse_script_response]; [lower] is [str.lower]. *)
Definition parse_line (lower : str -> str) (st : parse_state) (raw : str)
  : result parse_state :=
  let line := strip raw in
  if negb (truthy line) then Ok st
  else if contains (u "フック") line || contains (u "hook") (lower line) then
    let st := set_section sec_hook st in
    if contains (u ":") line then
      match after_first 0x3A line with
      | Ok v => Ok (set_script (set_hook v (script st)) st)
      | Raise e => Raise e
      end
    else Ok st
  else if contains (u "メインコンテンツ") line || contains (u "ポイント") line then
    Ok (set_section sec_bullets st)
  else if contains (u "ツイスト") line || contains (u "twist") (lower line) then
    let st := set_section sec_twist st in
    if contains (u ":") line then
      match after_first 0x3A line with
      | Ok v => Ok (set_script (set_twist v (script st)) st)
      | Raise e => Raise e
      end
    else Ok st
  else if contains (u "CTA") line || contains (u "行動喚起") line then
    let st := set_section sec_cta st in
    if contains (u ":") line then
      match after_first 0x3A line with
      | Ok v => Ok (set_script (set_cta v (script st)) st)
      | Raise e => Raise e
      end
    else Ok st
  else if contains (u "ハッシュタグ") line || contains (u "#") line then
    let tags :=
      map strip (List.filter (startswith (u "#")) (split_ws line)) in
    Ok (set_script (extend_hashtags tags (script st)) st)
  else if is_section sec_bullets st && bullet_marker line then
    match (if contains (u ".") line then after_first 0x2E line
           else Ok (strip (drop 1 line))) with
    | Ok bullet_text =>
        Ok (set_script (append_bullet bullet_text (script st)) st)
    | Raise e => Raise e
    end
  else if is_section sec_hook st && negb (truthy (hook (script st))) then
    Ok (set_script (set_hook line (script st)) st)
  else if is_section sec_twist st && negb (truthy (twist (script st))) then
    Ok (set_script (set_twist line (script st)) st)
  else if is_section sec_cta st && negb (truthy (cta (script st))) then
    Ok (set_script (set_cta line (script st)) st)
  else Ok st.

Fixpoint parse_lines (lower : str -> str) (st : parse_state)
    (lines : list str) : result parse_state :=
  match lines with
  | [] => Ok st
  | line :: rest =>
      match parse_line lower st line with
      | Ok st' => parse_lines lower st' rest
      | Raise e => Raise e
      end
  end.

Definition empty_script (template : CampaignTemplate) : VideoScript :=
  {| hook := []; bullets := []; twist := []; cta := []; hashtags := [];
     style := style_primary template; estimated_duration := 25 |}.

Definition _parse_script_response (lower : str -> str) (response : str)
    (template : CampaignTemplate) : result VideoScript :=
  let lines := split 0x0A (strip response) in
  match parse_lines lower
          {| script := empty_script template; current_section := None |}
          lines with
  | Ok st => Ok (script st)
  | Raise e => Raise e
  end.

Definition _generate_mock_script (template : CampaignTemplate)
    (content_type : ContentType) : M world VideoScript :=
  let mock_hooks :=
    [ u "今話題の" ++ display template ++ u "について知ってる？";
      u "これは知らないと損する" ++ display template ++ u "の話";
      u "みんな！" ++ display template ++ u "で大変なことが起きてる！" ] in
  let* keyword0 := lift (index (keywords template) 0) in
  let mock_bullets :=
    [ keyword0 ++ u "の最新情報をチェック";
      u "実はこんなメリットがあるんです";
      u "みんなが知らない裏技を公開" ] in
  let mock_twists :=
    [ u "でも実は、もっとすごいことがあるんです！";
      u "実際に試してみたら、予想を超える結果が...";
      u "最後にとっておきの情報を教えます" ] in
  let mock_ctas :=
    [ u "あなたはどう思う？コメントで教えて！";
      u "続きが気になる人はフォローしてね";
      u "この情報、役に立った人はいいね！" ] in
  let* h := random_choice mock_hooks in
  let* b := random_sample mock_bullets 3 in
  let* t := random_choice mock_twists in
  let* c := random_choice mock_ctas in
  let tags := map (fun keyword => u "#" ++ keyword) (take 3 (keywords template)) in
  let* d := random_randint 20 35 in
  ret {| hook := h; bullets := b; twist := t; cta := c; hashtags := tags;
         style := style_primary template; estimated_duration := d |}.

Definition generate_script (self : GeminiContentGenerator)
    (lower : str -> str) (template : CampaignTemplate)
    (content_type : ContentType) (topic : option str)
  : M world VideoScript :=
  match model self with
  | None => _generate_mock_script template content_type
  | Some generate_content =>
      try_except
        (let prompt := _build_prompt template content_type topic in
         let* script_content := lift (generate_content prompt) in
         lift (_parse_script_response lower script_content template))
        (fun e =>
           let* _ := print (u "Error generating content with Gemini: "
                            ++ str_of_exn e) in
           _generate_mock_script template content_type)
  end.

End ContentGenerator.

(** *** [core/config.py] *)
Module Config.

(** The settings the modelled code reads; an unset variable is [None]. *)
Record Settings := {
  gemini_api_key : option str;
  tiktok_client_key : option str;
  instagram_client_id : option str;
  youtube_client_id : option str
}.

End Config.

(** *** [tasks/social_tasks.py] *)
Module SocialTasks.
Import Models Config.

(** Requests sent through the [requests] module, by URL. *)
Abbreviation network := (list str).

(** **** [class SocialMediaPublisher]

    Each method is a coroutine function; the definitions give what the
    coroutine does when it is awaited. *)

Definition publish_to_tiktok (settings : Settings) (content : dict)
    (video_url : str) : M network dict :=
  if negb (truthy_opt (tiktok_client_key settings)) then
    ret [ (u "status", VStr (u "skipped"));
          (u "reason", VStr (u "TikTok API not configured")) ]
  else
    try_except
      (ret [ (u "status", VStr (u "success"));
             (u "platform", VStr (u "tiktok"));
             (u "post_id", VStr (u "mock_tiktok_id"));
             (u "url", VStr (u "https://tiktok.com/@user/video/mock_tiktok_id"));
             (u "published_at", VStr (u "2024-01-01T00:00:00Z")) ])
      (fun e => ret [ (u "status", VStr (u "error"));
                      (u "error", VStr (str_of_exn e)) ]).

Definition publish_to_instagram (settings : Settings) (content : dict)
    (video_url : str) : M network dict :=
  if negb (truthy_opt (instagram_client_id settings)) then
    ret [ (u "status", VStr (u "skipped"));
          (u "reason", VStr (u "Instagram API not configured")) ]
  else
    try_except
      (ret [ (u "status", VStr (u "success"));
             (u "platform", VStr (u "instagram"));
             (u "post_id", VStr (u "mock_instagram_id"));
             (u "url", VStr (u "https://instagram.com/p/mock_instagram_id"));
             (u "published_at", VStr (u "2024-01-01T00:00:00Z")) ])
      (fun e => ret [ (u "status", VStr (u "error"));
                      (u "error", VStr (str_of_exn e)) ]).

Definition publish_to_youtube (settings : Settings) (content : dict)
    (video_url : str) : M network dict :=
  if negb (truthy_opt (youtube_client_id settings)) then
    ret [ (u "status", VStr (u "skipped"));
          (u "reason", VStr (u "YouTube API not configured")) ]
  else
    try_except
      (ret [ (u "status", VStr (u "success"));
             (u "platform", VStr (u "youtube"));
             (u "post_id", VStr (u "mock_youtube_id"));
             (u "url", VStr (u "https://youtube.com/watch?v=mock_youtube_id"));
             (u "published_at", VStr (u "2024-01-01T00:00:00Z")) ])
      (fun e => ret [ (u "status", VStr (u "error"));
                      (u "error", VStr (str_of_exn e)) ]).

(** The publish call of one platform. *)
Definition publish (settings : Settings) (p : PlatformType) (content : dict)
    (video_url : str) : M network dict :=
  match p with
  | TIKTOK => publish_to_tiktok settings content video_url
  | INSTAGRAM => publish_to_instagram settings content video_url
  | YOUTUBE => publish_to_youtube settings content video_url
  end.

(** **** [publish_to_platforms]

    The task is a plain [def]: it calls the coroutine functions of the
    publisher without awaiting them, so what it stores for a known platform
    is the coroutine object itself, whose body has not run. *)
Inductive object :=
| Dict (d : dict)
| Coroutine (body : M network dict).

(** [r.get(k)] *)
Definition object_get (r : object) (k : str) : result value :=
  match r with
  | Dict d => Ok (dict_get d k)
  | Coroutine _ =>
      Raise (AttributeError (u "'coroutine' object has no attribute 'get'"))
  end.

Record final_result := {
  fr_campaign_id : str;
  platform_results : gmap str object;
  total_platforms : nat;
  successful_publishes : nat;
  completed_at : str
}.

(** One call of [self.update_state(state=..., meta=...)]. *)
Record task_update := {
  state : str;
  step : str;
  progress : option Z;
  result_meta : option final_result;
  error : option str
}.

(** The updates sent to the Celery result backend, oldest first. *)
Abbreviation celery := (list task_update).

Definition update_state (s : task_update) : M celery unit :=
  modify (fun log => log ++ [s]).

(** The body of [for i, platform in enumerate(platforms)], from position
    [i] on, threading the [results] dictionary. *)
Fixpoint publish_loop (settings : Settings) (content_result : dict)
    (total_platforms : nat) (i : nat) (platforms : list str)
    (results : gmap str object) : M celery (gmap str object) :=
  match platforms with
  | [] => ret results
  | platform :: rest =>
      let* ratio := lift (truediv i total_platforms) in
      let progress_value :=
        int_of_float (PrimFloat.mul ratio (float_of_nat 100)) in
      let* _ := update_state
                  {| state := u "PROGRESS";
                     step := u "Publishing to " ++ platform;
                     progress := Some progress_value;
                     result_meta := None; error := None |} in
      let video_url := dict_get content_result (u "video_url") in
      if negb (bool_of video_url) then
        publish_loop settings content_result total_platforms (S i) rest
          (<[platform := Dict [ (u "status", VStr (u "error"));
                                (u "error", VStr (u "No video available")) ]]>
             results)
      else
        let url := match video_url with VStr s => s | _ => [] end in
        let result :=
          if bool_decide (platform = PlatformType_value TIKTOK) then
            Coroutine (publish_to_tiktok settings content_result url)
          else if bool_decide (platform = PlatformType_value INSTAGRAM) then
            Coroutine (publish_to_instagram settings content_result url)
          else if bool_decide (platform = PlatformType_value YOUTUBE) then
            Coroutine (publish_to_youtube settings content_result url)
          else
            Dict [ (u "status", VStr (u "error"));
                   (u "error", VStr (u "Unknown platform: " ++ platform)) ] in
        publish_loop settings content_result total_platforms (S i) rest
          (<[platform := result]> results)
  end.

(** [sum(1 for r in values if r.get('status') == 'success')] *)
Fixpoint count_success (values : list object) : result nat :=
  match values with
  | [] => Ok O
  | r :: rest =>
      match object_get r (u "status") with
      | Raise e => Raise e
      | Ok v =>
          match count_success rest with
          | Raise e => Raise e
          | Ok n => Ok (if eq_str v (u "success") then S n else n)
          end
      end
  end.

Definition publish_to_platforms (settings : Settings) (campaign_id : str)
    (content_result : dict) (platforms : list str) : M celery final_result :=
  try_except
    (let total := length platforms in
     let* results := publish_loop settings content_result total 0 platforms ∅ in
     let* n := lift (count_success (map snd (map_to_list results))) in
     let final :=
       {| fr_campaign_id := campaign_id;
          platform_results := results;
          total_platforms := total;
          successful_publishes := n;
          completed_at := u "2024-01-01T00:00:00Z" |} in
     let* _ := update_state
                 {| state := u "SUCCESS"; step := u "Publishing completed";
                    progress := Some 100%Z; result_meta := Some final;
                    error := None |} in
     ret final)
    (fun exc =>
       let error_msg := str_of_exn exc in
       let* _ := update_state
                   {| state := u "FAILURE"; step := u "Error in publishing";
                      progress := None; result_meta := None;
                      error := Some error_msg |} in
       raise exc).

End SocialTasks.

(** *** [main.py] *)
Module Main.
Import Models Templates.

(** The dictionary handed to the content task. *)
Record task_config := {
  tc_id : str;
  tc_template_key : str;
  tc_content_type : str;
  tc_platforms : list str;
  tc_video_config : VideoGenerationRequest
}.

(** The state the handlers work on: the process-wide [campaigns_db]
    dictionary, the content tasks handed to Celery with the identifiers
    Celery gave them, and the clock. *)
Record world := {
  campaigns_db : gmap str Campaign;
  delayed : list (str * task_config);
  task_ids : nat -> str;
  now : clock
}.

Definition set_campaigns_db (db : gmap str Campaign) (w : world) : world :=
  {| campaigns_db := db; delayed := delayed w; task_ids := task_ids w;
     now := now w |}.

(** [datetime.now()] *)
Definition datetime_now : M world datetime :=
  fun w => let '(t, c) := tick (now w) in
           (Ok t, {| campaigns_db := campaigns_db w; delayed := delayed w;
                     task_ids := task_ids w; now := c |}).

(** [generate_campaign_content.delay(task_config)]: the task is put on the
    queue and its identifier is returned; the handler does not wait. *)
Definition generate_campaign_content_delay (c : task_config) : M world str :=
  fun w => let task_id := task_ids w (length (delayed w)) in
           (Ok task_id,
            {| campaigns_db := campaigns_db w;
               delayed := delayed w ++ [(task_id, c)];
               task_ids := task_ids w; now := now w |}).

Definition set_status (s : CampaignStatus) (c : Campaign) : Campaign :=
  {| id := id c; config := config c; status := s;
     created_at := created_at c; updated_at := updated_at c;
     error_message := error_message c;
     generated_content := generated_content c;
     published_urls := published_urls c; analytics := analytics c |}.

Definition set_updated_at (t : datetime) (c : Campaign) : Campaign :=
  {| id := id c; config := config c; status := status c;
     created_at := created_at c; updated_at := t;
     error_message := error_message c;
     generated_content := generated_content c;
     published_urls := published_urls c; analytics := analytics c |}.

Record regenerate_response := {
  r_campaign_id : str;
  r_task_id : str;
  r_status : str
}.

(** [POST /campaigns/{campaign_id}/generate] *)
Definition regenerate_campaign_content (campaign_id : str)
  : M world regenerate_response :=
  let* w := get in
  match campaigns_db w !! campaign_id with
  | None => raise (HTTPException 404 (u "Campaign not found"))
  | Some campaign =>
      let c :=
        {| tc_id := campaign_id;
           tc_template_key := template_key (config campaign);
           tc_content_type := ContentType_value (content_type (config campaign));
           tc_platforms := map PlatformType_value (platforms (config campaign));
           tc_video_config := video_config (config campaign) |} in
      let* task_id := generate_campaign_content_delay c in
      let campaign := set_status PROCESSING campaign in
      let* t := datetime_now in
      let campaign := set_updated_at t campaign in
      let* _ := modify (fun w => set_campaigns_db
                                   (<[campaign_id := campaign]> (campaigns_db w)) w) in
      ret {| r_campaign_id := campaign_id; r_task_id := task_id;
             r_status := u "processing" |}
  end.

(** [GET /templates/{template_key}] *)
Definition get_template (f : config_file) (template_key : str)
  : result CampaignTemplate :=
  match get_template_by_key f template_key with
  | Ok template => Ok template
  | Raise (ValueError m) => Raise (HTTPException 404 m)
  | Raise e => Raise (HTTPException 500 (str_of_exn e))
  end.

End Main.

End Src.

(** ** Package [python-campaign-launcher/app] *)

Module App.

(** *** [models.py] *)
Module Models.

Inductive CampaignStatus := DRAFT | SCHEDULED | RUNNING | PAUSED | COMPLETED | FAILED.

Definition CampaignStatus_value (s : CampaignStatus) : str :=
  match s with
  | DRAFT => u "draft"
  | SCHEDULED => u "scheduled"
  | RUNNING => u "running"
  | PAUSED => u "paused"
  | COMPLETED => u "completed"
  | FAILED => u "failed"
  end.

Inductive CampaignType :=
| AI_PRODUCT_REACTION | MYSTERY_PRODUCT_LAUNCH | AI_VS_HUMAN_POLL | DAY_IN_LIFE
| MEMEABLE_CONTENT.

Definition CampaignType_value (c : CampaignType) : str :=
  match c with
  | AI_PRODUCT_REACTION => u "ai_product_reaction"
  | MYSTERY_PRODUCT_LAUNCH => u "mystery_product_launch"
  | AI_VS_HUMAN_POLL => u "ai_vs_human_poll"
  | DAY_IN_LIFE => u "day_in_life"
  | MEMEABLE_CONTENT => u "memeable_content"
  end.

Inductive Platform := TIKTOK | INSTAGRAM | YOUTUBE.

Definition Platform_value (p : Platform) : str :=
  match p with
  | TIKTOK => u "tiktok"
  | INSTAGRAM => u "instagram"
  | YOUTUBE => u "youtube"
  end.

Inductive VideoStyle := ANIME | REALISTIC | CARTOON | MINIMALIST.

Abbreviation datetime := Z.

Record VideoContent := {
  prompt : str;
  style : VideoStyle;
  duration : Z;
  aspect_ratio : str;
  background_music : option str;
  voice_over : option str;
  subtitles : bool;
  japanese_optimized : bool
}.

Record SocialPost := {
  platform : Platform;
  caption : str;
  hashtags : list str;
  scheduled_time : option datetime;
  posted : bool;
  post_id : option str;
  engagement_stats : option dict
}.

Record CampaignConfig := {
  target_platforms : list Platform;
  posting_schedule : dict;
  auto_engage : bool;
  engagement_replies : list str;
  content_variations : Z;
  japanese_locale : bool;
  trending_hashtags : bool
}.

(** [class Config: use_enum_values = True]: [campaign_type] and [status]
    hold the string values of their enumerations. *)
Record Campaign := {
  name : str;
  description : str;
  campaign_type : str;
  video_content : VideoContent;
  config : CampaignConfig;
  id : str;
  status : str;
  created_at : datetime;
  updated_at : datetime;
  posts : list SocialPost;
  video_urls : list str;
  analytics : option dict
}.

End Models.

(** *** [config.py] *)
Module Config.

Record Settings := {
  tiktok_client_id : option str;
  tiktok_client_secret : option str;
  instagram_access_token : option str;
  youtube_client_id : option str;
  youtube_client_secret : option str;
  default_hashtags_jp : list str
}.

End Config.

(** *** [database.py] *)
Module Database.
Import Models.

(** A row of table [campaigns]; the primary key [id] is the key under which
    the table holds the row. *)
Record CampaignDB := {
  c_name : str;
  c_description : str;
  c_campaign_type : str;
  c_status : str;
  c_video_content : VideoContent;
  c_config : CampaignConfig;
  c_posts : list SocialPost;
  c_video_urls : list str;
  c_analytics : option dict;
  c_created_at : datetime;
  c_updated_at : datetime
}.

(** A row of table [engagement_tasks], keyed by its [id]. *)
Record EngagementTaskDB := {
  campaign_id : str;
  e_platform : str;
  e_post_id : str;
  task_type : str;
  executed : bool;
  e_scheduled_time : datetime;
  e_result : option dict
}.

End Database.

(** *** [services/social_poster.py] *)
Module SocialPoster.
Import Models Config.

Inductive level := INFO | WARNING | ERROR.

(** What the service touches: the [random] module, the clock, the calls made
    to the platform API clients and the log. *)
Record world := {
  rand : rng;
  now : clock;
  client_calls : list (Platform * str * str);
  log : list (level * str)
}.

Definition with_rand {A} (f : rng -> A * rng) : M world A :=
  fun w => let '(a, g) := f (rand w) in
           (Ok a, {| rand := g; now := now w;
                     client_calls := client_calls w; log := log w |}).

Definition utcnow : M world datetime :=
  fun w => let '(t, c) := tick (now w) in
           (Ok t, {| rand := rand w; now := c;
                     client_calls := client_calls w; log := log w |}).

Definition logger (l : level) (msg : str) : M world unit :=
  modify (fun w => {| rand := rand w; now := now w;
                      client_calls := client_calls w;
                      log := log w ++ [(l, msg)] |}).

Definition called (p : Platform) (video_url caption : str) : M world unit :=
  modify (fun w => {| rand := rand w; now := now w;
                      client_calls := client_calls w ++ [(p, video_url, caption)];
                      log := log w |}).

(** The three API clients.  Each posting method waits, logs the first fifty
    characters of the caption and answers with a fresh post identifier. *)
Definition client_post (p : Platform) (name prefix : str)
    (video_url caption : str) : M world dict :=
  let* _ := called p video_url caption in
  try_except
    (let* _ := logger INFO (u "Posting to " ++ name ++ u ": "
                            ++ take 50 caption ++ u "...") in
     let* n := with_rand (randint 100000 999999) in
     ret [ (u "success", VBool true);
           (u "post_id", VStr (prefix ++ u "_" ++ str_of_N n));
           (u "video_url", VStr video_url) ])
    (fun e =>
       let* _ := logger ERROR (name ++ u " posting error: " ++ str_of_exn e) in
       ret [ (u "success", VBool false); (u "error", VStr (str_of_exn e)) ]).

Record TikTokAPIClient := {
  tt_client_id : option str; tt_client_secret : option str }.
Record InstagramAPIClient := { ig_access_token : option str }.
Record YouTubeAPIClient := {
  yt_client_id : option str; yt_client_secret : option str }.

Definition post_video (c : TikTokAPIClient) := client_post TIKTOK (u "TikTok") (u "tiktok").
Definition post_reel (c : InstagramAPIClient) := client_post INSTAGRAM (u "Instagram") (u "instagram").
Definition post_short (c : YouTubeAPIClient) := client_post YOUTUBE (u "YouTube") (u "youtube").

Record SocialPosterService := {
  tiktok_client : option TikTokAPIClient;
  instagram_client : option InstagramAPIClient;
  youtube_client : option YouTubeAPIClient
}.

(** [__init__], through [setup_api_clients] *)
Definition setup_api_clients (settings : Settings) : SocialPosterService :=
  {| tiktok_client :=
       if truthy_opt (tiktok_client_id settings)
       then Some {| tt_client_id := tiktok_client_id settings;
                    tt_client_secret := tiktok_client_secret settings |}
       else None;
     instagram_client :=
       if truthy_opt (instagram_access_token settings)
       then Some {| ig_access_token := instagram_access_token settings |}
       else None;
     youtube_client :=
       if truthy_opt (youtube_client_id settings)
       then Some {| yt_client_id := youtube_client_id settings;
                    yt_client_secret := youtube_client_secret settings |}
       else None |}.

(** Times are counted in seconds. *)
Definition timedelta_hours (h : N) : Z := (3600 * Z.of_N h)%Z.

Definition _calculate_scheduled_time (schedule : dict) : M world datetime :=
  let* base_time := utcnow in
  let* hours_offset := with_rand (randint 1 6) in
  ret (base_time + timedelta_hours hours_offset)%Z.

(** [social_post.post_id = ...; social_post.posted = True] *)
Definition mark_posted (pid : option str) (s : SocialPost) : SocialPost :=
  {| platform := platform s; caption := caption s; hashtags := hashtags s;
     scheduled_time := scheduled_time s; posted := true; post_id := pid;
     engagement_stats := engagement_stats s |}.

Definition str_or_none (v : value) : option str :=
  match v with VStr s => Some s | _ => None end.

Definition schedule_post (self : SocialPosterService) (p : Platform)
    (video_url caption : str) (tags : list str) (schedule : dict)
  : M world (option SocialPost) :=
  try_except
    (let* t := _calculate_scheduled_time schedule in
     let social_post :=
       {| platform := p;
          caption := caption ++ [0x0A; 0x0A] ++ join (u " ") tags;
          hashtags := tags;
          scheduled_time := Some t;
          posted := false; post_id := None; engagement_stats := None |} in
     let simulated :=
       let* n := with_rand (randint 1000 9999) in
       let pid := u "demo_" ++ Platform_value p ++ u "_" ++ str_of_N n in
       let* _ := logger INFO (u "Simulated posting to " ++ Platform_value p
                              ++ u ": " ++ pid) in
       ret (Some (mark_posted (Some pid) social_post)) in
     match p, tiktok_client self, instagram_client self, youtube_client self with
     | TIKTOK, Some client, _, _ =>
         let* r := post_video client video_url (Models.caption social_post) in
         ret (Some (mark_posted (str_or_none (dict_get r (u "post_id"))) social_post))
     | INSTAGRAM, _, Some client, _ =>
         let* r := post_reel client video_url (Models.caption social_post) in
         ret (Some (mark_posted (str_or_none (dict_get r (u "post_id"))) social_post))
     | YOUTUBE, _, _, Some client =>
         let* r := post_short client video_url (Models.caption social_post) in
         ret (Some (mark_posted (str_or_none (dict_get r (u "post_id"))) social_post))
     | _, _, _, _ => simulated
     end)
    (fun e =>
       let* _ := logger ERROR (u "Error scheduling post for " ++ Platform_value p
                               ++ u ": " ++ str_of_exn e) in
       ret None).

(** The [platform] argument of the engagement methods is annotated
    [Platform]; the worker passes the string held in the task row. *)
Inductive platform_arg :=
| Member (p : Platform)
| Text (s : str).

(** [platform.value] *)
Definition value_of (p : platform_arg) : result str :=
  match p with
  | Member m => Ok (Platform_value m)
  | Text _ => Raise (AttributeError (u "'str' object has no attribute 'value'"))
  end.

(** The five reply texts, code point by code point as the source file holds
    them. *)
Definition replies : list str :=
  [
    [ 0xE3; 0x2122; 0xE3; 0x201D; 0xE3; 0x201E; 0xEF; 0xBC; 0xE3; 0x201C;
      0xE3; 0x201A; 0x152; 0xE3; 0xAF; 0xE9; 0xA2; 0xE7; 0x2122; 0xBD;
      0xE3; 0x201E; 0xE3; 0xA7; 0xE3; 0x2122; 0xE3; 0xAD; 0x20; 0xF0;
      0x178; 0x2DC ];
    [ 0xE7; 0xB4; 0xA0; 0xE6; 0x2122; 0xB4; 0xE3; 0x201A; 0x2030; 0xE3;
      0x2014; 0xE3; 0x201E; 0xE3; 0x201A; 0xB3; 0xE3; 0x192; 0xB3; 0xE3;
      0x192; 0x2020; 0xE3; 0x192; 0xB3; 0xE3; 0x192; 0x201E; 0xE3; 0xA7;
      0xE3; 0x2122; 0xEF; 0xBC ];
    [ 0xE3; 0x201C; 0xE3; 0x201A; 0x152; 0xE3; 0xAF; 0xE3; 0x192; 0xE3;
      0x201A; 0xA4; 0xE3; 0x192; 0xA9; 0xE3; 0x192; 0xAB; 0xE3; 0xAB;
      0xE3; 0xAA; 0xE3; 0x201A; 0x160; 0xE3; 0xE3; 0x2020; 0x20; 0xF0;
      0x178; 0x201D; 0xA5 ];
    [ 0xE6; 0x2014; 0xA5; 0xE6; 0x153; 0xAC; 0xE3; 0xAE; 0xE3; 0x201A;
      0xAF; 0xE3; 0x192; 0xAA; 0xE3; 0x201A; 0xA8; 0xE3; 0x201A; 0xA4;
      0xE3; 0x192; 0x2020; 0xE3; 0x201A; 0xA3; 0xE3; 0x192; 0x2013; 0xE5;
      0x160; 0x203A; 0xE3; 0x201A; 0x2019; 0xE6; 0x201E; 0x178; 0xE3; 0x2DC;
      0xE3; 0xBE; 0xE3; 0x2122; 0xEF; 0xBC ];
    [ 0xE6; 0xAC; 0xA1; 0xE3; 0xAE; 0xE5; 0x2039; 0x2022; 0xE7; 0x201D;
      0xBB; 0xE3; 0x201A; 0x201A; 0xE6; 0xA5; 0xBD; 0xE3; 0x2014; 0xE3;
      0xBF; 0xE3; 0xA7; 0xE3; 0x2122; 0x20; 0xE2; 0x153; 0xA8 ]
  ].

(** [asyncio.sleep] only lets time pass. *)
Definition _auto_reply (p : platform_arg) (post : str) (campaign : str)
  : M world dict :=
  let* reply_text := let* r := with_rand (choice replies) in lift r in
  let* n := with_rand (randint 1000 9999) in
  let* v := lift (value_of p) in
  ret [ (u "success", VBool true);
        (u "reply_id", VStr (u "reply_" ++ str_of_N n));
        (u "reply_text", VStr reply_text);
        (u "platform", VStr v) ].

Definition _auto_like (p : platform_arg) (post : str) : M world dict :=
  let* v := lift (value_of p) in
  ret [ (u "success", VBool true);
        (u "action", VStr (u "liked"));
        (u "platform", VStr v);
        (u "post_id", VStr post) ].

Definition _auto_share (p : platform_arg) (post : str) : M world dict :=
  let* v := lift (value_of p) in
  ret [ (u "success", VBool true);
        (u "action", VStr (u "shared"));
        (u "platform", VStr v);
        (u "post_id", VStr post) ].

Definition engage_with_content (self : SocialPosterService) (campaign : str)
    (p : platform_arg) (post : str) (engagement_type : str) : M world dict :=
  try_except
    (if bool_decide (engagement_type = u "reply") then _auto_reply p post campaign
     else if bool_decide (engagement_type = u "like") then _auto_like p post
     else if bool_decide (engagement_type = u "share") then _auto_share p post
     else
       let* _ := logger WARNING (u "Unknown engagement type: " ++ engagement_type) in
       ret [ (u "success", VBool false);
             (u "error", VStr (u "Unknown engagement type")) ])
    (fun e =>
       let* _ := logger ERROR (u "Error engaging with content: " ++ str_of_exn e) in
       ret [ (u "success", VBool false); (u "error", VStr (str_of_exn e)) ]).

End SocialPoster.

(** *** [workers/engagement_worker.py] *)
Module EngagementWorker.
Import Models Config Database SocialPoster.

(** The table [engagement_tasks] and everything the social poster touches. *)
Record world := {
  tasks : gmap str EngagementTaskDB;
  outside : SocialPoster.world
}.

(** A step of the social poster, run from the worker. *)
Definition poster {A} (m : M SocialPoster.world A) : M world A :=
  fun w => let '(r, o) := m (outside w) in
           (r, {| tasks := tasks w; outside := o |}).

(** [task.executed = True; task.result = result; db.commit()] *)
Definition mark_executed (r : dict) (t : EngagementTaskDB) : EngagementTaskDB :=
  {| campaign_id := campaign_id t; e_platform := e_platform t;
     e_post_id := e_post_id t; task_type := task_type t;
     executed := true; e_scheduled_time := e_scheduled_time t;
     e_result := Some r |}.

Definition commit (key : str) (t : EngagementTaskDB) : M world unit :=
  modify (fun w => {| tasks := <[key := t]> (tasks w); outside := outside w |}).

(** The filter of the query: [executed == False] and
    [scheduled_time <= datetime.utcnow()]. *)
Definition is_pending (t_now : datetime) (t : EngagementTaskDB) : bool :=
  negb (executed t) && (e_scheduled_time t <=? t_now)%Z.

(** [db.query(EngagementTaskDB).filter(...).limit(10).all()]; the query has
    no [ORDER BY], so the order in which the table yields its rows,
    [rows_of], is the database's choice. *)
Definition pending_tasks
    (rows_of : gmap str EngagementTaskDB -> list (str * EngagementTaskDB))
    (t_now : datetime) (table : gmap str EngagementTaskDB)
  : list (str * EngagementTaskDB) :=
  take 10 (List.filter (fun r => is_pending t_now (snd r)) (rows_of table)).

(** The statements of the body of [for task in pending_tasks], the first of
    which holds the [await] of the function: [result = await
    social_poster.engage_with_content(...)].  They are written here as they
    would run inside a coroutine, the awaited call giving its result; the
    [def] they stand in is refused by the compiler, see
    [process_engagement_queue]. *)
Definition execute_task (social_poster : SocialPosterService)
    (r : str * EngagementTaskDB) : M world unit :=
  let '(key, task) := r in
  try_except
    (let* res := poster (engage_with_content social_poster
                           (campaign_id task) (Text (e_platform task))
                           (e_post_id task) (task_type task)) in
     let* _ := commit key (mark_executed res task) in
     poster (logger INFO (u "Executed engagement task: " ++ key)))
    (fun e =>
       poster (logger ERROR (u "Error executing engagement task " ++ key
                             ++ u ": " ++ str_of_exn e))).

(** [process_engagement_queue] is introduced by a plain [def] and its loop
    holds an [await] expression: the module is refused by the compiler with
    ['await' outside async function].  Calling the task begins with
    importing the module, so the call raises [SyntaxError] and none of the
    statements below runs. *)
Definition process_engagement_queue (settings : Settings)
    (rows_of : gmap str EngagementTaskDB -> list (str * EngagementTaskDB))
  : M world unit :=
  define plain_def true
    (try_except
       (let* _ := poster (logger INFO (u "Processing engagement queue...")) in
        let* t_now := poster utcnow in
        let* w := get in
        let pending := pending_tasks rows_of t_now (tasks w) in
        let social_poster := setup_api_clients settings in
        let* _ := for_each pending (execute_task social_poster) in
        poster (logger INFO (u "Processed "
                             ++ str_of_N (N.of_nat (length pending))
                             ++ u " engagement tasks")))
       (fun e =>
          let* _ := poster (logger ERROR (u "Error processing engagement queue: "
                                          ++ str_of_exn e)) in
          raise e)).

End EngagementWorker.

(** *** [services/campaign_manager.py] *)
Module CampaignManager.
Import Models Config Database.

Inductive level := INFO | WARNING | ERROR.

(** The table [campaigns], the clock, the log, and the state [S] of the two
    services the manager holds ([self.video_generator] and
    [self.social_poster]). *)
Record world (S : Type) := {
  campaigns : gmap str CampaignDB;
  now : clock;
  log : list (level * str);
  services : S
}.
Arguments campaigns {S} w.
Arguments now {S} w.
Arguments log {S} w.
Arguments services {S} w.

Definition CampaignStatus_of (s : str) : option CampaignStatus :=
  List.find (fun c => bool_decide (CampaignStatus_value c = s))
    [DRAFT; SCHEDULED; RUNNING; PAUSED; COMPLETED; FAILED].

Definition CampaignType_of (s : str) : option CampaignType :=
  List.find (fun c => bool_decide (CampaignType_value c = s))
    [AI_PRODUCT_REACTION; MYSTERY_PRODUCT_LAUNCH; AI_VS_HUMAN_POLL;
     DAY_IN_LIFE; MEMEABLE_CONTENT].

Definition set_status (s : str) (t : datetime) (c : CampaignDB) : CampaignDB :=
  {| c_name := c_name c; c_description := c_description c;
     c_campaign_type := c_campaign_type c; c_status := s;
     c_video_content := c_video_content c; c_config := c_config c;
     c_posts := c_posts c; c_video_urls := c_video_urls c;
     c_analytics := c_analytics c; c_created_at := c_created_at c;
     c_updated_at := t |}.

Definition set_video_urls (l : list str) (c : CampaignDB) : CampaignDB :=
  {| c_name := c_name c; c_description := c_description c;
     c_campaign_type := c_campaign_type c; c_status := c_status c;
     c_video_content := c_video_content c; c_config := c_config c;
     c_posts := c_posts c; c_video_urls := l;
     c_analytics := c_analytics c; c_created_at := c_created_at c;
     c_updated_at := c_updated_at c |}.

Definition set_posts (l : list SocialPost) (c : CampaignDB) : CampaignDB :=
  {| c_name := c_name c; c_description := c_description c;
     c_campaign_type := c_campaign_type c; c_status := c_status c;
     c_video_content := c_video_content c; c_config := c_config c;
     c_posts := l; c_video_urls := c_video_urls c;
     c_analytics := c_analytics c; c_created_at := c_created_at c;
     c_updated_at := c_updated_at c |}.

Definition set_updated_at (t : datetime) (c : CampaignDB) : CampaignDB :=
  {| c_name := c_name c; c_description := c_description c;
     c_campaign_type := c_campaign_type c; c_status := c_status c;
     c_video_content := c_video_content c; c_config := c_config c;
     c_posts := c_posts c; c_video_urls := c_video_urls c;
     c_analytics := c_analytics c; c_created_at := c_created_at c;
     c_updated_at := t |}.

(** [json.dumps] of the value assigned to column [posts], the list of
    [post.dict()]: the engine is created without a [json_serializer], and
    the encoder of the standard library has no case for the [datetime] that
    [post.dict()] keeps under ["scheduled_time"].  The members of [Platform]
    are strings and are encoded as such. *)
Definition json_serializable (l : list SocialPost) : bool :=
  forallb (fun post => match scheduled_time post with
                       | None => true
                       | Some _ => false
                       end) l.

(** What [db.commit()] raises then: SQLAlchemy's [StatementError] around the
    [TypeError] of the encoder (its text goes on with the statement and the
    parameters). *)
Definition not_serializable : exn :=
  StatementError
    (u "(builtins.TypeError) Object of type datetime is not JSON serializable").

(** [a == b] on two posts, as dictionaries. *)
Definition same_post (a b : SocialPost) : bool :=
  bool_decide (Platform_value (platform a) = Platform_value (platform b))
  && bool_decide (caption a = caption b)
  && bool_decide (hashtags a = hashtags b)
  && bool_decide (scheduled_time a = scheduled_time b)
  && Bool.eqb (posted a) (posted b)
  && bool_decide (post_id a = post_id b)
  && match engagement_stats a, engagement_stats b with
     | None, None => true
     | Some x, Some y => value_eqb (VDict x) (VDict y)
     | _, _ => false
     end.

Fixpoint same_posts (l k : list SocialPost) : bool :=
  match l, k with
  | [], [] => true
  | a :: l', b :: k' => same_post a b && same_posts l' k'
  | _, _ => false
  end.

Section Manager.
Context {S : Type}.

(** [self.video_generator.generate_video(prompt, style, duration,
    japanese_optimized)] *)
Variable generate_video : str -> VideoStyle -> Z -> bool -> M S (option str).

(** [self.social_poster.schedule_post(platform, video_url, caption,
    hashtags, schedule)] *)
Variable schedule_post :
  Platform -> str -> str -> list str -> dict -> M S (option SocialPost).

Variable settings : Settings.

Definition service {A} (m : M S A) : M (world S) A :=
  fun w => let '(r, s) := m (services w) in
           (r, {| campaigns := campaigns w; now := now w; log := log w;
                  services := s |}).

Definition logger (l : level) (msg : str) : M (world S) unit :=
  modify (fun w => {| campaigns := campaigns w; now := now w;
                      log := log w ++ [(l, msg)]; services := services w |}).

Definition utcnow : M (world S) datetime :=
  fun w => let '(t, c) := tick (now w) in
           (Ok t, {| campaigns := campaigns w; now := c; log := log w;
                     services := services w |}).

(** The [INSERT] or [UPDATE] that [db.commit()] sends, once its parameters
    are bound: the row is written under its key. *)
Definition commit (key : str) (row : CampaignDB) : M (world S) unit :=
  modify (fun w => {| campaigns := <[key := row]> (campaigns w); now := now w;
                      log := log w; services := services w |}).

(** [db_campaign.video_urls = video_urls; db.commit()] on the row that was
    read.  The unit of work sends an [UPDATE] only when the value assigned
    differs from the one loaded; the [UPDATE] does not name [updated_at], so
    [onupdate=datetime.utcnow] reads the clock for it. *)
Definition commit_video_urls (key : str) (video_urls : list str)
    (row : CampaignDB) : M (world S) unit :=
  if bool_decide (video_urls = c_video_urls row) then ret tt
  else
    let* t := utcnow in
    commit key (set_updated_at t (set_video_urls video_urls row)).

(** [db_campaign.posts = [post.dict() for post in posts]; db.commit()] on the
    row that was read.  A list holding a [datetime] differs from every list
    loaded from the column; the [UPDATE] evaluates [onupdate] for
    [updated_at] and then encodes its parameters, which fails for such a
    list: nothing is written and the exception leaves [db.commit()]. *)
Definition commit_posts (key : str) (new_posts : list SocialPost)
    (row : CampaignDB) : M (world S) unit :=
  if json_serializable new_posts && same_posts new_posts (c_posts row)
  then ret tt
  else
    let* t := utcnow in
    if json_serializable new_posts
    then commit key (set_updated_at t (set_posts new_posts row))
    else raise not_serializable.

(** Building the [Campaign] model from the columns of a row: the two
    enumeration fields are validated. *)
Definition to_campaign (key : str) (row : CampaignDB) : result Campaign :=
  match CampaignType_of (c_campaign_type row), CampaignStatus_of (c_status row) with
  | Some ct, Some st =>
      Ok {| name := c_name row; description := c_description row;
            campaign_type := CampaignType_value ct;
            video_content := c_video_content row; config := c_config row;
            id := key; status := CampaignStatus_value st;
            created_at := c_created_at row; updated_at := c_updated_at row;
            posts := c_posts row; video_urls := c_video_urls row;
            analytics := c_analytics row |}
  | _, _ => Raise (ValueError (u "validation error for Campaign"))
  end.

Definition get_campaign (campaign_id : str) : M (world S) (option Campaign) :=
  let* w := get in
  match campaigns w !! campaign_id with
  | None => ret None
  | Some row => let* c := lift (to_campaign campaign_id row) in ret (Some c)
  end.

Definition update_campaign_status (campaign_id : str) (st : CampaignStatus)
  : M (world S) unit :=
  let* w := get in
  match campaigns w !! campaign_id with
  | Some row =>
      let* t := utcnow in
      commit campaign_id (set_status (CampaignStatus_value st) t row)
  | None => ret tt
  end.

Definition stop_campaign (campaign_id : str) : M (world S) unit :=
  update_campaign_status campaign_id PAUSED.

Definition _enhance_prompt_for_japanese_audience (p : str) (campaign_type : str)
  : str :=
  let japanese_elements : dict :=
    [ (u "ai_product_reaction",
       VStr (u "日本のアニメスタイルで、可愛いキャラクターが新商品に驚く反応を示す"));
      (u "mystery_product_launch",
       VStr (u "神秘的な雰囲気で、日本の美学を取り入れたミステリアスな商品発表"));
      (u "ai_vs_human_poll",
       VStr (u "日本の文化に根ざした、AIと人間の違いを面白く比較"));
      (u "day_in_life",
       VStr (u "日本の日常生活の美しい瞬間を捉えた、リラックスした雰囲気"));
      (u "memeable_content",
       VStr (u "日本のミーム文化に合った、面白くてシェアしたくなる内容")) ] in
  let enhancement :=
    match dict_get japanese_elements campaign_type with
    | VStr s => s
    | _ => u "日本の視聴者向けの魅力的なコンテンツ"
    end in
  p ++ u ". " ++ enhancement
    ++ u ". アニメスタイル、高品質、縦向き動画、日本語字幕対応".

Definition _create_variation_prompt (base_prompt : str) (variation_number : nat)
  : result str :=
  let variations :=
    [ u "異なる角度から"; u "より明るい雰囲気で"; u "よりドラマチックに";
      u "コメディタッチで"; u "ミニマルなスタイルで" ] in
  match index variations (variation_number mod length variations) with
  | Ok variation => Ok (base_prompt ++ u ". " ++ variation ++ u "撮影")
  | Raise e => Raise e
  end.

Definition _create_platform_caption (campaign : Campaign) (p : Platform) : str :=
  let base_caption := description campaign in
  match p with
  | TIKTOK => u "🔥 " ++ base_caption ++ u " #バイラル #TikTok #AI"
  | INSTAGRAM => u "✨ " ++ base_caption ++ [0x0A; 0x0A] ++ u "📱 フォローしてね！"
  | YOUTUBE => u "🎬 " ++ base_caption ++ [0x0A; 0x0A]
               ++ u "チャンネル登録お願いします！"
  end.

Definition _get_trending_hashtags (p : Platform) (campaign_type : str)
  : list str :=
  let base_hashtags := default_hashtags_jp settings in
  let campaign_hashtags :=
    if bool_decide (campaign_type = u "ai_product_reaction")
    then [u "#商品レビュー"; u "#AI反応"; u "#新商品"]
    else if bool_decide (campaign_type = u "mystery_product_launch")
    then [u "#ミステリー"; u "#新発売"; u "#話題"]
    else if bool_decide (campaign_type = u "ai_vs_human_poll")
    then [u "#AI"; u "#人間"; u "#比較"; u "#投票"]
    else if bool_decide (campaign_type = u "day_in_life")
    then [u "#日常"; u "#ライフスタイル"; u "#vlog"]
    else if bool_decide (campaign_type = u "memeable_content")
    then [u "#面白い"; u "#ミーム"; u "#爆笑"]
    else [] in
  base_hashtags ++ campaign_hashtags.

(** [for i in range(n): ...] of [_generate_campaign_videos], from [i] on for
    [n] more turns. *)
Fixpoint variations_loop (content : VideoContent) (base : str) (i n : nat)
    (video_urls : list str) : M (world S) (list str) :=
  match n with
  | O => ret video_urls
  | Datatypes.S n' =>
      let* variation_prompt := lift (_create_variation_prompt base (i + 1)) in
      let* variation_url :=
        service (generate_video variation_prompt (style content)
                   (duration content) (japanese_optimized content)) in
      variations_loop content base (Datatypes.S i) n'
        (if truthy_opt variation_url
         then video_urls ++ [default [] variation_url] else video_urls)
  end.

Definition _generate_campaign_videos (campaign : Campaign)
  : M (world S) (list str) :=
  let content := video_content campaign in
  let p := _enhance_prompt_for_japanese_audience (prompt content)
             (campaign_type campaign) in
  let* video_url :=
    service (generate_video p (style content) (duration content)
               (japanese_optimized content)) in
  let video_urls :=
    if truthy_opt video_url then [default [] video_url] else [] in
  let* video_urls :=
    variations_loop content p 0
      (Z.to_nat (content_variations (config campaign) - 1)) video_urls in
  let* w := get in
  let* _ := match campaigns w !! id campaign with
            | Some row => commit_video_urls (id campaign) video_urls row
            | None => ret tt
            end in
  ret video_urls.

(** [for i, platform in enumerate(target_platforms)] of
    [_create_social_posts], from position [i] on. *)
Fixpoint posts_loop (campaign : Campaign) (video_urls : list str) (i : nat)
    (targets : list Platform) (acc : list SocialPost)
  : M (world S) (list SocialPost) :=
  match targets with
  | [] => ret acc
  | p :: rest =>
      let* video_url := lift (index video_urls (i mod length video_urls)) in
      let caption := _create_platform_caption campaign p in
      let tags := _get_trending_hashtags p (campaign_type campaign) in
      let* post_result :=
        service (schedule_post p video_url caption tags
                   (posting_schedule (config campaign))) in
      posts_loop campaign video_urls (Datatypes.S i) rest
        (match post_result with Some post => acc ++ [post] | None => acc end)
  end.

Definition _create_social_posts (campaign : Campaign) (video_urls : list str)
  : M (world S) unit :=
  match video_urls with
  | [] => logger WARNING (u "No videos generated for campaign " ++ id campaign)
  | _ =>
      let* new_posts :=
        posts_loop campaign video_urls 0 (target_platforms (config campaign)) [] in
      let* w := get in
      match campaigns w !! id campaign with
      | Some row => commit_posts (id campaign) new_posts row
      | None => ret tt
      end
  end.

(** The [try] block of [process_campaign]. *)
Definition process_campaign_body (campaign_id : str) : M (world S) unit :=
  let* campaign := get_campaign campaign_id in
  match campaign with
  | None => logger ERROR (u "Campaign not found: " ++ campaign_id)
  | Some campaign =>
      let* _ := update_campaign_status campaign_id RUNNING in
      let* video_urls := _generate_campaign_videos campaign in
      let* _ := _create_social_posts campaign video_urls in
      let* _ := update_campaign_status campaign_id COMPLETED in
      logger INFO (u "Campaign processed successfully: " ++ campaign_id)
  end.

Definition process_campaign (campaign_id : str) : M (world S) unit :=
  try_except
    (process_campaign_body campaign_id)
    (fun e =>
       let* _ := logger ERROR (u "Error processing campaign " ++ campaign_id
                               ++ u ": " ++ str_of_exn e) in
       update_campaign_status campaign_id FAILED).

End Manager.

End CampaignManager.

End App.

(** ** Package [python-campaign-launcher/app], further functions *)

Module AppMore.

(** *** [services/campaign_manager.py]: creating and listing *)
Module Manager.
Import App.Models App.Config App.Database App.CampaignManager.

(** [CampaignCreate]: the fields of [CampaignBase]. *)
Record CampaignCreate := {
  cc_name : str;
  cc_description : str;
  cc_campaign_type : CampaignType;
  cc_video_content : VideoContent;
  cc_config : CampaignConfig
}.

Section Manager.
Context {S : Type}.

(** [create_campaign]; [new_id] is what [uuid.uuid4()] gives for the [id]
    field.  The two timestamps are two readings of the clock.  The table
    refuses a second row under a primary key it already holds. *)
Definition create_campaign (new_id : str) (campaign_data : CampaignCreate)
  : M (world S) Campaign :=
  let* created := utcnow in
  let* updated := utcnow in
  let campaign :=
    {| name := cc_name campaign_data;
       description := cc_description campaign_data;
       campaign_type := CampaignType_value (cc_campaign_type campaign_data);
       video_content := cc_video_content campaign_data;
       config := cc_config campaign_data;
       id := new_id;
       status := CampaignStatus_value DRAFT;
       created_at := created; updated_at := updated;
       posts := []; video_urls := []; analytics := None |} in
  let* w := get in
  match campaigns w !! new_id with
  | Some _ =>
      raise (Exception (u "duplicate key value violates unique constraint"))
  | None =>
      let* _ := commit new_id
                  {| c_name := name campaign;
                     c_description := description campaign;
                     c_campaign_type := campaign_type campaign;
                     c_status := status campaign;
                     c_video_content := video_content campaign;
                     c_config := config campaign;
                     c_posts := []; c_video_urls := []; c_analytics := None;
                     c_created_at := created_at campaign;
                     c_updated_at := updated_at campaign |} in
      let* _ := logger INFO (u "Created campaign: " ++ id campaign) in
      ret campaign
  end.

(** The list comprehension of [list_campaigns]: each row is turned into a
    [Campaign], the first invalid one raises. *)
Fixpoint to_campaigns (rows : list (str * CampaignDB)) : result (list Campaign) :=
  match rows with
  | [] => Ok []
  | (key, row) :: rest =>
      match to_campaign key row with
      | Raise e => Raise e
      | Ok c =>
          match to_campaigns rest with
          | Raise e => Raise e
          | Ok cs => Ok (c :: cs)
          end
      end
  end.

(** [list_campaigns(skip, limit, status)], for non-negative [skip] and
    [limit]; the query has no [ORDER BY], [rows_of] is the order in which
    the database yields the rows. *)
Definition list_campaigns
    (rows_of : gmap str CampaignDB -> list (str * CampaignDB))
    (skip limit : nat) (st : option CampaignStatus)
  : M (world S) (list Campaign) :=
  let* w := get in
  let query := rows_of (campaigns w) in
  let query :=
    match st with
    | Some s =>
        List.filter
          (fun r => bool_decide (c_status (snd r) = CampaignStatus_value s)) query
    | None => query
    end in
  let db_campaigns := take limit (drop skip query) in
  lift (to_campaigns db_campaigns).

End Manager.

End Manager.

(** *** [main.py]: the HTTP handlers over the campaign manager *)
Module Api.
Import App.Models App.Config App.Database App.CampaignManager.
Import Manager.

Section Api.
Context {S : Type}.
Variable generate_video : str -> VideoStyle -> Z -> bool -> M S (option str).
Variable schedule_post :
  Platform -> str -> str -> list str -> dict -> M S (option SocialPost).
Variable settings : Settings.

(** [except HTTPException: raise] followed by [except Exception as e: ...
    raise HTTPException(status_code=500, detail=str(e))]. *)
Definition http_errors {A} (what : str) (m : M (world S) A) : M (world S) A :=
  try_except m
    (fun e =>
       match e with
       | HTTPException _ _ => raise e
       | _ =>
           let* _ := logger ERROR (what ++ u ": " ++ str_of_exn e) in
           raise (HTTPException 500 (str_of_exn e))
       end).

(** [GET /campaigns/{campaign_id}] *)
Definition get_campaign_endpoint (campaign_id : str) : M (world S) Campaign :=
  http_errors (u "Error getting campaign")
    (let* campaign := get_campaign campaign_id in
     match campaign with
     | None => raise (HTTPException 404 (u "Campaign not found"))
     | Some c => ret c
     end).

(** [POST /campaigns/{campaign_id}/stop]; the answer is the campaign id in
    the message dictionary. *)
Definition stop_campaign_endpoint (campaign_id : str) : M (world S) dict :=
  try_except
    (let* _ := stop_campaign campaign_id in
     ret [ (u "message", VStr (u "Campaign stopped"));
           (u "campaign_id", VStr campaign_id) ])
    (fun e =>
       let* _ := logger ERROR (u "Error stopping campaign: " ++ str_of_exn e) in
       raise (HTTPException 500 (str_of_exn e))).


(** [POST /campaigns], with the background task it adds run once the answer
    is made. *)
Definition create_campaign_endpoint (new_id : str) (campaign_data : CampaignCreate)
  : M (world S) Campaign :=
  let* campaign :=
    try_except
      (create_campaign new_id campaign_data)
      (fun e =>
         let* _ := logger ERROR (u "Error creating campaign: " ++ str_of_exn e) in
         raise (HTTPException 500 (str_of_exn e))) in
  let* _ := process_campaign generate_video schedule_post settings (id campaign) in
  ret campaign.

End Api.

End Api.

(** *** [workers/cleanup_worker.py]: archiving *)
Module CleanupWorker.
Import App.Models App.Config App.Database App.CampaignManager.

Section Cleanup.
Context {S : Type}.

(** Times are counted in seconds. *)
Definition timedelta_days (d : Z) : Z := (86400 * d)%Z.

(** The filter of the query: [status.in_(["completed", "failed"])] and
    [updated_at < archive_date]. *)
Definition is_old (archive_date : datetime) (row : CampaignDB) : bool :=
  (bool_decide (c_status row = u "completed")
   || bool_decide (c_status row = u "failed"))
  && (c_updated_at row <? archive_date)%Z.

(** [campaign.status = "archived"] and, when the change is written, the
    [onupdate=datetime.utcnow] of column [updated_at] in [database.py]. *)
Definition archive_row (r : str * CampaignDB) : M (world S) unit :=
  let '(key, row) := r in
  let* t := utcnow in
  commit key (set_status (u "archived") t row).

(** [archive_old_campaigns]; [rows_of] is the order in which the database
    yields the rows of the un-ordered query. *)
Definition archive_old_campaigns
    (rows_of : gmap str CampaignDB -> list (str * CampaignDB))
  : M (world S) dict :=
  try_except
    (let* _ := logger INFO (u "Archiving old campaigns...") in
     let* t_now := utcnow in
     let archive_date := (t_now - timedelta_days 30)%Z in
     let* w := get in
     let old_campaigns :=
       List.filter (fun r => is_old archive_date (snd r)) (rows_of (campaigns w)) in
     let archived_count := length old_campaigns in
     let* _ := for_each old_campaigns archive_row in
     let* _ := logger INFO (u "Archived " ++ str_of_N (N.of_nat archived_count)
                            ++ u " old campaigns") in
     ret [ (u "archived_count", VInt (Z.of_nat archived_count)) ])
    (fun e =>
       let* _ := logger ERROR (u "Error archiving campaigns: " ++ str_of_exn e) in
       raise e).

End Cleanup.

End CleanupWorker.

End AppMore.

(** ** Package [python_campaign_launcher/src], further functions *)

Module SrcMore.

(** *** [tasks/campaign_tasks.py] *)
Module CampaignTasks.
Import Src.Models Src.Templates Src.Main.

(** What a call gives back in the two tasks: a dictionary, or the coroutine
    object of an [async def] method that was called without [await]. *)
Inductive object :=
| Mapping (d : dict)
| CoroutineOf (method : str).

(** [r.get(k)] *)
Definition object_get (r : object) (k : str) : result value :=
  match r with
  | Mapping d => Ok (dict_get d k)
  | CoroutineOf _ =>
      Raise (AttributeError (u "'coroutine' object has no attribute 'get'"))
  end.

(** [ContentType(value)] *)
Definition ContentType_of (s : str) : result ContentType :=
  match List.find (fun c => bool_decide (ContentType_value c = s))
          [AI_PRODUCT_REACTION; MYSTERY_LAUNCH; AI_VS_HUMAN_POLL; DAY_IN_LIFE;
           MEMEABLE_CONTENT] with
  | Some c => Ok c
  | None => Raise (ValueError (s ++ u " is not a valid ContentType"))
  end.

(** The result dictionary of the content task. *)
Record content_result := {
  cr_campaign_id : str;
  cr_script : object;
  cr_video_url : option str;
  cr_audio_url : option str;
  cr_duration : value;
  cr_created_at : Z;
  cr_status : str
}.

(** One call of [self.update_state(state=..., meta=...)]. *)
Record task_update := {
  state : str;
  step : str;
  progress : option Z;
  error : option str
}.

(** The state updates of the content task, the clock, and the state [S] of
    what the task builds and calls: the three service objects and the
    storage. *)
Record world (S : Type) := {
  updates : list task_update;
  now : clock;
  outside : S
}.
Arguments updates {S} w.
Arguments now {S} w.
Arguments outside {S} w.

Section Tasks.
Context {S : Type}.

(** The constructors [GeminiContentGenerator()], [VideoGenerator()] and
    [S3Storage()], the method [storage.upload_file(path, key)] and
    [video_generator.cleanup()]. *)
Variable new_content_generator : M S unit.
Variable new_video_generator : M S unit.
Variable new_storage : M S unit.
Variable upload_file : str -> str -> M S (option str).
Variable cleanup : M S unit.

(** What reading the templates file gives. *)
Variable templates_file : config_file.

Definition update_state (s : task_update) : M (world S) unit :=
  modify (fun w => {| updates := updates w ++ [s]; now := now w;
                      outside := outside w |}).

Definition datetime_now : M (world S) Z :=
  fun w => let '(t, c) := tick (now w) in
           (Ok t, {| updates := updates w; now := c; outside := outside w |}).

Definition external {A} (m : M S A) : M (world S) A :=
  fun w => let '(r, o) := m (outside w) in
           (r, {| updates := updates w; now := now w; outside := o |}).

(** [storage.upload_file(video_result[k], key)] when [video_result.get(k)]
    is true, else [None]. *)
Definition upload_if_present (video_result : object) (k : str) (key : str)
  : M (world S) (option str) :=
  let* v := lift (object_get video_result k) in
  if bool_of v then
    external (upload_file (match v with VStr path => path | _ => [] end) key)
  else ret None.

(** [generate_campaign_content(self, campaign_config)].  The task is a plain
    [def]; [generate_script] and [generate_video] are [async def] methods and
    are called without [await]. *)
Definition generate_campaign_content (campaign_config : task_config)
  : M (world S) content_result :=
  try_except
    (let* _ := update_state
                 {| state := u "PROGRESS"; step := u "Starting content generation";
                    progress := Some 10%Z; error := None |} in
     let* template :=
       lift (get_template_by_key templates_file (tc_template_key campaign_config)) in
     let* _ := external new_content_generator in
     let* _ := external new_video_generator in
     let* _ := external new_storage in
     let* _ := update_state
                 {| state := u "PROGRESS"; step := u "Generating script";
                    progress := Some 30%Z; error := None |} in
     let* content_type := lift (ContentType_of (tc_content_type campaign_config)) in
     let script := CoroutineOf (u "generate_script") in
     let* _ := update_state
                 {| state := u "PROGRESS"; step := u "Generating video";
                    progress := Some 60%Z; error := None |} in
     let video_result := CoroutineOf (u "generate_video") in
     let* _ := update_state
                 {| state := u "PROGRESS"; step := u "Uploading assets";
                    progress := Some 80%Z; error := None |} in
     let campaign_id := tc_id campaign_config in
     let* video_url :=
       upload_if_present video_result (u "video_url")
         (u "campaigns/" ++ campaign_id ++ u "/video.mp4") in
     let* audio_url :=
       upload_if_present video_result (u "audio_url")
         (u "campaigns/" ++ campaign_id ++ u "/audio.mp3") in
     let* _ := external cleanup in
     let* duration := lift (object_get video_result (u "duration")) in
     let* created := datetime_now in
     let result :=
       {| cr_campaign_id := campaign_id; cr_script := script;
          cr_video_url := video_url; cr_audio_url := audio_url;
          cr_duration := duration; cr_created_at := created;
          cr_status := u "completed" |} in
     let* _ := update_state
                 {| state := u "SUCCESS"; step := u "Content generation completed";
                    progress := Some 100%Z; error := None |} in
     ret result)
    (fun exc =>
       let error_msg := str_of_exn exc in
       let* _ := update_state
                   {| state := u "FAILURE"; step := u "Error in content generation";
                      progress := None; error := Some error_msg |} in
       raise exc).

End Tasks.

End CampaignTasks.

(** *** [main.py]: creating, reading and deleting campaigns *)
Module Api.
Import Src.Models Src.Templates Src.Main.

(** [CreateCampaignRequest] *)
Record CreateCampaignRequest := {
  rq_name : str;
  rq_template_key : str;
  rq_platforms : list PlatformType;
  rq_content_type : ContentType;
  rq_schedule : option str;
  rq_daily_limit : N;
  rq_video_config : dict;
  rq_tags : list str
}.

(** The dictionary handed to the workflow task. *)
Record workflow_config := {
  wc_id : str;
  wc_template_key : str;
  wc_content_type : str;
  wc_platforms : list str;
  wc_video_config : dict
}.

(** The answer of [POST /campaigns]. *)
Record create_response := {
  cr_campaign_id : str;
  cr_task_id : option str;
  cr_status : str;
  cr_created_at : datetime
}.

(** The state of [Src.Main], the workflow tasks handed to Celery with the
    identifiers Celery gave them, and the source of [uuid.uuid4()]. *)
Record world := {
  base : Src.Main.world;
  workflows : list (str * (str * workflow_config));
  workflow_ids : nat -> str;
  uuids : nat -> str;
  drawn : nat
}.

Definition on_base {A} (m : M Src.Main.world A) : M world A :=
  fun w => let '(r, b) := m (base w) in
           (r, {| base := b; workflows := workflows w;
                  workflow_ids := workflow_ids w; uuids := uuids w;
                  drawn := drawn w |}).

(** [str(uuid.uuid4())] *)
Definition uuid4 : M world str :=
  fun w => (Ok (uuids w (drawn w)),
            {| base := base w; workflows := workflows w;
               workflow_ids := workflow_ids w; uuids := uuids w;
               drawn := S (drawn w) |}).

(** [execute_campaign_workflow.delay(campaign_id, task_config)] *)
Definition execute_campaign_workflow_delay (campaign_id : str)
    (c : workflow_config) : M world str :=
  fun w => let task_id := workflow_ids w (length (workflows w)) in
           (Ok task_id,
            {| base := base w;
               workflows := workflows w ++ [(task_id, (campaign_id, c))];
               workflow_ids := workflow_ids w; uuids := uuids w;
               drawn := drawn w |}).

(** [campaigns_db[campaign_id] = campaign] *)
Definition store (campaign_id : str) (c : Campaign) : M world unit :=
  on_base (modify (fun b => set_campaigns_db
                              (<[campaign_id := c]> (campaigns_db b)) b)).

(** [d.get(k, default)] *)
Definition get_default (d : dict) (k : str) (default : value) : value :=
  match List.find (fun kv => bool_decide (fst kv = k)) d with
  | Some kv => snd kv
  | None => default
  end.

Section Handlers.

(** What reading the templates file gives, and the validation done by the
    constructor [VideoGenerationRequest(script="", style=..., voice_language=...,
    duration=..., resolution=...)] on the four values looked up in the
    request. *)
Variable templates_file : config_file.
Variable VideoGenerationRequest_of :
  value -> value -> value -> value -> result VideoGenerationRequest.

(** [POST /campaigns] *)
Definition create_campaign (request : CreateCampaignRequest)
  : M world create_response :=
  try_except
    (let* _ := lift (get_template_by_key templates_file (rq_template_key request)) in
     let* campaign_id := uuid4 in
     let* video_config :=
       lift (VideoGenerationRequest_of
               (get_default (rq_video_config request) (u "style") (VStr (u "kawaii")))
               (get_default (rq_video_config request) (u "voice_language")
                  (VStr (u "ja")))
               (get_default (rq_video_config request) (u "duration") (VInt 30))
               (get_default (rq_video_config request) (u "resolution")
                  (VStr (u "1080x1920")))) in
     let campaign_config :=
       {| name := rq_name request; template_key := rq_template_key request;
          platforms := rq_platforms request;
          content_type := rq_content_type request;
          schedule := rq_schedule request;
          daily_limit := rq_daily_limit request;
          video_config := video_config; tags := rq_tags request;
          enabled := true |} in
     let* created := on_base datetime_now in
     let* updated := on_base datetime_now in
     let campaign :=
       {| id := campaign_id; config := campaign_config; status := PENDING;
          created_at := created; updated_at := updated;
          error_message := None; generated_content := None;
          published_urls := ∅; analytics := ∅ |} in
     let* _ := store campaign_id campaign in
     let c :=
       {| wc_id := campaign_id;
          wc_template_key := rq_template_key request;
          wc_content_type := ContentType_value (rq_content_type request);
          wc_platforms := map PlatformType_value (rq_platforms request);
          wc_video_config := rq_video_config request |} in
     let* outcome :=
       if truthy_opt (rq_schedule request) then
         let campaign := set_status SCHEDULED campaign in
         let* _ := store campaign_id campaign in
         ret (None, campaign)
       else
         let* task_id := execute_campaign_workflow_delay campaign_id c in
         let campaign := set_status PROCESSING campaign in
         let* _ := store campaign_id campaign in
         ret (Some task_id, campaign) in
     let '(task_id, campaign) := outcome in
     ret {| cr_campaign_id := campaign_id; cr_task_id := task_id;
            cr_status := CampaignStatus_value (status campaign);
            cr_created_at := created_at campaign |})
    (fun e =>
       match e with
       | ValueError m => raise (HTTPException 400 m)
       | _ => raise (HTTPException 500 (str_of_exn e))
       end).

End Handlers.

(** [GET /campaigns/{campaign_id}] *)
Definition get_campaign (campaign_id : str) : M world Campaign :=
  let* w := get in
  match campaigns_db (base w) !! campaign_id with
  | None => raise (HTTPException 404 (u "Campaign not found"))
  | Some campaign => ret campaign
  end.

(** [DELETE /campaigns/{campaign_id}] *)
Definition delete_campaign (campaign_id : str) : M world dict :=
  let* w := get in
  match campaigns_db (base w) !! campaign_id with
  | None => raise (HTTPException 404 (u "Campaign not found"))
  | Some _ =>
      let* _ := on_base (modify (fun b => set_campaigns_db
                                            (delete campaign_id (campaigns_db b)) b)) in
      ret [ (u "message", VStr (u "Campaign deleted")) ]
  end.

(** A number in an answer: an [int] or a [float]. *)
Inductive number :=
| Int (n : Z)
| Float (x : float).

(** The answer of [GET /analytics/overview]. *)
Record overview := {
  total_campaigns : nat;
  completed_campaigns : nat;
  failed_campaigns : nat;
  success_rate : number;
  generated_at : datetime
}.

Definition is_completed (c : Campaign) : bool :=
  match status c with COMPLETED => true | _ => false end.

Definition is_failed (c : Campaign) : bool :=
  match status c with FAILED => true | _ => false end.

(** [sum(1 for c in campaigns_db.values() if ...)] *)
Definition count_campaigns (f : Campaign -> bool) (db : gmap str Campaign) : nat :=
  length (List.filter f (map snd (map_to_list db))).

(** [GET /analytics/overview] *)
Definition get_analytics_overview : M world overview :=
  let* w := get in
  let db := campaigns_db (base w) in
  let total := size db in
  let completed := count_campaigns is_completed db in
  let failed := count_campaigns is_failed db in
  let* rate :=
    if (0 <? total)%nat
    then let* x := lift (truediv completed total) in ret (Float x)
    else ret (Int 0) in
  let* t := on_base datetime_now in
  ret {| total_campaigns := total; completed_campaigns := completed;
         failed_campaigns := failed; success_rate := rate;
         generated_at := t |}.

End Api.

End SrcMore.

(* ===================================================================== *)
(** * Part II.  Notions used in the statements                          *)
(* ===================================================================== *)

(** ** The template catalog *)

Module TemplatesNotions.
Import Src.Models Src.Templates.

(** The error raised for a key that no template carries. *)
Definition not_found (k : str) : exn :=
  ValueError (u "Template with key '" ++ k ++ u "' not found").

(** When the file cannot be read or parsed the built-in set is in effect. *)
Definition falls_back (f : config_file) : Prop :=
  match f with
  | Streams _ => False
  | FileNotFoundError | LoadFailure _ => True
  end.

End TemplatesNotions.

(** ** The script composer: fallback scripts *)

Module MockScriptNotions.
Import Src.Models Src.ContentGenerator.

(** The backend is absent, or the call made with the prompt of this request
    fails. *)
Definition backend_unavailable (self : GeminiContentGenerator)
    (template : CampaignTemplate) (content_type : ContentType)
    (topic : option str) : Prop :=
  match model self with
  | None => True
  | Some generate_content =>
      exists e, generate_content (_build_prompt template content_type topic)
                = Raise e
  end.

(** The field set the fallback guarantees. *)
Definition populated (template : CampaignTemplate) (s : VideoScript) : Prop :=
  hook s <> [] /\ length (bullets s) = 3%nat /\ twist s <> [] /\ cta s <> []
  /\ hashtags s = map (fun keyword => u "#" ++ keyword) (take 3 (keywords template))
  /\ (1 <= length (hashtags s))%nat
  /\ style s = style_primary template.

(** [str.lower] restricted to the ASCII letters. *)
Definition ascii_lower (s : str) : str :=
  map (fun c => if (0x41 <=? c) && (c <=? 0x5A) then c + 0x20 else c) s.

(** A random source that always draws zero, and an empty output. *)
Definition quiet : world :=
  {| rand := {| draw := fun _ => 0; pos := 0 |}; stdout := [] |}.

Definition tech : CampaignTemplate :=
  {| key := u "tech"; display := u "テック/ガジェット";
     style_primary := u "tech"; style_secondary := u "serious";
     has_affiliate := false;
     keywords := [u "発表"; u "発売"; u "比較"; u "性能"; u "レビュー"; u "新製品"];
     sources_rss := [u "https://news.yahoo.co.jp/rss/topics/it.xml"];
     affiliate_url_env := None |}.

(** The same template with its keyword list emptied. *)
Definition tech_without_keywords : CampaignTemplate :=
  {| key := u "tech"; display := u "テック/ガジェット";
     style_primary := u "tech"; style_secondary := u "serious";
     has_affiliate := false; keywords := [];
     sources_rss := [u "https://news.yahoo.co.jp/rss/topics/it.xml"];
     affiliate_url_env := None |}.

End MockScriptNotions.

(** ** The script composer: parsing the backend's answer *)

Module ParseNotions.
Import Src.Models Src.ContentGenerator.

(** Starts with the hashtag marker. *)
Definition hash_tagged (tag : str) : Prop := startswith (u "#") tag = true.

(** One of the section or hashtag keywords occurs in the line. *)
Definition has_keyword (lower : str -> str) (line : str) : bool :=
  contains (u "フック") line || contains (u "hook") (lower line)
  || contains (u "メインコンテンツ") line || contains (u "ポイント") line
  || contains (u "ツイスト") line || contains (u "twist") (lower line)
  || contains (u "CTA") line || contains (u "行動喚起") line
  || contains (u "ハッシュタグ") line || contains (u "#") line.

(** The line can still fill the field of the section being read. *)
Definition continues_section (st : parse_state) (line : str) : bool :=
  is_section sec_bullets st && bullet_marker line
  || is_section sec_hook st && negb (truthy (hook (script st)))
  || is_section sec_twist st && negb (truthy (twist (script st)))
  || is_section sec_cta st && negb (truthy (cta (script st))).

(** A line the parser has no use for, in state [st]. *)
Definition unrecognized (lower : str -> str) (st : parse_state) (raw : str)
  : Prop :=
  has_keyword lower (strip raw) = false
  /\ continues_section st (strip raw) = false.

(** What every turn of the loop keeps. *)
Definition keeps (st st' : parse_state) : Prop :=
  style (script st') = style (script st)
  /\ estimated_duration (script st') = estimated_duration (script st)
  /\ (Forall hash_tagged (hashtags (script st)) ->
      Forall hash_tagged (hashtags (script st'))).

(** An answer in the format the prompt asks for. *)
Definition sample_response : str :=
  u "フック: すごい！
メインコンテンツ:
1. 速い
- 安い
よくわからない行
ツイスト: 実は無料
CTA: フォローしてね
ハッシュタグ: #tech #AI".

End ParseNotions.

(** ** Publishing to the platforms *)

Module PublishNotions.
Import Src.Models Src.Config Src.SocialTasks.

(** The setting a platform's publish method looks at. *)
Definition credential (settings : Settings) (p : PlatformType) : option str :=
  match p with
  | TIKTOK => tiktok_client_key settings
  | INSTAGRAM => instagram_client_id settings
  | YOUTUBE => youtube_client_id settings
  end.

(** What one turn of the loop of [publish_to_platforms] stores under
    [platform]. *)
Definition stored_for (settings : Settings) (content_result : dict)
    (platform : str) : object :=
  let video_url := dict_get content_result (u "video_url") in
  if negb (bool_of video_url) then
    Dict [ (u "status", VStr (u "error"));
           (u "error", VStr (u "No video available")) ]
  else
    let url := match video_url with VStr s => s | _ => [] end in
    if bool_decide (platform = u "tiktok") then
      Coroutine (publish_to_tiktok settings content_result url)
    else if bool_decide (platform = u "instagram") then
      Coroutine (publish_to_instagram settings content_result url)
    else if bool_decide (platform = u "youtube") then
      Coroutine (publish_to_youtube settings content_result url)
    else
      Dict [ (u "status", VStr (u "error"));
             (u "error", VStr (u "Unknown platform: " ++ platform)) ].

Definition stored (settings : Settings) (content_result : dict)
    (platforms : list str) (results : gmap str object) : gmap str object :=
  fold_left (fun acc p => <[p := stored_for settings content_result p]> acc)
    platforms results.

Definition is_coroutine (r : object) : bool :=
  match r with Coroutine _ => true | Dict _ => false end.

Definition known_platform (platform : str) : bool :=
  bool_decide (platform = u "tiktok") || bool_decide (platform = u "instagram")
  || bool_decide (platform = u "youtube").

Definition no_attribute_get : exn :=
  AttributeError (u "'coroutine' object has no attribute 'get'").

(** The content task's result with an uploaded video. *)
Definition content_with_video : dict :=
  [ (u "campaign_id", VStr (u "c1"));
    (u "video_url", VStr (u "http://localhost:9000/campaign-assets/campaigns/c1/video.mp4"));
    (u "status", VStr (u "completed")) ].

(** The setting from which the social poster of the [app] package builds a
    platform's client. *)
Definition app_credential (settings : App.Config.Settings)
    (p : App.Models.Platform) : option str :=
  match p with
  | App.Models.TIKTOK => App.Config.tiktok_client_id settings
  | App.Models.INSTAGRAM => App.Config.instagram_access_token settings
  | App.Models.YOUTUBE => App.Config.youtube_client_id settings
  end.

Definition skipped (d : dict) : Prop :=
  dict_get d (u "status") = VStr (u "skipped").

(** No credential is set, in either package (an empty value counts as
    unset). *)
Definition no_credentials : Settings :=
  {| gemini_api_key := None; tiktok_client_key := None;
     instagram_client_id := None; youtube_client_id := Some [] |}.

Definition app_no_credentials : App.Config.Settings :=
  {| App.Config.tiktok_client_id := None;
     App.Config.tiktok_client_secret := None;
     App.Config.instagram_access_token := None;
     App.Config.youtube_client_id := None;
     App.Config.youtube_client_secret := None;
     App.Config.default_hashtags_jp := [u "#AI"; u "#バイラル"] |}.

(** The clock reads 1700000000 and the random source draws zero. *)
Definition calm : App.SocialPoster.world :=
  {| App.SocialPoster.rand := {| draw := fun _ => 0; pos := 0 |};
     App.SocialPoster.now := {| readings := fun _ => 1700000000%Z; reads := 0 |};
     App.SocialPoster.client_calls := [];
     App.SocialPoster.log := [] |}.

End PublishNotions.

(** ** Regenerating the content of a campaign *)

Module RegenerateNotions.
Import Src.Models Src.Main.

(** The world after [n] regenerate requests for the same campaign. *)
Fixpoint regenerated (n : nat) (campaign_id : str) (w : world) : world :=
  match n with
  | O => w
  | S n' => regenerated n' campaign_id
              (snd (regenerate_campaign_content campaign_id w))
  end.

(** Equal in every field but [status] and [updated_at]. *)
Definition same_but_status (c c' : Campaign) : Prop :=
  id c' = id c /\ config c' = config c /\ created_at c' = created_at c
  /\ error_message c' = error_message c
  /\ generated_content c' = generated_content c
  /\ published_urls c' = published_urls c
  /\ analytics c' = analytics c.

(** A completed campaign that was published to TikTok. *)
Definition published_campaign : Campaign :=
  {| id := u "c1";
     config :=
       {| name := u "Launch"; template_key := u "tech";
          platforms := [TIKTOK]; content_type := AI_PRODUCT_REACTION;
          schedule := None; daily_limit := 5;
          video_config :=
            {| vg_script := []; vg_style := u "kawaii";
               voice_language := u "ja"; duration := Some 30;
               resolution := u "1080x1920"; background_music := true |};
          tags := []; enabled := true |};
     status := COMPLETED;
     created_at := 1700000000%Z; updated_at := 1700000600%Z;
     error_message := None; generated_content := None;
     published_urls :=
       {[ u "tiktok" := u "https://tiktok.com/@user/video/mock_tiktok_id" ]};
     analytics := ∅ |}.

Definition one_campaign : world :=
  {| campaigns_db := {[ u "c1" := published_campaign ]};
     delayed := [];
     task_ids := fun n => u "task-" ++ str_of_N (N.of_nat n);
     now := {| readings := fun n => (1700001000 + Z.of_nat n)%Z; reads := 0 |} |}.

End RegenerateNotions.

(** ** The engagement queue *)

Module EngagementNotions.
Import App.Models App.Config App.Database.
Import App.SocialPoster App.EngagementWorker.

(** The database yields every row of the table once, in some order. *)
Definition yields_table
    (rows_of : gmap str EngagementTaskDB -> list (str * EngagementTaskDB))
  : Prop :=
  forall table, rows_of table ≡ₚ map_to_list table.

(** The world after [n] calls of the queue processor. *)
Fixpoint runs (settings : Settings)
    (rows_of : gmap str EngagementTaskDB -> list (str * EngagementTaskDB))
    (n : nat) (w : App.EngagementWorker.world) : App.EngagementWorker.world :=
  match n with
  | O => w
  | S n' => runs settings rows_of n'
              (snd (process_engagement_queue settings rows_of w))
  end.

(** What a call of the processor raises. *)
Definition await_outside_async : exn :=
  SyntaxError (u "'await' outside async function").

(** The time the clock shows when the processor is called. *)
Definition run_time (w : App.EngagementWorker.world) : datetime :=
  readings (App.SocialPoster.now (outside w)) (reads (App.SocialPoster.now (outside w))).

(** A table with a due task, an executed one and one scheduled for later. *)
Definition like_task : EngagementTaskDB :=
  {| campaign_id := u "c1"; e_platform := u "tiktok"; e_post_id := u "p1";
     task_type := u "like"; executed := false; e_scheduled_time := 100%Z;
     e_result := None |}.

Definition done_task : EngagementTaskDB :=
  {| campaign_id := u "c1"; e_platform := u "tiktok"; e_post_id := u "p1";
     task_type := u "reply"; executed := true; e_scheduled_time := 200%Z;
     e_result := Some [ (u "success", VBool true) ] |}.

Definition later_task : EngagementTaskDB :=
  {| campaign_id := u "c1"; e_platform := u "tiktok"; e_post_id := u "p1";
     task_type := u "share"; executed := false; e_scheduled_time := 5000%Z;
     e_result := None |}.

Definition three_tasks : App.EngagementWorker.world :=
  {| tasks := <[u "t1" := like_task]>
                (<[u "t2" := done_task]> {[ u "t3" := later_task ]});
     outside :=
       {| rand := {| draw := fun _ => 0; pos := 0 |};
          now := {| readings := fun n => (1000 + Z.of_nat n)%Z; reads := 0 |};
          client_calls := []; log := [] |} |}.

End EngagementNotions.

(** ** Processing a campaign *)

Module ManagerNotions.
Import App.Models App.Config App.Database.
Import App.CampaignManager.

(** Every row of the first table is still a row of the second. *)
Definition keeps_rows {S} (w w1 : world S) : Prop :=
  forall key, is_Some (campaigns w !! key) -> is_Some (campaigns w1 !! key).

(** A step that deletes no row, whether it returns or raises. *)
Definition preserves {S A} (m : M (world S) A) : Prop :=
  forall w r w1, m w = (r, w1) -> keeps_rows w w1.

(** A campaign in draft, and services without state: the video generator
    raises [e] and the poster schedules nothing. *)
Definition draft_row : CampaignDB :=
  {| c_name := u "Launch"; c_description := u "新商品のお知らせ";
     c_campaign_type := u "day_in_life"; c_status := u "draft";
     c_video_content :=
       {| prompt := u "朝のコーヒー"; style := ANIME; duration := 15%Z;
          aspect_ratio := u "9:16"; background_music := None;
          voice_over := None; subtitles := true; japanese_optimized := true |};
     c_config :=
       {| target_platforms := [TIKTOK; YOUTUBE]; posting_schedule := [];
          auto_engage := true; engagement_replies := [];
          content_variations := 3%Z; japanese_locale := true;
          trending_hashtags := true |};
     c_posts := []; c_video_urls := []; c_analytics := None;
     c_created_at := 900%Z; c_updated_at := 900%Z |}.

Definition draft_world : world unit :=
  {| campaigns := {[ u "c1" := draft_row ]};
     now := {| readings := fun n => (1000 + Z.of_nat n)%Z; reads := 0 |};
     log := [];
     services := tt |}.

Definition failing (e : exn)
  : str -> VideoStyle -> Z -> bool -> M unit (option str) :=
  fun _ _ _ _ => raise e.

Definition no_post
  : Platform -> str -> str -> list str -> dict -> M unit (option SocialPost) :=
  fun _ _ _ _ _ => ret None.

(** The row after the failed run: "running" was written at 1000, "failed"
    at 1001. *)
Definition failed_row : CampaignDB :=
  set_status (u "failed") 1001%Z (set_status (u "running") 1000%Z draft_row).

End ManagerNotions.

(** ** The campaign manager: further properties *)

Module ManagerMoreNotions.
Import App.Models App.Config App.Database App.CampaignManager.

(** The two enumeration columns of the row hold values of their
    enumerations. *)
Definition valid_row (row : CampaignDB) : Prop :=
  is_Some (CampaignType_of (c_campaign_type row))
  /\ is_Some (CampaignStatus_of (c_status row)).

(** A call that returns, whatever the state it is made in. *)
Definition answers {S A} (m : M S A) : Prop :=
  forall s, exists a s', m s = (Ok a, s').

(** A video generator and a social poster that never raise. *)
Definition video_generator_answers {S}
    (generate_video : str -> VideoStyle -> Z -> bool -> M S (option str)) : Prop :=
  forall p st d j, answers (generate_video p st d j).

Definition social_poster_answers {S}
    (schedule_post :
       Platform -> str -> str -> list str -> dict -> M S (option SocialPost))
  : Prop :=
  forall p v c tags sch, answers (schedule_post p v c tags sch).

(** The second table has the keys of the first and the same rows, except
    possibly under [cid]. *)
Definition same_table_but {S} (cid : str) (w w1 : world S) : Prop :=
  (forall key, is_Some (campaigns w1 !! key) <-> is_Some (campaigns w !! key))
  /\ forall key, key <> cid -> campaigns w1 !! key = campaigns w !! key.

(** A step that changes the table under [cid] at most, and adds or removes
    no row, whether it returns or raises. *)
Definition frames {S A} (cid : str) (m : M (world S) A) : Prop :=
  forall w r w1, m w = (r, w1) -> same_table_but cid w w1.

(** A video generator that finds nothing, and one that gives a URL made
    from the prompt's length. *)
Definition no_video : str -> VideoStyle -> Z -> bool -> M unit (option str) :=
  fun _ _ _ _ => ret None.

Definition some_video : str -> VideoStyle -> Z -> bool -> M unit (option str) :=
  fun p _ _ _ =>
    ret (Some (u "https://cdn.example/" ++ str_of_N (N.of_nat (length p))
               ++ u ".mp4")).

(** A poster that posts at once. *)
Definition posts_now
  : Platform -> str -> str -> list str -> dict -> M unit (option SocialPost) :=
  fun p _ c tags _ =>
    ret (Some {| platform := p; caption := c; hashtags := tags;
                 scheduled_time := None; posted := true;
                 post_id := Some (u "demo"); engagement_stats := None |}).

(** A row whose status is outside the enumeration. *)
Definition archived_row : CampaignDB :=
  set_status (u "archived") 950%Z ManagerNotions.draft_row.

Definition archived_world : world unit :=
  {| campaigns := {[ u "c1" := archived_row ]};
     now := {| readings := fun n => (1000 + Z.of_nat n)%Z; reads := 0 |};
     log := [];
     services := tt |}.

End ManagerMoreNotions.

(** ** The campaign manager: what a run touches *)

Module ManagerFrameNotions.
Import App.Models App.Config App.Database App.CampaignManager.
Import ManagerNotions ManagerMoreNotions.

(** The same, from one starting world. *)
Definition frames_from {S A} (cid : str) (w : world S) (m : M (world S) A)
  : Prop :=
  forall r w1, m w = (r, w1) -> same_table_but cid w w1.

(** A second draft, next to the first. *)
Definition two_drafts : world unit :=
  {| campaigns := <[u "c2" := draft_row]> {[ u "c1" := draft_row ]};
     now := {| readings := fun n => (1000 + Z.of_nat n)%Z; reads := 0 |};
     log := [];
     services := tt |}.

End ManagerFrameNotions.

(** ** The campaign manager: where a run ends *)

Module ManagerServicesNotions.
Import App.Models App.Config App.Database App.CampaignManager.
Import ManagerNotions ManagerMoreNotions.




End ManagerServicesNotions.

(** ** Creating, listing and archiving campaigns *)

Module LifecycleNotions.
Import App.Models App.Config App.Database App.CampaignManager.
Import AppMore.Manager AppMore.Api AppMore.CleanupWorker.
Import ManagerNotions ManagerMoreNotions.

(** The database yields every row of the table once, in some order. *)
Definition yields_campaigns
    (rows_of : gmap str CampaignDB -> list (str * CampaignDB)) : Prop :=
  forall table, rows_of table ≡ₚ map_to_list table.

(** The date before which a finished campaign is archived by a run started
    in world [w]: thirty days before the time the run reads. *)
Definition archive_date {S} (w : world S) : datetime :=
  (readings (now w) (reads (now w)) - timedelta_days 30)%Z.

(** The request behind [ManagerNotions.draft_row]. *)
Definition draft_request : CampaignCreate :=
  {| cc_name := u "Launch"; cc_description := u "新商品のお知らせ";
     cc_campaign_type := DAY_IN_LIFE;
     cc_video_content := c_video_content draft_row;
     cc_config := c_config draft_row |}.

(** An empty table. *)
Definition no_campaigns : world unit :=
  {| campaigns := ∅;
     now := {| readings := fun n => (1000 + Z.of_nat n)%Z; reads := 0 |};
     log := [];
     services := tt |}.

(** A table read forty days after its three rows were last written: one
    completed, one failed, one still running. *)
Definition forty_days_later : world unit :=
  {| campaigns :=
       <[u "c1" := set_status (u "completed") 1000%Z draft_row]>
         (<[u "c2" := set_status (u "failed") 1000%Z draft_row]>
            {[ u "c3" := set_status (u "running") 1000%Z draft_row ]});
     now := {| readings := fun n => (1000 + 40 * 86400 + Z.of_nat n)%Z;
               reads := 0 |};
     log := [];
     services := tt |}.

End LifecycleNotions.

(** ** Archived rows *)

Module ArchiveNotions.
Import App.Models App.Config App.Database App.CampaignManager.
Import AppMore.Manager AppMore.CleanupWorker.
Import LifecycleNotions.

(** The rows an archiving run started in world [w] selects. *)
Definition old_rows {S} (w : world S) : list (str * CampaignDB) :=
  List.filter (fun r => is_old (archive_date w) (snd r))
    (map_to_list (campaigns w)).


(** The rows come out in the order of the table's own listing. *)
Definition in_table_order (table : gmap str CampaignDB) : list (str * CampaignDB) :=
  map_to_list table.

End ArchiveNotions.

(** ** The social poster service *)

Module PosterNotions.
Import App.Models App.Config App.SocialPoster.

(** The service holds an API client for the platform. *)
Definition has_client (self : SocialPosterService) (p : Platform) : bool :=
  match p with
  | TIKTOK => match tiktok_client self with Some _ => true | None => false end
  | INSTAGRAM => match instagram_client self with Some _ => true | None => false end
  | YOUTUBE => match youtube_client self with Some _ => true | None => false end
  end.

(** The time the next reading of the clock gives. *)
Definition reading (w : world) : datetime :=
  readings (now w) (reads (now w)).

(** The three engagement types the service knows. *)
Definition known_engagement (ty : str) : bool :=
  bool_decide (ty = u "reply") || bool_decide (ty = u "like")
  || bool_decide (ty = u "share").

(** The platform is given as a member of [Platform]. *)
Definition is_member (p : platform_arg) : bool :=
  match p with Member _ => true | Text _ => false end.

End PosterNotions.

(** ** The script composer: what the parser and the fallback keep *)

Module ComposerNotions.
Import Src.Models Src.Templates Src.ContentGenerator.

(** A set of templates in which the key "tech" occurs twice. *)
Definition twice_tech : config_file :=
  Streams [ MockScriptNotions.tech_without_keywords; MockScriptNotions.tech ].

(** Bullets and hashtags are only appended to. *)
Definition grows (st st' : parse_state) : Prop :=
  bullets (script st) `prefix_of` bullets (script st')
  /\ hashtags (script st) `prefix_of` hashtags (script st').

(** The three bullets of the fallback script, in the order of the source. *)
Definition mock_bullets (keyword0 : str) : list str :=
  [ keyword0 ++ u "の最新情報をチェック";
    u "実はこんなメリットがあるんです";
    u "みんなが知らない裏技を公開" ].

(** The parser reading the bullet list. *)
Definition reading_bullets (template : CampaignTemplate) : parse_state :=
  {| script := empty_script template; current_section := Some sec_bullets |}.

(** A backend that answers every prompt with the same text. *)
Definition answering (text : str) : GeminiContentGenerator :=
  {| model := Some (fun _ => Ok text) |}.

End ComposerNotions.

(** ** The content task *)

Module ContentTaskNotions.
Import Src.Models Src.Templates Src.Main.
Import SrcMore.CampaignTasks.

(** The state update of a progress report. *)
Definition progress_update (what : str) (percent : Z) : task_update :=
  {| state := u "PROGRESS"; step := what; progress := Some percent;
     error := None |}.

(** The state update of the error handler. *)
Definition failure_update (msg : str) : task_update :=
  {| state := u "FAILURE"; step := u "Error in content generation";
     progress := None; error := Some msg |}.

(** What reading an attribute of an un-awaited coroutine raises. *)
Definition coroutine_error : exn :=
  AttributeError (u "'coroutine' object has no attribute 'get'").

(** A request for the built-in "tech" template. *)
Definition tech_task : task_config :=
  {| tc_id := u "c1"; tc_template_key := u "tech";
     tc_content_type := u "day_in_life";
     tc_platforms := [u "tiktok"];
     tc_video_config :=
       {| vg_script := []; vg_style := u "kawaii"; voice_language := u "ja";
          duration := Some 30; resolution := u "1080x1920";
          background_music := true |} |}.

(** Services that do nothing and always return. *)
Definition idle : M unit unit := ret tt.
Definition no_upload : str -> str -> M unit (option str) := fun _ _ => ret None.

Definition fresh_task : world unit :=
  {| updates := [];
     now := {| readings := fun n => (1000 + Z.of_nat n)%Z; reads := 0 |};
     outside := tt |}.

End ContentTaskNotions.

(** ** The HTTP handlers of the launcher *)

Module ApiNotions.
Import Src.Models Src.Templates Src.Main.
Import SrcMore.Api.

(** The status a new campaign is stored with. *)
Definition initial_status (request : CreateCampaignRequest) : CampaignStatus :=
  if truthy_opt (rq_schedule request) then SCHEDULED else PROCESSING.

(** The identifier the next call of [uuid.uuid4()] gives. *)
Definition next_uuid (w : world) : str := uuids w (drawn w).

(** The identifier Celery gives to the next workflow task. *)
Definition next_workflow_id (w : world) : str :=
  workflow_ids w (length (workflows w)).

(** The dictionary handed to the workflow task of a new campaign. *)
Definition workflow_of (request : CreateCampaignRequest) (campaign_id : str)
  : workflow_config :=
  {| wc_id := campaign_id;
     wc_template_key := rq_template_key request;
     wc_content_type := ContentType_value (rq_content_type request);
     wc_platforms := map PlatformType_value (rq_platforms request);
     wc_video_config := rq_video_config request |}.

(** The answers to a missing campaign and to a deletion. *)
Definition campaign_not_found : exn :=
  HTTPException 404 (u "Campaign not found").
Definition campaign_deleted : dict :=
  [ (u "message", VStr (u "Campaign deleted")) ].

(** A validation of the video settings that accepts every request. *)
Definition accept_video (style voice_language duration resolution : value)
  : result VideoGenerationRequest :=
  Ok {| vg_script := [];
        vg_style := match style with VStr s => s | _ => [] end;
        voice_language := match voice_language with VStr s => s | _ => [] end;
        duration := match duration with VInt n => Some (Z.to_N n) | _ => None end;
        resolution := match resolution with VStr s => s | _ => [] end;
        background_music := true |}.

(** A request to start at once, and the same request for an unknown
    template. *)
Definition start_now : CreateCampaignRequest :=
  {| rq_name := u "Launch"; rq_template_key := u "tech";
     rq_platforms := [TIKTOK]; rq_content_type := AI_PRODUCT_REACTION;
     rq_schedule := None; rq_daily_limit := 5;
     rq_video_config := []; rq_tags := [] |}.

Definition unknown_template : CreateCampaignRequest :=
  {| rq_name := u "Launch"; rq_template_key := u "cooking";
     rq_platforms := [TIKTOK]; rq_content_type := AI_PRODUCT_REACTION;
     rq_schedule := None; rq_daily_limit := 5;
     rq_video_config := []; rq_tags := [] |}.

(** A server holding the campaign of [RegenerateNotions.one_campaign]. *)
Definition server : world :=
  {| base := RegenerateNotions.one_campaign;
     workflows := [];
     workflow_ids := fun n => u "workflow-" ++ str_of_N (N.of_nat n);
     uuids := fun n => u "uuid-" ++ str_of_N (N.of_nat n);
     drawn := 0 |}.

End ApiNotions.

(* ===================================================================== *)
(** * Part III.  Properties                                              *)
(* ===================================================================== *)

(** ** The Python runtime notions on concrete inputs *)

Module PyFacts.


Example decode_utf8_katakana : u "フック" = [0x30D5; 0x30C3; 0x30AF].
Proof. reflexivity. Qed.

Example str_of_N_decimal : str_of_N 9040 = u "9040" /\ str_of_N 0 = u "0".
Proof. split; reflexivity. Qed.

Example split_pieces :
  split 0x0A [0x61; 0x0A; 0x62] = [u "a"; u "b"]
  /\ split1 0x3A (u "k: v: w") = [u "k"; u " v: w"]
  /\ split_ws (u "  #a  b #c ") = [u "#a"; u "b"; u "#c"]
  /\ strip (u "  a b  ") = u "a b".
Proof. repeat split; reflexivity. Qed.

Example percent_in_double :
  int_of_float (PrimFloat.mul (PrimFloat.div (float_of_nat 29) (float_of_nat 100))
                  (float_of_nat 100)) = 28%Z.
Proof. vm_compute. reflexivity. Qed.

Lemma bind_ok {W A B} (m : M W A) (k : A -> M W B) w a w' :
  m w = (Ok a, w') -> bind m k w = k a w'.
Proof. intros H. unfold bind. now rewrite H. Qed.

Lemma bind_raise {W A B} (m : M W A) (k : A -> M W B) w e w' :
  m w = (Raise e, w') -> bind m k w = (Raise e, w').
Proof. intros H. unfold bind. now rewrite H. Qed.

(** An index below the length is served. *)
Lemma index_lt {A} (l : list A) i :
  (i < length l)%nat -> exists x, index l i = Ok x /\ x ∈ l.
Proof.
  intros Hi. destruct (lookup_lt_is_Some_2 l i Hi) as [x Hx].
  exists x. unfold index. rewrite Hx. split; [reflexivity|].
  eapply list_elem_of_lookup_2; eassumption.
Qed.

(** [random.choice] on a non-empty list gives one of its elements and draws
    once. *)
Lemma choice_elem {A} (l : list A) g :
  l <> [] -> exists x, choice l g = (Ok x, snd (next g)) /\ x ∈ l.
Proof.
  intros Hl. unfold choice. destruct l as [|a l]; [congruence|].
  set (l' := a :: l).
  destruct (index_lt l' (N.to_nat (draw g (pos g) mod N.of_nat (length l'))))
    as [x [Hx Hin]].
  - assert (draw g (pos g) mod N.of_nat (length l') < N.of_nat (length l')).
    { apply N.mod_lt. subst l'. simpl. lia. }
    lia.
  - exists x. unfold next. cbn [snd]. subst l'. cbn beta iota.
    fold (@length A). rewrite Hx. auto.
Qed.

Lemma length_remove_at {A} (l : list A) i x :
  l !! i = Some x -> length l = S (length (remove_at i l)).
Proof.
  revert i. induction l as [|a l IH]; intros [|i] H; simpl in *; try discriminate.
  - reflexivity.
  - f_equal. eauto.
Qed.

Lemma remove_at_perm {A} (l : list A) i x :
  l !! i = Some x -> x :: remove_at i l ≡ₚ l.
Proof.
  revert i. induction l as [|a l IH]; intros [|i] H; simpl in *; try discriminate.
  - injection H as ->. reflexivity.
  - rewrite Permutation_swap. constructor. eauto.
Qed.

(** Drawing as many elements as the list has gives a rearrangement of it. *)
Lemma sample_go_all {A} (l : list A) g :
  exists xs g', sample_go (length l) l g = (xs, g') /\ xs ≡ₚ l.
Proof.
  remember (length l) as k eqn:Hk. revert l g Hk.
  induction k as [|k IH]; intros l g Hk; simpl.
  - destruct l; [|discriminate]. eauto.
  - set (i := N.to_nat (draw g (pos g) mod N.of_nat (length l))).
    assert (Hi : (i < length l)%nat).
    { subst i. assert (draw g (pos g) mod N.of_nat (length l) < N.of_nat (length l)).
      { apply N.mod_lt. lia. }
      lia. }
    destruct (lookup_lt_is_Some_2 l i Hi) as [x Hx]. rewrite Hx.
    destruct (IH (remove_at i l) {| draw := draw g; pos := S (pos g) |})
      as (xs & g' & Hs & Hp).
    { pose proof (length_remove_at _ _ _ Hx). lia. }
    rewrite Hs. exists (x :: xs), g'. split; [reflexivity|].
    rewrite Hp. eapply remove_at_perm; eassumption.
Qed.

Lemma filter_sublist {A} (f : A -> bool) (l : list A) :
  List.filter f l `sublist_of` l.
Proof.
  induction l as [|x l IH]; simpl; [constructor|].
  destruct (f x); now constructor.
Qed.

Lemma sample_all {A} (l : list A) g :
  exists xs g', sample l (length l) g = (Ok xs, g') /\ xs ≡ₚ l.
Proof.
  unfold sample. rewrite Nat.ltb_irrefl.
  destruct (sample_go_all l g) as (xs & g' & H & Hp). rewrite H. eauto.
Qed.

End PyFacts.

(** ** The template catalog *)

Module TemplatesFacts.
Import Src.Models Src.Templates.
Import TemplatesNotions.

Lemma first_with_key_absent k ts :
  k ∉ map key ts -> first_with_key k ts = Raise (not_found k).
Proof.
  induction ts as [|t ts IH]; intros Hk; simpl; [reflexivity|].
  rewrite bool_decide_eq_false_2.
  - apply IH. intros Hin. apply Hk. simpl. now right.
  - intros Heq. apply Hk. simpl. rewrite Heq. now left.
Qed.

Lemma first_with_key_present k ts :
  k ∈ map key ts ->
  exists t, first_with_key k ts = Ok t /\ key t = k /\ t ∈ ts.
Proof.
  induction ts as [|t ts IH]; intros Hk; simpl in *.
  - inversion Hk.
  - destruct (decide (key t = k)) as [Heq|Hne].
    + exists t. rewrite bool_decide_eq_true_2 by assumption.
      repeat split; [assumption | now left].
    + rewrite bool_decide_eq_false_2 by assumption.
      apply elem_of_cons in Hk as [Hk|Hk]; [congruence|].
      destruct (IH Hk) as (t' & H1 & H2 & H3).
      exists t'. repeat split; [assumption.. | now right].
Qed.

Lemma load_templates_fallback f :
  falls_back f -> load_templates f = _get_default_templates.
Proof. destruct f; simpl; intros H; [contradiction | reflexivity..]. Qed.

(** C4, as the code has it.  Looking a key up fails with the not-found error
    ([ValueError], which the HTTP handler turns into status 404) for every
    key that no template of the set in effect carries; when the built-in
    fallback set is in effect, that is when the file is missing or cannot be
    loaded, it succeeds for every key of that set.  The fallback set has
    three templates, one of them with key "tech", display "テック/ガジェット"
    and primary style "tech". *)
Theorem get_template_by_key_catalog (f : config_file) (k : str) :
  (k ∉ map key (load_templates f) ->
     get_template_by_key f k = Raise (not_found k)
     /\ Src.Main.get_template f k
        = Raise (HTTPException 404 (str_of_exn (not_found k))))
  /\ (falls_back f -> k ∈ map key _get_default_templates ->
        exists t, get_template_by_key f k = Ok t /\ key t = k
                  /\ t ∈ _get_default_templates)
  /\ (exists t, t ∈ _get_default_templates /\ key t = u "tech"
                /\ display t = u "テック/ガジェット"
                /\ style_primary t = u "tech"
                /\ forall g, falls_back g ->
                     get_template_by_key g (u "tech") = Ok t)
  /\ (3 <= length _get_default_templates)%nat.
Proof.
  split; [|split; [|split]].
  - intros Hk. unfold Src.Main.get_template, get_template_by_key.
    rewrite (first_with_key_absent _ _ Hk). split; reflexivity.
  - intros Hf Hk. unfold get_template_by_key.
    rewrite (load_templates_fallback _ Hf).
    apply first_with_key_present. assumption.
  - destruct (first_with_key_present (u "tech") _get_default_templates)
      as (t & Ht & Hkey & Hin).
    { apply (bool_decide_unpack _). vm_compute. exact I. }
    exists t. vm_compute in Ht. injection Ht as <-.
    repeat split; [assumption|].
    intros g Hg. unfold get_template_by_key.
    rewrite (load_templates_fallback _ Hg). vm_compute. reflexivity.
  - simpl. lia.
Qed.

(** The catalog at the missing file: "nonexistent" is refused, "tech" is
    served. *)
Lemma get_template_by_key_catalog_witness :
  get_template_by_key FileNotFoundError (u "nonexistent")
    = Raise (not_found (u "nonexistent"))
  /\ exists t, get_template_by_key FileNotFoundError (u "tech") = Ok t
               /\ key t = u "tech".
Proof.
  split.
  - refine (proj1 (proj1 (get_template_by_key_catalog FileNotFoundError
                             (u "nonexistent")) _)).
    apply (bool_decide_unpack _). vm_compute. exact I.
  - destruct (proj1 (proj2 (get_template_by_key_catalog FileNotFoundError
                              (u "tech"))) I) as (t & H1 & H2 & _).
    + apply (bool_decide_unpack _). vm_compute. exact I.
    + exists t. split; assumption.
Defined.

(** C4 as stated fails when the file loads: the set in effect is then the
    one of the file, and a key of the built-in set that the file does not
    list is not found.  A file whose [streams] list is empty loads, and
    "tech" is not found although the built-in set has it. *)
Lemma get_template_by_key_loaded_file :
  u "tech" ∈ map key _get_default_templates
  /\ get_template_by_key (Streams []) (u "tech") = Raise (not_found (u "tech"))
  /\ ~ (forall (f : config_file) (k : str),
          k ∈ map key _get_default_templates ->
          exists t, get_template_by_key f k = Ok t).
Proof.
  assert (Hin : u "tech" ∈ map key _get_default_templates)
    by (apply (bool_decide_unpack _); vm_compute; exact I).
  split; [exact Hin|]. split; [reflexivity|].
  intros H. destruct (H (Streams []) (u "tech") Hin) as [t Ht].
  discriminate Ht.
Qed.

End TemplatesFacts.

(** ** The script composer: fallback scripts *)

Module MockScriptFacts.
Import Src.Models Src.ContentGenerator PyFacts.
Import MockScriptNotions.

Lemma random_choice_elem {A} (l : list A) w :
  l <> [] ->
  exists x w', random_choice l w = (Ok x, w') /\ x ∈ l /\ stdout w' = stdout w.
Proof.
  intros Hl. destruct (choice_elem l (rand w) Hl) as (x & Hc & Hin).
  exists x. unfold random_choice, bind, with_rand, lift. rewrite Hc.
  eexists. split; [reflexivity|]. split; [assumption | reflexivity].
Qed.

Lemma random_sample_all {A} (l : list A) w :
  exists xs w', random_sample l (length l) w = (Ok xs, w') /\ xs ≡ₚ l
                /\ stdout w' = stdout w.
Proof.
  destruct (sample_all l (rand w)) as (xs & g' & Hs & Hp).
  exists xs. unfold random_sample, bind, with_rand, lift. rewrite Hs.
  eexists. split; [reflexivity|]. split; [assumption | reflexivity].
Qed.

Lemma nonempty_app_l (a b : str) : a <> [] -> a ++ b <> [].
Proof. destruct a; [congruence | discriminate]. Qed.

(** With at least one keyword the mock script is produced, with every field
    populated. *)
Lemma _generate_mock_script_populated template content_type w :
  keywords template <> [] ->
  exists s w', _generate_mock_script template content_type w = (Ok s, w')
               /\ populated template s /\ stdout w' = stdout w.
Proof.
  intros Hk. unfold _generate_mock_script.
  destruct (keywords template) as [|k0 ks] eqn:Ek; [congruence|].
  unfold bind at 1. unfold lift, index. cbn [lookup list_lookup].
  match goal with
  | |- context [random_choice ?l] =>
      destruct (random_choice_elem l w) as (h & w1 & Hh & Hhin & Ho1);
      [discriminate|]
  end.
  rewrite (bind_ok _ _ _ _ _ Hh).
  match goal with
  | |- context [random_sample ?l 3] =>
      destruct (random_sample_all l w1) as (b & w2 & Hb & Hbp & Ho2)
  end.
  cbn [length] in Hb. rewrite (bind_ok _ _ _ _ _ Hb).
  match goal with
  | |- context [random_choice ?l] =>
      destruct (random_choice_elem l w2) as (t & w3 & Ht & Htin & Ho3);
      [discriminate|]
  end.
  rewrite (bind_ok _ _ _ _ _ Ht).
  match goal with
  | |- context [random_choice ?l] =>
      destruct (random_choice_elem l w3) as (c & w4 & Hc & Hcin & Ho4);
      [discriminate|]
  end.
  rewrite (bind_ok _ _ _ _ _ Hc).
  unfold bind, random_randint, with_rand, ret.
  destruct (randint 20 35 (rand w4)) as [d g5].
  eexists. eexists. split; [reflexivity|]. split.
  - unfold populated. rewrite Ek. cbn [hook bullets twist cta hashtags style].
    repeat split.
    + repeat (apply elem_of_cons in Hhin as [->|Hhin];
              [apply nonempty_app_l; vm_compute; discriminate|]).
      inversion Hhin.
    + rewrite Hbp. reflexivity.
    + repeat (apply elem_of_cons in Htin as [->|Htin];
              [vm_compute; discriminate|]).
      inversion Htin.
    + repeat (apply elem_of_cons in Hcin as [->|Hcin];
              [vm_compute; discriminate|]).
      inversion Hcin.
    + simpl. lia.
  - cbn [stdout]. congruence.
Qed.

(** C3, as the code has it.  For every template with at least one keyword
    and every content type, when no backend is configured or the backend
    call fails, [generate_script] returns a script with a non-empty hook,
    exactly three bullets, a non-empty twist, a non-empty call to action and
    the hashtags made from the first three keywords, of which there is at
    least one. *)
Theorem generate_script_fallback_populated
    (self : GeminiContentGenerator) (lower : str -> str)
    (template : CampaignTemplate) (content_type : ContentType)
    (topic : option str) (w : world) :
  keywords template <> [] ->
  backend_unavailable self template content_type topic ->
  exists s w', generate_script self lower template content_type topic w
               = (Ok s, w')
               /\ populated template s.
Proof.
  intros Hk Hb. unfold generate_script, backend_unavailable in *.
  destruct (model self) as [generate_content|].
  - destruct Hb as [e He]. unfold try_except, bind at 1, lift at 1.
    rewrite He. unfold bind at 1, print, modify.
    match goal with
    | |- context [_generate_mock_script _ _ ?w0] =>
        destruct (_generate_mock_script_populated template content_type w0 Hk)
          as (s & w' & Hs & Hp & _)
    end.
    rewrite Hs. eauto.
  - destruct (_generate_mock_script_populated template content_type w Hk)
      as (s & w' & Hs & Hp & _).
    eauto.
Qed.

(** The fallback on the "tech" template, once without a backend and once
    with a backend that fails. *)
Lemma generate_script_fallback_populated_witness :
  (exists s w', generate_script {| model := None |} ascii_lower tech
                  AI_PRODUCT_REACTION None quiet = (Ok s, w')
                /\ populated tech s)
  /\ (exists s w',
        generate_script
          {| model := Some (fun _ => Raise (Exception (u "quota exceeded"))) |}
          ascii_lower tech DAY_IN_LIFE (Some (u "新しいスマートフォン")) quiet = (Ok s, w')
        /\ populated tech s).
Proof.
  split.
  - apply generate_script_fallback_populated.
    + simpl. discriminate.
    + simpl. exact I.
  - apply generate_script_fallback_populated.
    + simpl. discriminate.
    + simpl. eexists. reflexivity.
Defined.

(** C3 as stated fails on a template without keywords: the first mock
    bullet reads [template.keywords[0]], so no script is returned at all. *)
Lemma generate_script_no_keywords :
  generate_script {| model := None |} ascii_lower tech_without_keywords
    AI_PRODUCT_REACTION None quiet
  = (Raise (IndexError (u "list index out of range")), quiet)
  /\ ~ (exists s w', generate_script {| model := None |} ascii_lower
                       tech_without_keywords AI_PRODUCT_REACTION None quiet
                     = (Ok s, w')
                     /\ populated tech_without_keywords s).
Proof.
  assert (H : generate_script {| model := None |} ascii_lower tech_without_keywords
                AI_PRODUCT_REACTION None quiet
              = (Raise (IndexError (u "list index out of range")), quiet))
    by reflexivity.
  split; [exact H|].
  intros (s & w' & Hs & _). rewrite H in Hs. discriminate.
Qed.

End MockScriptFacts.

(** ** The script composer: parsing the backend's answer *)

Module ParseFacts.
Import Src.Models Src.ContentGenerator PyFacts.
Import ParseNotions.

Lemma split1_shape sep s :
  (exists a, split1 sep s = [a]) \/ (exists a b, split1 sep s = [a; b]).
Proof.
  induction s as [|c s IH]; simpl; [eauto|].
  destruct (c =? sep); [eauto|].
  destruct IH as [[a ->]|(a & b & ->)]; eauto.
Qed.

Lemma contains_split1 sep s :
  contains [sep] s = true -> exists a b, split1 sep s = [a; b].
Proof.
  induction s as [|c s IH]; simpl; [discriminate|].
  rewrite andb_true_r, (N.eqb_sym sep c).
  destruct (c =? sep); simpl; [eauto|].
  intros H. destruct (IH H) as (a & b & ->). eauto.
Qed.

Lemma after_first_ok sep line :
  contains [sep] line = true -> exists v, after_first sep line = Ok v.
Proof.
  intros H. destruct (contains_split1 _ _ H) as (a & b & Hs).
  unfold after_first. rewrite Hs. simpl. eauto.
Qed.

(** Stripping keeps a leading character that is not whitespace. *)
Lemma startswith_strip c tag :
  isspace c = false ->
  startswith [c] tag = true -> startswith [c] (strip tag) = true.
Proof.
  intros Hc. destruct tag as [|d tag]; simpl; [discriminate|].
  rewrite andb_true_r. intros Hd. apply N.eqb_eq in Hd. subst d.
  unfold strip. simpl. rewrite Hc. simpl. rewrite Hc.
  destruct (rstrip tag); simpl; now rewrite N.eqb_refl.
Qed.

Lemma hashtags_of_line line :
  Forall hash_tagged
    (map strip (List.filter (startswith (u "#")) (split_ws line))).
Proof.
  apply List.Forall_map, List.Forall_forall. intros tag Hin.
  apply List.filter_In in Hin as [_ Htag].
  unfold hash_tagged. now apply (startswith_strip 0x23).
Qed.

Lemma keeps_refl st : keeps st st.
Proof. unfold keeps. auto. Qed.

Lemma keeps_trans a b c : keeps a b -> keeps b c -> keeps a c.
Proof. unfold keeps. intros (?&?&?) (?&?&?). repeat split; try congruence; auto. Qed.

Ltac keeps_field :=
  unfold keeps; cbn; repeat split; auto.

(** A turn of the loop never raises. *)
Lemma parse_line_ok lower st raw :
  exists st', parse_line lower st raw = Ok st' /\ keeps st st'.
Proof.
  unfold parse_line. set (line := strip raw).
  destruct (negb (truthy line)); [eauto using keeps_refl|].
  destruct (contains (u "フック") line || contains (u "hook") (lower line)).
  { destruct (contains (u ":") line) eqn:Hc.
    - destruct (after_first_ok 0x3A line Hc) as [v ->].
      eexists; split; [reflexivity | keeps_field].
    - eexists; split; [reflexivity | keeps_field]. }
  destruct (contains (u "メインコンテンツ") line || contains (u "ポイント") line).
  { eexists; split; [reflexivity | keeps_field]. }
  destruct (contains (u "ツイスト") line || contains (u "twist") (lower line)).
  { destruct (contains (u ":") line) eqn:Hc.
    - destruct (after_first_ok 0x3A line Hc) as [v ->].
      eexists; split; [reflexivity | keeps_field].
    - eexists; split; [reflexivity | keeps_field]. }
  destruct (contains (u "CTA") line || contains (u "行動喚起") line).
  { destruct (contains (u ":") line) eqn:Hc.
    - destruct (after_first_ok 0x3A line Hc) as [v ->].
      eexists; split; [reflexivity | keeps_field].
    - eexists; split; [reflexivity | keeps_field]. }
  destruct (contains (u "ハッシュタグ") line || contains (u "#") line).
  { eexists; split; [reflexivity|]. unfold keeps; cbn. repeat split.
    intros H. apply Forall_app. split; [assumption | apply hashtags_of_line]. }
  destruct (is_section sec_bullets st && bullet_marker line).
  { destruct (contains (u ".") line) eqn:Hc.
    - destruct (after_first_ok 0x2E line Hc) as [v ->].
      eexists; split; [reflexivity | keeps_field].
    - eexists; split; [reflexivity | keeps_field]. }
  destruct (is_section sec_hook st && negb (truthy (hook (script st)))).
  { eexists; split; [reflexivity | keeps_field]. }
  destruct (is_section sec_twist st && negb (truthy (twist (script st)))).
  { eexists; split; [reflexivity | keeps_field]. }
  destruct (is_section sec_cta st && negb (truthy (cta (script st)))).
  { eexists; split; [reflexivity | keeps_field]. }
  eauto using keeps_refl.
Qed.

Lemma parse_lines_ok lower lines : forall st,
  exists st', parse_lines lower st lines = Ok st' /\ keeps st st'.
Proof.
  induction lines as [|line rest IH]; intros st; simpl.
  - eauto using keeps_refl.
  - destruct (parse_line_ok lower st line) as (st1 & -> & H1).
    destruct (IH st1) as (st2 & H2 & H3).
    eauto using keeps_trans.
Qed.

(** An unrecognized line leaves both loop variables as they were. *)
Lemma parse_line_unrecognized lower st raw :
  unrecognized lower st raw -> parse_line lower st raw = Ok st.
Proof.
  unfold unrecognized, has_keyword, continues_section, parse_line.
  set (line := strip raw). intros [Hk Hc].
  repeat (apply orb_false_elim in Hk as [Hk ?]).
  repeat (apply orb_false_elim in Hc as [Hc ?]).
  destruct (negb (truthy line)); [reflexivity|].
  repeat match goal with
         | H : ?b = false |- context [?b] => rewrite H
         end.
  reflexivity.
Qed.

(** C9.  For every response text and every template the parser returns a
    script, never an error; its style is the template's primary style, its
    estimated duration the fixed 25, and every hashtag starts with '#'.
    Fields may stay empty (the empty response gives the empty script), and a
    line that is not recognized changes nothing. *)
Theorem parse_script_response_total
    (lower : str -> str) (response : str) (template : CampaignTemplate) :
  (exists s, _parse_script_response lower response template = Ok s
             /\ style s = style_primary template
             /\ estimated_duration s = 25
             /\ Forall hash_tagged (hashtags s))
  /\ _parse_script_response lower [] template = Ok (empty_script template)
  /\ (forall st raw, unrecognized lower st raw ->
        parse_line lower st raw = Ok st).
Proof.
  split; [|split].
  - unfold _parse_script_response.
    destruct (parse_lines_ok lower (split 0x0A (strip response))
                {| script := empty_script template; current_section := None |})
      as (st & -> & Hs & Hd & Hh).
    exists (script st). cbn in Hs, Hd, Hh. repeat split; auto.
  - reflexivity.
  - apply parse_line_unrecognized.
Qed.

Example parse_sample_response :
  _parse_script_response MockScriptNotions.ascii_lower sample_response
    MockScriptNotions.tech
  = Ok {| hook := u "すごい！"; bullets := [u "速い"; u "安い"];
          twist := u "実は無料"; cta := u "フォローしてね";
          hashtags := [u "#tech"; u "#AI"]; style := u "tech";
          estimated_duration := 25 |}.
Proof. vm_compute. reflexivity. Qed.

(** The parser on the sample answer, and a greeting line met before any
    section header. *)
Lemma parse_script_response_total_witness :
  (exists s, _parse_script_response MockScriptNotions.ascii_lower sample_response
               MockScriptNotions.tech = Ok s
             /\ Forall hash_tagged (hashtags s))
  /\ parse_line MockScriptNotions.ascii_lower
       {| script := empty_script MockScriptNotions.tech; current_section := None |}
       (u "  こんにちは ")
     = Ok {| script := empty_script MockScriptNotions.tech;
             current_section := None |}.
Proof.
  destruct (parse_script_response_total MockScriptNotions.ascii_lower
              sample_response MockScriptNotions.tech)
    as ((s & Hs & _ & _ & Hh) & _ & Hu).
  split.
  - exists s. split; assumption.
  - apply Hu. split; vm_compute; reflexivity.
Defined.

End ParseFacts.

(** ** Publishing to the platforms *)

Module PublishFacts.
Import Src.Models Src.Config Src.SocialTasks PyFacts.
Import PublishNotions.

Lemma stored_cons settings content p rest results :
  stored settings content (p :: rest) results
  = stored settings content rest (<[p := stored_for settings content p]> results).
Proof. reflexivity. Qed.

(** The loop never raises when the total is the length of a list the
    platforms come from: the ratio is only taken inside the loop. *)
Lemma publish_loop_ok settings content total platforms :
  forall i results log,
    (platforms <> [] -> total <> O) ->
    exists log', publish_loop settings content total i platforms results log
                 = (Ok (stored settings content platforms results), log').
Proof.
  induction platforms as [|p rest IH]; intros i results log Htotal.
  - simpl. unfold ret. eauto.
  - assert (Ht : total <> O) by (apply Htotal; discriminate).
    cbn [publish_loop]. unfold bind at 1. unfold lift, truediv.
    destruct total as [|total']; [congruence|].
    unfold bind at 1. unfold update_state, modify.
    rewrite stored_cons. unfold stored_for at 1. cbv zeta.
    destruct (negb (bool_of (dict_get content (u "video_url")))).
    + apply IH. intros _. discriminate.
    + apply IH. intros _. discriminate.
Qed.

Lemma stored_lookup settings content platforms : forall results p,
  stored settings content platforms results !! p
  = if bool_decide (p ∈ platforms) then Some (stored_for settings content p)
    else results !! p.
Proof.
  induction platforms as [|q rest IH]; intros results p.
  - reflexivity.
  - rewrite stored_cons, IH. destruct (decide (p ∈ rest)) as [Hin|Hnin].
    + rewrite !bool_decide_eq_true_2; [reflexivity | now right | assumption].
    + rewrite (bool_decide_eq_false_2 (p ∈ rest)) by assumption.
      destruct (decide (p = q)) as [->|Hne].
      * rewrite bool_decide_eq_true_2 by now left. apply lookup_insert_eq.
      * rewrite bool_decide_eq_false_2.
        -- now apply lookup_insert_ne.
        -- intros H. apply elem_of_cons in H as [?|?]; congruence.
Qed.

(** Counting fails as soon as one of the values is a coroutine. *)
Lemma count_success_coroutine values :
  existsb is_coroutine values = true ->
  count_success values = Raise no_attribute_get.
Proof.
  induction values as [|r rest IH]; simpl; [discriminate|].
  destruct r as [d|c]; simpl; [|reflexivity].
  intros H. rewrite (IH H). reflexivity.
Qed.

Lemma count_success_dicts values :
  existsb is_coroutine values = false ->
  exists n, count_success values = Ok n /\ (n <= length values)%nat.
Proof.
  induction values as [|r rest IH]; simpl; [eauto|].
  destruct r as [d|c]; simpl; [|discriminate].
  intros H. destruct (IH H) as (n & -> & Hn).
  destruct (eq_str (dict_get d (u "status")) (u "success")); eexists; split;
    (reflexivity || lia).
Qed.

(** The task either returns or fails on a coroutine; it never divides by
    zero. *)
Lemma publish_to_platforms_outcome settings cid content platforms log :
  (exists final log', publish_to_platforms settings cid content platforms log
                      = (Ok final, log')
                      /\ platform_results final
                         = stored settings content platforms ∅
                      /\ total_platforms final = length platforms)
  \/ (exists log', publish_to_platforms settings cid content platforms log
                   = (Raise no_attribute_get, log')).
Proof.
  unfold publish_to_platforms, try_except.
  destruct (publish_loop_ok settings content (length platforms) platforms
              0%nat ∅ log) as [log1 Hloop].
  { destruct platforms; [congruence | discriminate]. }
  rewrite (bind_ok _ _ _ _ _ Hloop).
  set (values := map snd (map_to_list (stored settings content platforms ∅))).
  destruct (existsb is_coroutine values) eqn:Hc.
  - right. unfold bind at 1, lift. rewrite (count_success_coroutine _ Hc).
    unfold bind, update_state, modify, raise. eauto.
  - left. destruct (count_success_dicts _ Hc) as (n & Hn & _).
    unfold bind at 1, lift. rewrite Hn.
    unfold bind, update_state, modify, ret.
    eexists. eexists. split; [reflexivity|]. split; reflexivity.
Qed.

(** With a video at hand, a known platform in the list makes the task
    fail: what it stored for that platform is a coroutine that was never
    awaited. *)
Lemma publish_to_platforms_known_raises settings cid content platforms log p :
  bool_of (dict_get content (u "video_url")) = true ->
  p ∈ platforms -> known_platform p = true ->
  exists log', publish_to_platforms settings cid content platforms log
               = (Raise no_attribute_get, log').
Proof.
  intros Hv Hin Hknown.
  unfold publish_to_platforms, try_except.
  destruct (publish_loop_ok settings content (length platforms) platforms
              0%nat ∅ log) as [log1 Hloop].
  { destruct platforms; [congruence | discriminate]. }
  rewrite (bind_ok _ _ _ _ _ Hloop).
  unfold bind at 1, lift. rewrite count_success_coroutine.
  - unfold bind, update_state, modify, raise. eauto.
  - apply existsb_exists. exists (stored_for settings content p). split.
    + apply in_map_iff. exists (p, stored_for settings content p).
      split; [reflexivity|]. apply list_elem_of_In, elem_of_map_to_list.
      rewrite stored_lookup, bool_decide_eq_true_2 by assumption. reflexivity.
    + unfold stored_for. rewrite Hv. cbn [negb].
      unfold known_platform in Hknown.
      destruct (bool_decide (p = u "tiktok")); [reflexivity|].
      destruct (bool_decide (p = u "instagram")); [reflexivity|].
      destruct (bool_decide (p = u "youtube")); [reflexivity|].
      discriminate.
Qed.

Lemma count_success_errors values :
  Forall (fun r => exists d, r = Dict d
                             /\ eq_str (dict_get d (u "status")) (u "success")
                                = false) values ->
  count_success values = Ok 0%nat.
Proof.
  induction 1 as [|r rest (d & -> & Hd) _ IH]; simpl; [reflexivity|].
  rewrite IH, Hd. reflexivity.
Qed.

(** Without a video, or when no listed platform is a known one, only error
    entries are stored and the task returns its aggregate, counting no
    success. *)
Lemma publish_to_platforms_only_errors settings cid content platforms log :
  bool_of (dict_get content (u "video_url")) = false
  \/ Forall (fun p => known_platform p = false) platforms ->
  exists final log',
    publish_to_platforms settings cid content platforms log = (Ok final, log')
    /\ platform_results final = stored settings content platforms ∅
    /\ (forall p, is_Some (platform_results final !! p) <-> p ∈ platforms)
    /\ total_platforms final = length platforms
    /\ successful_publishes final = 0%nat.
Proof.
  intros Hcase.
  unfold publish_to_platforms, try_except.
  destruct (publish_loop_ok settings content (length platforms) platforms
              0%nat ∅ log) as [log1 Hloop].
  { destruct platforms; [congruence | discriminate]. }
  rewrite (bind_ok _ _ _ _ _ Hloop).
  unfold bind at 1, lift. rewrite count_success_errors.
  - unfold bind, update_state, modify, ret.
    eexists. eexists. split; [reflexivity|]. cbn.
    split; [reflexivity|]. split; [|split; reflexivity].
    intros p. rewrite stored_lookup.
    destruct (decide (p ∈ platforms)) as [Hin|Hnin].
    + rewrite bool_decide_eq_true_2 by assumption. split; eauto.
    + rewrite bool_decide_eq_false_2, lookup_empty by assumption.
      split; [intros [? [=]] | contradiction].
  - apply List.Forall_forall. intros r Hr.
    apply in_map_iff in Hr as ([p r'] & <- & Hpr). cbn [snd].
    apply list_elem_of_In, elem_of_map_to_list in Hpr.
    rewrite stored_lookup in Hpr.
    destruct (decide (p ∈ platforms)) as [Hin|Hnin].
    + rewrite bool_decide_eq_true_2 in Hpr by assumption.
      injection Hpr as <-. unfold stored_for.
      destruct Hcase as [Hv|Hk].
      * rewrite Hv. cbn [negb]. eexists. split; reflexivity.
      * destruct (negb (bool_of (dict_get content (u "video_url"))));
          [eexists; split; reflexivity|].
        rewrite Forall_forall in Hk. specialize (Hk p Hin).
        unfold known_platform in Hk.
        apply orb_false_elim in Hk as [Hk Hy].
        apply orb_false_elim in Hk as [Ht Hi].
        rewrite Ht, Hi, Hy. eexists. split; reflexivity.
    + rewrite bool_decide_eq_false_2, lookup_empty in Hpr by assumption.
      discriminate.
Qed.

(** C8 at the failing input: one listed platform, "tiktok", and a video
    URL.  The task reports progress 0, fails on the coroutine it stored,
    records the failure and re-raises; no aggregate result is returned. *)
Theorem publish_to_platforms_tiktok_fails (settings : Settings) :
  publish_to_platforms settings (u "c1") content_with_video [u "tiktok"] []
  = (Raise no_attribute_get,
     [ {| state := u "PROGRESS"; step := u "Publishing to tiktok";
          progress := Some 0%Z; result_meta := None; error := None |};
       {| state := u "FAILURE"; step := u "Error in publishing";
          progress := None; result_meta := None;
          error := Some (u "'coroutine' object has no attribute 'get'") |} ]).
Proof. vm_compute. reflexivity. Qed.

(** C10.  With an empty platform list the task returns normally: no loop
    turn runs, so no ratio is computed; the result has [total_platforms = 0],
    an empty [platform_results] and [successful_publishes = 0].  More
    generally the task never raises [ZeroDivisionError], whatever the list. *)
Theorem publish_to_platforms_empty
    (settings : Settings) (cid : str) (content : dict) (log : celery) :
  (let final := {| fr_campaign_id := cid; platform_results := ∅;
                   total_platforms := 0; successful_publishes := 0;
                   completed_at := u "2024-01-01T00:00:00Z" |} in
   publish_to_platforms settings cid content [] log
   = (Ok final,
      log ++ [ {| state := u "SUCCESS"; step := u "Publishing completed";
                  progress := Some 100%Z; result_meta := Some final;
                  error := None |} ]))
  /\ (forall platforms m,
        fst (publish_to_platforms settings cid content platforms log)
        <> Raise (ZeroDivisionError m)).
Proof.
  split.
  - unfold publish_to_platforms, try_except. cbn [length publish_loop].
    unfold bind at 1. unfold ret at 1.
    rewrite map_to_list_empty. reflexivity.
  - intros platforms m.
    destruct (publish_to_platforms_outcome settings cid content platforms log)
      as [(final & log' & -> & _)|(log' & ->)]; discriminate.
Qed.

Lemma publish_unconfigured_skipped settings p content video_url net :
  truthy_opt (credential settings p) = false ->
  exists d, publish settings p content video_url net = (Ok d, net) /\ skipped d.
Proof.
  intros H. destruct p; simpl in H;
    unfold publish, publish_to_tiktok, publish_to_instagram, publish_to_youtube;
    rewrite H; cbn [negb]; unfold ret; eexists; (split; [reflexivity|]);
    vm_compute; reflexivity.
Qed.

Lemma schedule_post_unconfigured_simulated app_settings p video_url caption
    tags schedule w :
  truthy_opt (app_credential app_settings p) = false ->
  exists post n w',
    App.SocialPoster.schedule_post
      (App.SocialPoster.setup_api_clients app_settings)
      p video_url caption tags schedule w = (Ok (Some post), w')
    /\ App.SocialPoster.client_calls w' = App.SocialPoster.client_calls w
    /\ App.Models.posted post = true
    /\ App.Models.post_id post
       = Some (u "demo_" ++ App.Models.Platform_value p ++ u "_" ++ str_of_N n)
    /\ 1000 <= n <= 9999.
Proof.
  intros H.
  unfold App.SocialPoster.schedule_post, try_except, bind,
    App.SocialPoster._calculate_scheduled_time, App.SocialPoster.utcnow,
    App.SocialPoster.with_rand, App.SocialPoster.logger, modify, ret, randint,
    next, tick, App.SocialPoster.setup_api_clients.
  cbn [App.SocialPoster.rand App.SocialPoster.now App.SocialPoster.client_calls
       App.SocialPoster.log App.SocialPoster.tiktok_client
       App.SocialPoster.instagram_client App.SocialPoster.youtube_client
       draw pos].
  set (n := 1000 + draw (App.SocialPoster.rand w)
                     (S (pos (App.SocialPoster.rand w))) mod (9999 - 1000 + 1)).
  assert (Hn : 1000 <= n <= 9999).
  { subst n.
    change (9999 - 1000 + 1) with 9000.
    pose proof (N.mod_lt (draw (App.SocialPoster.rand w)
                            (S (pos (App.SocialPoster.rand w)))) 9000) as Hlt.
    specialize (Hlt ltac:(discriminate)).
    split; [apply N.le_add_r|].
    apply N.lt_succ_r. change (N.succ 9999) with (1000 + 9000).
    now apply N.add_lt_mono_l. }
  destruct p; simpl in H; rewrite H;
    repeat match goal with
           | |- context [if truthy_opt ?o then _ else _] =>
               destruct (truthy_opt o)
           end;
    eexists; exists n; eexists;
    (split; [reflexivity|]); cbn; auto.
Qed.

(** C2, as the code has it.  In the publisher of the [src] package a publish
    call for a platform whose credential is unset returns status "skipped"
    and sends nothing.  In the social poster of the [app] package
    [schedule_post] for a platform whose client is not configured calls no
    client either, but answers with a simulated post marked as posted, under
    a "demo_" identifier. *)
Theorem publish_unconfigured
    (settings : Settings) (p : PlatformType) (content : dict) (url : str)
    (net : network)
    (app_settings : App.Config.Settings) (q : App.Models.Platform)
    (video_url caption : str) (tags : list str) (schedule : dict)
    (w : App.SocialPoster.world) :
  (truthy_opt (credential settings p) = false ->
     exists d, publish settings p content url net = (Ok d, net) /\ skipped d)
  /\ (truthy_opt (app_credential app_settings q) = false ->
        exists post n w',
          App.SocialPoster.schedule_post
            (App.SocialPoster.setup_api_clients app_settings)
            q video_url caption tags schedule w = (Ok (Some post), w')
          /\ App.SocialPoster.client_calls w' = App.SocialPoster.client_calls w
          /\ App.Models.posted post = true
          /\ App.Models.post_id post
             = Some (u "demo_" ++ App.Models.Platform_value q ++ u "_"
                     ++ str_of_N n)
          /\ 1000 <= n <= 9999).
Proof.
  split.
  - apply publish_unconfigured_skipped.
  - apply schedule_post_unconfigured_simulated.
Qed.

Lemma publish_unconfigured_witness :
  (exists d, publish no_credentials YOUTUBE [] (u "https://cdn.example/v.mp4") []
             = (Ok d, []) /\ skipped d)
  /\ (exists post w',
        App.SocialPoster.schedule_post
          (App.SocialPoster.setup_api_clients app_no_credentials)
          App.Models.TIKTOK (u "https://cdn.example/v.mp4") (u "新商品")
          [u "#AI"] [] calm = (Ok (Some post), w')
        /\ App.SocialPoster.client_calls w' = []).
Proof.
  pose proof (publish_unconfigured no_credentials YOUTUBE []
                (u "https://cdn.example/v.mp4") []
                app_no_credentials App.Models.TIKTOK
                (u "https://cdn.example/v.mp4") (u "新商品") [u "#AI"] [] calm)
    as [H1 H2].
  split.
  - apply H1. reflexivity.
  - destruct H2 as (post & n & w' & Hp & Hc & _); [reflexivity|].
    exists post, w'. split; assumption.
Defined.

(** C2 as stated fails on [schedule_post]: with no credential at all, a
    post to TikTok is not skipped but reported as posted. *)
Lemma schedule_post_unconfigured_reports_posted :
  truthy_opt (app_credential app_no_credentials App.Models.TIKTOK) = false
  /\ exists post w',
    App.SocialPoster.schedule_post
      (App.SocialPoster.setup_api_clients app_no_credentials)
      App.Models.TIKTOK (u "https://cdn.example/v.mp4") (u "新商品")
      [u "#AI"] [] calm = (Ok (Some post), w')
    /\ App.Models.posted post = true
    /\ App.Models.post_id post = Some (u "demo_tiktok_1000")
    /\ App.SocialPoster.log w'
       = [(App.SocialPoster.INFO, u "Simulated posting to tiktok: demo_tiktok_1000")].
Proof.
  split; [reflexivity|].
  eexists. eexists. split; [vm_compute; reflexivity|].
  repeat split.
Qed.

End PublishFacts.

(** ** Regenerating the content of a campaign *)

Module RegenerateFacts.
Import Src.Models Src.Main PyFacts.
Import RegenerateNotions.

Lemma same_but_status_refl c : same_but_status c c.
Proof. unfold same_but_status. auto 10. Qed.

Lemma same_but_status_trans a b c :
  same_but_status a b -> same_but_status b c -> same_but_status a c.
Proof.
  unfold same_but_status.
  intros (?&?&?&?&?&?&?) (?&?&?&?&?&?&?). repeat split; congruence.
Qed.

Lemma regenerate_step campaign_id w c :
  campaigns_db w !! campaign_id = Some c ->
  exists task_id,
    regenerate_campaign_content campaign_id w
    = (Ok {| r_campaign_id := campaign_id; r_task_id := task_id;
             r_status := u "processing" |},
       {| campaigns_db :=
            <[campaign_id :=
                set_updated_at (readings (now w) (reads (now w)))
                  (set_status PROCESSING c)]> (campaigns_db w);
          delayed :=
            delayed w
            ++ [(task_id,
                 {| tc_id := campaign_id;
                    tc_template_key := template_key (config c);
                    tc_content_type := ContentType_value (content_type (config c));
                    tc_platforms := map PlatformType_value (platforms (config c));
                    tc_video_config := video_config (config c) |})];
          task_ids := task_ids w;
          now := {| readings := readings (now w); reads := S (reads (now w)) |} |}).
Proof.
  intros Hc. unfold regenerate_campaign_content, bind, get. rewrite Hc.
  unfold generate_campaign_content_delay, datetime_now, tick, modify, ret,
    set_campaigns_db.
  cbn [campaigns_db delayed task_ids now]. eauto.
Qed.

Lemma regenerated_keeps n campaign_id : forall w c,
  campaigns_db w !! campaign_id = Some c ->
  exists c', campaigns_db (regenerated n campaign_id w) !! campaign_id = Some c'
             /\ same_but_status c c'.
Proof.
  induction n as [|n IH]; intros w c Hc; simpl.
  - eauto using same_but_status_refl.
  - destruct (regenerate_step _ _ _ Hc) as [task_id ->]. cbn [snd].
    match goal with
    | |- context [regenerated n campaign_id ?w1] =>
        destruct (IH w1 (set_updated_at (readings (now w) (reads (now w)))
                           (set_status PROCESSING c))) as (c' & Hc' & Hs);
        [cbn [campaigns_db]; apply lookup_insert_eq|]
    end.
    exists c'. split; [exact Hc'|].
    eapply same_but_status_trans; [|exact Hs].
    unfold same_but_status. cbn. auto 10.
Qed.

(** C7.  For every existing campaign a regenerate request answers
    "processing" and leaves the campaign in status [PROCESSING] with
    [updated_at] set to the time of the request; no other field of the
    campaign changes and no other campaign is touched.  In particular
    [published_urls] is kept, also across any number of regenerations. *)
Theorem regenerate_campaign_content_frame
    (campaign_id : str) (w : world) (c : Campaign) :
  campaigns_db w !! campaign_id = Some c ->
  (exists resp w' c',
     regenerate_campaign_content campaign_id w = (Ok resp, w')
     /\ r_status resp = u "processing"
     /\ campaigns_db w' !! campaign_id = Some c'
     /\ status c' = PROCESSING
     /\ updated_at c' = readings (now w) (reads (now w))
     /\ same_but_status c c'
     /\ forall other, other <> campaign_id ->
          campaigns_db w' !! other = campaigns_db w !! other)
  /\ (forall n, exists c',
        campaigns_db (regenerated n campaign_id w) !! campaign_id = Some c'
        /\ published_urls c' = published_urls c).
Proof.
  intros Hc. split.
  - destruct (regenerate_step _ _ _ Hc) as [task_id Hr].
    eexists. eexists. eexists. split; [exact Hr|].
    cbn [campaigns_db r_status]. split; [reflexivity|].
    split; [apply lookup_insert_eq|].
    split; [reflexivity|]. split; [reflexivity|].
    split; [unfold same_but_status; cbn; auto 10|].
    intros other Hne. now apply lookup_insert_ne.
  - intros n. destruct (regenerated_keeps n _ _ _ Hc) as (c' & Hc' & Hs).
    exists c'. split; [assumption|]. apply Hs.
Qed.

Lemma regenerate_campaign_content_frame_witness :
  exists c',
    campaigns_db (regenerated 2 (u "c1") one_campaign) !! u "c1" = Some c'
    /\ published_urls c' = published_urls published_campaign.
Proof.
  refine (proj2 (regenerate_campaign_content_frame (u "c1") one_campaign
                   published_campaign _) 2%nat).
  vm_compute. reflexivity.
Defined.

End RegenerateFacts.

(** ** The engagement queue *)

Module EngagementFacts.
Import App.Models App.Config App.Database PyFacts.
Import App.SocialPoster App.EngagementWorker.
Import EngagementNotions.

Lemma pending_sublist rows_of t_now table :
  pending_tasks rows_of t_now table `sublist_of` rows_of table.
Proof.
  unfold pending_tasks. etransitivity; [apply sublist_take | apply filter_sublist].
Qed.

Lemma pending_elem rows_of t_now table key task :
  yields_table rows_of ->
  (key, task) ∈ pending_tasks rows_of t_now table ->
  table !! key = Some task /\ executed task = false
  /\ (e_scheduled_time task <= t_now)%Z.
Proof.
  intros Hy Hin. split.
  - apply elem_of_map_to_list. rewrite <- (Hy table).
    eapply elem_of_sublist; [exact Hin | apply pending_sublist].
  - unfold pending_tasks in Hin.
    pose proof (elem_of_sublist _ _ _ Hin (sublist_take _ _)) as Hf.
    apply list_elem_of_In, List.filter_In in Hf as [_ Hp].
    unfold is_pending in Hp. cbn [snd] in Hp.
    apply andb_true_iff in Hp as [He Ht].
    split; [now destruct (executed task) | now apply Z.leb_le].
Qed.

Lemma pending_length rows_of t_now table :
  (length (pending_tasks rows_of t_now table) <= 10)%nat.
Proof. unfold pending_tasks. rewrite length_take. lia. Qed.

Lemma map_to_list_yields_table :
  yields_table (fun table => map_to_list table).
Proof. intros table. reflexivity. Qed.

(** The compiler refuses the definition: a call raises and leaves
    everything as it was. *)
Lemma process_engagement_queue_refused settings rows_of w :
  process_engagement_queue settings rows_of w = (Raise await_outside_async, w).
Proof. reflexivity. Qed.

Lemma runs_unchanged settings rows_of n : forall w,
  runs settings rows_of n w = w.
Proof.
  induction n as [|n IH]; intros w; cbn [runs]; [reflexivity|].
  rewrite process_engagement_queue_refused. cbn [snd]. apply IH.
Qed.

(** C5, as the code has it.  A call of the queue processor does not run:
    its [def] holds an [await], so the call raises [SyntaxError] and the
    table is left as it was.  Every task that the query of the processor
    selects at the time of the call is therefore stored afterwards as
    before, with [executed = false] and without a result of the call. *)
Theorem process_engagement_queue_never_marks
    (settings : Settings)
    (rows_of : gmap str EngagementTaskDB -> list (str * EngagementTaskDB))
    (w : App.EngagementWorker.world) :
  yields_table rows_of ->
  process_engagement_queue settings rows_of w = (Raise await_outside_async, w)
  /\ forall key task,
       (key, task) ∈ pending_tasks rows_of (run_time w) (tasks w) ->
       tasks (snd (process_engagement_queue settings rows_of w)) !! key
       = Some task
       /\ executed task = false.
Proof.
  intros Hy. split; [apply process_engagement_queue_refused|].
  intros key task Hmem.
  destruct (pending_elem _ _ _ _ _ Hy Hmem) as (Hrow & Hx & _).
  rewrite process_engagement_queue_refused. cbn [snd]. split; assumption.
Qed.

(** C6.  The query of the processor selects at most ten tasks, each of them
    a row of the table with [executed = false] and a scheduled time at or
    before the time asked for.  A task that has [executed = true] stays as
    it is through any number of calls of the processor, each of which
    raises as C5 has it, and the query selects it after none of them,
    whatever the time. *)
Theorem pending_tasks_monotonic
    (settings : Settings)
    (rows_of : gmap str EngagementTaskDB -> list (str * EngagementTaskDB))
    (w : App.EngagementWorker.world) :
  yields_table rows_of ->
  (forall t_now,
     (length (pending_tasks rows_of t_now (tasks w)) <= 10)%nat
     /\ forall key task,
          (key, task) ∈ pending_tasks rows_of t_now (tasks w) ->
          tasks w !! key = Some task /\ executed task = false
          /\ (e_scheduled_time task <= t_now)%Z)
  /\ (forall key task,
        tasks w !! key = Some task -> executed task = true ->
        forall n t_now,
          tasks (runs settings rows_of n w) !! key = Some task
          /\ key ∉ (pending_tasks rows_of t_now
                      (tasks (runs settings rows_of n w))).*1).
Proof.
  intros Hy. split.
  - intros t_now. split; [apply pending_length|].
    intros key task. now apply pending_elem.
  - intros key task Hk He n t_now. rewrite runs_unchanged.
    split; [assumption|].
    intros Hin. apply list_elem_of_fmap in Hin as ([k t] & -> & Hmem).
    destruct (pending_elem _ _ _ _ _ Hy Hmem) as (Hl & Hx & _).
    cbn [fst] in Hk. congruence.
Qed.

(** The due task of [three_tasks]: the query selects it, the call raises,
    and the task is still to be executed. *)
Lemma process_engagement_queue_never_marks_witness :
  (u "t1", like_task)
    ∈ pending_tasks (fun table => map_to_list table) (run_time three_tasks)
        (tasks three_tasks)
  /\ process_engagement_queue PublishNotions.app_no_credentials
       (fun table => map_to_list table) three_tasks
     = (Raise await_outside_async, three_tasks)
  /\ tasks (snd (process_engagement_queue PublishNotions.app_no_credentials
                   (fun table => map_to_list table) three_tasks)) !! u "t1"
     = Some like_task
  /\ executed like_task = false.
Proof.
  assert (Hsel : (u "t1", like_task)
                   ∈ pending_tasks (fun table => map_to_list table)
                       (run_time three_tasks) (tasks three_tasks))
    by (vm_compute; constructor).
  destruct (process_engagement_queue_never_marks
              PublishNotions.app_no_credentials
              (fun table => map_to_list table) three_tasks
              map_to_list_yields_table) as (Hrun & Hkept).
  destruct (Hkept (u "t1") like_task Hsel) as (H1 & H2).
  split; [exact Hsel|]. split; [exact Hrun|]. split; [exact H1 | exact H2].
Defined.

Lemma pending_tasks_monotonic_witness :
  tasks (runs PublishNotions.app_no_credentials (fun table => map_to_list table)
           3 three_tasks) !! u "t2" = Some done_task
  /\ u "t2" ∉ (pending_tasks (fun table => map_to_list table) 9000%Z
                 (tasks (runs PublishNotions.app_no_credentials
                           (fun table => map_to_list table) 3 three_tasks))).*1.
Proof.
  refine (proj2 (pending_tasks_monotonic PublishNotions.app_no_credentials
                   (fun table => map_to_list table) three_tasks
                   map_to_list_yields_table)
            (u "t2") done_task _ _ 3%nat 9000%Z).
  - vm_compute. reflexivity.
  - reflexivity.
Defined.

End EngagementFacts.

(** ** Processing a campaign *)

Module ManagerFacts.
Import App.Models App.Config App.Database PyFacts.
Import App.CampaignManager.
Import ManagerNotions.

Section Steps.
Context {S : Type}.
Variable generate_video : str -> VideoStyle -> Z -> bool -> M S (option str).
Variable schedule_post :
  Platform -> str -> str -> list str -> dict -> M S (option SocialPost).
Variable settings : Settings.

Lemma keeps_rows_refl (w : world S) : keeps_rows w w.
Proof. intros key H. exact H. Qed.

Lemma keeps_rows_trans (a b c : world S) :
  keeps_rows a b -> keeps_rows b c -> keeps_rows a c.
Proof. intros H1 H2 key H. apply H2, H1, H. Qed.

Lemma preserves_ret {A} (a : A) : preserves (ret a : M (world S) A).
Proof. intros w r w1 [= <- <-]. apply keeps_rows_refl. Qed.

Lemma preserves_lift {A} (x : result A) : preserves (lift x : M (world S) A).
Proof. intros w r w1 [= <- <-]. apply keeps_rows_refl. Qed.

Lemma preserves_get : preserves (get : M (world S) (world S)).
Proof. intros w r w1 [= <- <-]. apply keeps_rows_refl. Qed.

Lemma preserves_bind {A B} (m : M (world S) A) (k : A -> M (world S) B) :
  preserves m -> (forall a, preserves (k a)) -> preserves (bind m k).
Proof.
  intros Hm Hk w r w1. unfold bind.
  destruct (m w) as [[a|e] w2] eqn:Em.
  - intros Hka. eapply keeps_rows_trans; [eapply Hm, Em | eapply Hk, Hka].
  - intros [= <- <-]. eapply Hm, Em.
Qed.

Lemma preserves_service {A} (m : M S A) : preserves (service m).
Proof.
  intros w r w1. unfold service. destruct (m (services w)) as [x s].
  intros [= <- <-]. intros key H. exact H.
Qed.

Lemma preserves_logger l msg : preserves (logger (S := S) l msg).
Proof. intros w r w1 [= <- <-]. intros key H. exact H. Qed.

Lemma preserves_utcnow : preserves (utcnow (S := S)).
Proof. intros w r w1 [= <- <-]. intros key H. exact H. Qed.

Lemma preserves_commit key row : preserves (commit (S := S) key row).
Proof.
  intros w r w1 [= <- <-]. intros k H. cbn [campaigns].
  destruct (decide (key = k)) as [->|Hne].
  - rewrite lookup_insert_eq. eauto.
  - now rewrite lookup_insert_ne.
Qed.

Lemma preserves_raise {A} e : preserves (raise e : M (world S) A).
Proof. intros w r w1 [= <- <-]. apply keeps_rows_refl. Qed.

Lemma preserves_commit_video_urls key urls row :
  preserves (commit_video_urls (S := S) key urls row).
Proof.
  unfold commit_video_urls. destruct (bool_decide (urls = c_video_urls row)).
  - apply preserves_ret.
  - apply preserves_bind; [apply preserves_utcnow|].
    intros t. apply preserves_commit.
Qed.

Lemma preserves_commit_posts key new_posts row :
  preserves (commit_posts (S := S) key new_posts row).
Proof.
  unfold commit_posts.
  destruct (json_serializable new_posts && same_posts new_posts (c_posts row)).
  - apply preserves_ret.
  - apply preserves_bind; [apply preserves_utcnow|]. intros t.
    destruct (json_serializable new_posts);
      [apply preserves_commit | apply preserves_raise].
Qed.

Lemma preserves_update_campaign_status cid st :
  preserves (update_campaign_status (S := S) cid st).
Proof.
  unfold update_campaign_status. apply preserves_bind; [apply preserves_get|].
  intros w. destruct (campaigns w !! cid).
  - apply preserves_bind; [apply preserves_utcnow|].
    intros t. apply preserves_commit.
  - apply preserves_ret.
Qed.

Lemma preserves_variations_loop content base n : forall i urls,
  preserves (variations_loop generate_video content base i n urls).
Proof.
  induction n as [|n IH]; intros i urls; cbn [variations_loop].
  - apply preserves_ret.
  - apply preserves_bind; [apply preserves_lift|]. intros p.
    apply preserves_bind; [apply preserves_service|]. intros url. apply IH.
Qed.

Lemma preserves_generate_campaign_videos campaign :
  preserves (_generate_campaign_videos generate_video campaign).
Proof.
  unfold _generate_campaign_videos.
  apply preserves_bind; [apply preserves_service|]. intros url.
  apply preserves_bind; [apply preserves_variations_loop|]. intros urls.
  apply preserves_bind; [apply preserves_get|]. intros w.
  apply preserves_bind; [|intros; apply preserves_ret].
  destruct (campaigns w !! id campaign);
    [apply preserves_commit_video_urls | apply preserves_ret].
Qed.

Lemma preserves_posts_loop campaign urls targets : forall i acc,
  preserves (posts_loop schedule_post settings campaign urls i targets acc).
Proof.
  induction targets as [|p rest IH]; intros i acc; cbn [posts_loop].
  - apply preserves_ret.
  - apply preserves_bind; [apply preserves_lift|]. intros url.
    apply preserves_bind; [apply preserves_service|]. intros post. apply IH.
Qed.

Lemma preserves_create_social_posts campaign urls :
  preserves (_create_social_posts schedule_post settings campaign urls).
Proof.
  unfold _create_social_posts. destruct urls as [|x urls].
  - apply preserves_logger.
  - apply preserves_bind; [apply preserves_posts_loop|]. intros new_posts.
    apply preserves_bind; [apply preserves_get|]. intros w.
    destruct (campaigns w !! id campaign);
      [apply preserves_commit_posts | apply preserves_ret].
Qed.

Lemma preserves_process_campaign_body cid :
  preserves (process_campaign_body generate_video schedule_post settings cid).
Proof.
  unfold process_campaign_body, get_campaign.
  apply preserves_bind.
  { apply preserves_bind; [apply preserves_get|]. intros w.
    destruct (campaigns w !! cid).
    - apply preserves_bind; [apply preserves_lift|]. intros found.
      apply preserves_ret.
    - apply preserves_ret. }
  intros [campaign|]; [|apply preserves_logger].
  apply preserves_bind; [apply preserves_update_campaign_status|]. intros _.
  apply preserves_bind; [apply preserves_generate_campaign_videos|]. intros urls.
  apply preserves_bind; [apply preserves_create_social_posts|]. intros _.
  apply preserves_bind; [apply preserves_update_campaign_status|]. intros _.
  apply preserves_logger.
Qed.

(** The handler of [process_campaign] on an existing row. *)
Lemma failed_status_written cid (w1 : world S) row1 :
  campaigns w1 !! cid = Some row1 ->
  update_campaign_status cid FAILED w1
  = (Ok tt,
     {| campaigns :=
          <[cid := set_status (u "failed") (readings (now w1) (reads (now w1)))
                     row1]> (campaigns w1);
        now := {| readings := readings (now w1); reads := Datatypes.S (reads (now w1)) |};
        log := log w1;
        services := services w1 |}).
Proof.
  intros H. unfold update_campaign_status, bind, get. rewrite H.
  reflexivity.
Qed.

End Steps.

(** C1, as the code has it.  When the processing of an existing campaign
    raises an error that no stage recovered, [process_campaign] ends
    normally, and the stored row is the row as the stages left it with
    status "failed" and [updated_at] set to the time of the failure.  The
    cause goes to the log, as an error entry naming the campaign; the row
    has no column for it. *)
Theorem process_campaign_failed
    {S : Type}
    (generate_video : str -> VideoStyle -> Z -> bool -> M S (option str))
    (schedule_post :
       Platform -> str -> str -> list str -> dict -> M S (option SocialPost))
    (settings : Settings) (cid : str) (w w1 : world S) (row : CampaignDB)
    (e : exn) :
  campaigns w !! cid = Some row ->
  process_campaign_body generate_video schedule_post settings cid w
  = (Raise e, w1) ->
  exists row1 w2,
    campaigns w1 !! cid = Some row1
    /\ process_campaign generate_video schedule_post settings cid w = (Ok tt, w2)
    /\ campaigns w2
       = <[cid := set_status (u "failed") (readings (now w1) (reads (now w1)))
                    row1]> (campaigns w1)
    /\ (exists row2, campaigns w2 !! cid = Some row2
                     /\ c_status row2 = CampaignStatus_value FAILED
                     /\ c_updated_at row2 = readings (now w1) (reads (now w1)))
    /\ log w2
       = log w1 ++ [(ERROR, u "Error processing campaign " ++ cid ++ u ": "
                            ++ str_of_exn e)].
Proof.
  intros Hrow Hbody.
  destruct (preserves_process_campaign_body generate_video schedule_post
              settings cid w (Raise e) w1 Hbody cid) as [row1 Hrow1]; [eauto|].
  exists row1. unfold process_campaign, try_except. rewrite Hbody.
  unfold bind at 1. unfold logger at 1. unfold modify.
  rewrite (failed_status_written cid _ row1) by exact Hrow1.
  eexists. split; [exact Hrow1|]. split; [reflexivity|].
  cbn [campaigns log now]. split; [reflexivity|].
  split; [|reflexivity].
  eexists. split; [apply lookup_insert_eq|]. split; reflexivity.
Qed.

Lemma process_campaign_failing e :
  process_campaign (failing e) no_post PublishNotions.app_no_credentials
    (u "c1") draft_world
  = (Ok tt,
     {| campaigns := {[ u "c1" := failed_row ]};
        now := {| readings := fun n => (1000 + Z.of_nat n)%Z; reads := 2 |};
        log := [(ERROR, u "Error processing campaign c1: " ++ str_of_exn e)];
        services := tt |}).
Proof. vm_compute. reflexivity. Qed.

Lemma process_campaign_failed_witness :
  exists w2 row2,
    process_campaign (failing (Exception (u "render failed"))) no_post
      PublishNotions.app_no_credentials (u "c1") draft_world = (Ok tt, w2)
    /\ campaigns w2 !! u "c1" = Some row2
    /\ c_status row2 = u "failed"
    /\ log w2 = [(ERROR, u "Error processing campaign c1: render failed")].
Proof.
  destruct (process_campaign_failed
              (failing (Exception (u "render failed"))) no_post
              PublishNotions.app_no_credentials (u "c1") draft_world
              {| campaigns :=
                   {[ u "c1" := set_status (u "running") 1000%Z draft_row ]};
                 now := {| readings := fun n => (1000 + Z.of_nat n)%Z;
                           reads := 1 |};
                 log := []; services := tt |}
              draft_row (Exception (u "render failed")))
    as (row1 & w2 & _ & Hrun & _ & (row2 & Hrow & Hst & _) & Hlog).
  - vm_compute. reflexivity.
  - vm_compute. reflexivity.
  - exists w2, row2. repeat split; assumption.
Defined.

(** C1 as stated fails on its second half: whatever the cause, the failed
    run leaves the same row, so no reading of the stored record gives the
    error message of the exception. *)
Lemma process_campaign_cause_not_stored :
  ~ exists errorMessage : CampaignDB -> option str,
      forall e : exn,
      exists w' row,
        process_campaign (failing e) no_post PublishNotions.app_no_credentials
          (u "c1") draft_world = (Ok tt, w')
        /\ campaigns w' !! u "c1" = Some row
        /\ c_status row = u "failed"
        /\ errorMessage row = Some (str_of_exn e).
Proof.
  intros [errorMessage H].
  destruct (H (Exception (u "boom"))) as (w1 & r1 & Hrun1 & Hrow1 & _ & Hm1).
  destruct (H (Exception (u "bang"))) as (w2 & r2 & Hrun2 & Hrow2 & _ & Hm2).
  rewrite process_campaign_failing in Hrun1, Hrun2.
  injection Hrun1 as <-. injection Hrun2 as <-.
  cbn [campaigns] in Hrow1, Hrow2.
  rewrite lookup_singleton_eq in Hrow1, Hrow2.
  injection Hrow1 as <-. injection Hrow2 as <-.
  rewrite Hm1 in Hm2. vm_compute in Hm2. discriminate.
Qed.

End ManagerFacts.

(** ** The campaign manager: further properties *)

Module ManagerMoreFacts.
Import App.Models App.Config App.Database PyFacts.
Import App.CampaignManager.
Import ManagerNotions ManagerMoreNotions.

Lemma bind_inv_ok {W A B} (m : M W A) (k : A -> M W B) w b w' :
  bind m k w = (Ok b, w') ->
  exists a w1, m w = (Ok a, w1) /\ k a w1 = (Ok b, w').
Proof. unfold bind. destruct (m w) as [[a|e] w1]; [eauto | discriminate]. Qed.

Lemma CampaignStatus_of_value st :
  CampaignStatus_of (CampaignStatus_value st) = Some st.
Proof. destruct st; vm_compute; reflexivity. Qed.

Lemma CampaignType_of_value t :
  CampaignType_of (CampaignType_value t) = Some t.
Proof. destruct t; vm_compute; reflexivity. Qed.



Section Steps.
Context {S : Type}.
Variable generate_video : str -> VideoStyle -> Z -> bool -> M S (option str).
Variable schedule_post :
  Platform -> str -> str -> list str -> dict -> M S (option SocialPost).
Variable settings : Settings.

(** Writing a status on an existing row. *)
Lemma status_written cid st (w : world S) row :
  campaigns w !! cid = Some row ->
  update_campaign_status cid st w
  = (Ok tt,
     {| campaigns :=
          <[cid := set_status (CampaignStatus_value st)
                     (readings (now w) (reads (now w))) row]> (campaigns w);
        now := {| readings := readings (now w);
                  reads := Datatypes.S (reads (now w)) |};
        log := log w;
        services := services w |}).
Proof.
  intros H. unfold update_campaign_status, bind, get. rewrite H. reflexivity.
Qed.

Lemma status_not_written cid st (w : world S) :
  campaigns w !! cid = None -> update_campaign_status cid st w = (Ok tt, w).
Proof.
  intros H. unfold update_campaign_status, bind, get. rewrite H. reflexivity.
Qed.

Lemma update_campaign_status_returns cid st (w : world S) :
  exists w', update_campaign_status cid st w = (Ok tt, w').
Proof.
  destruct (campaigns w !! cid) as [row|] eqn:H.
  - rewrite (status_written _ _ _ _ H). eauto.
  - rewrite (status_not_written _ _ _ H). eauto.
Qed.

(** X1.  [process_campaign] never lets an exception out: whatever the video
    generator and the social poster do, and whatever the table holds, the
    call returns. *)
Theorem process_campaign_returns (cid : str) (w : world S) :
  exists w', process_campaign generate_video schedule_post settings cid w
             = (Ok tt, w').
Proof.
  unfold process_campaign, try_except.
  destruct (process_campaign_body generate_video schedule_post settings cid w)
    as [[[]|e] w1].
  - eauto.
  - unfold bind at 1. unfold logger at 1. unfold modify.
    apply update_campaign_status_returns.
Qed.

(** X2.  Processing an identifier that the table does not hold changes
    neither the table nor the services nor the clock; it only logs that the
    campaign was not found. *)
Theorem process_campaign_unknown (cid : str) (w : world S) :
  campaigns w !! cid = None ->
  process_campaign generate_video schedule_post settings cid w
  = (Ok tt,
     {| campaigns := campaigns w; now := now w;
        log := log w ++ [(ERROR, u "Campaign not found: " ++ cid)];
        services := services w |}).
Proof.
  intros H.
  unfold process_campaign, try_except, process_campaign_body, get_campaign,
    bind, get.
  rewrite H. reflexivity.
Qed.

Lemma get_campaign_row cid (w : world S) row :
  campaigns w !! cid = Some row ->
  get_campaign cid w
  = (match to_campaign cid row with
     | Ok c => Ok (Some c)
     | Raise e => Raise e
     end, w).
Proof.
  intros H. unfold get_campaign, bind, get, lift, ret. rewrite H.
  destruct (to_campaign cid row); reflexivity.
Qed.


Lemma to_campaign_invalid cid row :
  ~ valid_row row ->
  to_campaign cid row = Raise (ValueError (u "validation error for Campaign")).
Proof.
  intros H. unfold to_campaign, valid_row in *.
  destruct (CampaignType_of (c_campaign_type row)); [|reflexivity].
  destruct (CampaignStatus_of (c_status row)); [|reflexivity].
  exfalso. apply H. split; eauto.
Qed.

Lemma to_campaign_id cid row c : to_campaign cid row = Ok c -> id c = cid.
Proof.
  unfold to_campaign.
  destruct (CampaignType_of (c_campaign_type row)); [|discriminate].
  destruct (CampaignStatus_of (c_status row)); [|discriminate].
  intros [= <-]. reflexivity.
Qed.

(** When the body returns, the last status written is "completed". *)
Lemma body_returned_completed cid (w w1 : world S) row :
  campaigns w !! cid = Some row ->
  process_campaign_body generate_video schedule_post settings cid w
  = (Ok tt, w1) ->
  exists row1, campaigns w1 !! cid = Some row1
               /\ c_status row1 = u "completed".
Proof.
  intros Hrow Hb. unfold process_campaign_body in Hb.
  apply bind_inv_ok in Hb as (c & wa & Hget & Hb).
  rewrite (get_campaign_row _ _ _ Hrow) in Hget.
  destruct (to_campaign cid row) as [camp|e]; [|discriminate].
  injection Hget as <- <-.
  apply bind_inv_ok in Hb as ([] & w2 & H1 & Hb).
  apply bind_inv_ok in Hb as (urls & w3 & H2 & Hb).
  apply bind_inv_ok in Hb as ([] & w4 & H3 & Hb).
  apply bind_inv_ok in Hb as ([] & w5 & H4 & Hb).
  assert (Hk : is_Some (campaigns w4 !! cid)).
  { eapply (ManagerFacts.preserves_create_social_posts _ _ _ _ _ _ _ H3).
    eapply (ManagerFacts.preserves_generate_campaign_videos _ _ _ _ _ H2).
    eapply (ManagerFacts.preserves_update_campaign_status _ _ _ _ _ H1).
    eauto. }
  destruct Hk as [row4 Hrow4].
  rewrite (status_written _ _ _ _ Hrow4) in H4. injection H4 as <-.
  injection Hb as <-. cbn [campaigns].
  rewrite lookup_insert_eq. eauto.
Qed.

(** X3.  For every campaign the table holds, [process_campaign] leaves the
    stored status at one of the two final values: "completed" when no stage
    raised, "failed" when one did.  It is never left at "running". *)
Theorem process_campaign_terminal (cid : str) (w : world S) (row : CampaignDB) :
  campaigns w !! cid = Some row ->
  exists w' row',
    process_campaign generate_video schedule_post settings cid w = (Ok tt, w')
    /\ campaigns w' !! cid = Some row'
    /\ match fst (process_campaign_body generate_video schedule_post settings
                    cid w) with
       | Ok _ => c_status row' = u "completed"
       | Raise _ => c_status row' = u "failed"
       end.
Proof.
  intros Hrow. unfold process_campaign, try_except.
  destruct (process_campaign_body generate_video schedule_post settings cid w)
    as [[[]|e] w1] eqn:Hb; cbn [fst].
  - destruct (body_returned_completed _ _ _ _ Hrow Hb) as (row1 & H1 & H2).
    eauto.
  - destruct (ManagerFacts.preserves_process_campaign_body generate_video
                schedule_post settings cid w (Raise e) w1 Hb cid)
      as [row1 Hrow1]; [eauto|].
    unfold bind at 1. unfold logger at 1. unfold modify.
    rewrite (status_written cid FAILED _ row1) by exact Hrow1.
    eexists. eexists. split; [reflexivity|]. cbn [campaigns].
    rewrite lookup_insert_eq. split; reflexivity.
Qed.

End Steps.

Lemma process_campaign_terminal_witness :
  exists w' row',
    process_campaign some_video posts_now PublishNotions.app_no_credentials
      (u "c1") draft_world = (Ok tt, w')
    /\ campaigns w' !! u "c1" = Some row'
    /\ c_status row' = u "completed"
    /\ length (c_video_urls row') = 3%nat
    /\ length (c_posts row') = 2%nat.
Proof.
  destruct (process_campaign_terminal some_video posts_now
              PublishNotions.app_no_credentials (u "c1") draft_world draft_row)
    as (w' & row' & Hrun & Hrow & Hst).
  - vm_compute. reflexivity.
  - exists w', row'. split; [exact Hrun|]. split; [exact Hrow|].
    assert (Hc : exists w1 r1,
               process_campaign some_video posts_now
                 PublishNotions.app_no_credentials (u "c1") draft_world
               = (Ok tt, w1)
               /\ campaigns w1 !! u "c1" = Some r1
               /\ c_status r1 = u "completed"
               /\ length (c_video_urls r1) = 3%nat
               /\ length (c_posts r1) = 2%nat).
    { eexists. eexists. split; [vm_compute; reflexivity|].
      split; [vm_compute; reflexivity|]. repeat split. }
    destruct Hc as (w1 & r1 & Hrun1 & Hrow1 & H1 & H2 & H3).
    rewrite Hrun in Hrun1. injection Hrun1 as <-.
    rewrite Hrow in Hrow1. injection Hrow1 as <-. auto.
Defined.

Lemma process_campaign_unknown_witness :
  process_campaign some_video posts_now PublishNotions.app_no_credentials
    (u "nobody") draft_world
  = (Ok tt,
     {| campaigns := campaigns draft_world; now := now draft_world;
        log := [(ERROR, u "Campaign not found: nobody")];
        services := tt |}).
Proof.
  apply (process_campaign_unknown some_video posts_now
           PublishNotions.app_no_credentials (u "nobody") draft_world).
  vm_compute. reflexivity.
Defined.

End ManagerMoreFacts.

(** ** The campaign manager: what a run touches *)

Module ManagerFrameFacts.
Import App.Models App.Config App.Database PyFacts.
Import App.CampaignManager.
Import ManagerNotions ManagerMoreNotions ManagerFrameNotions ManagerMoreFacts.

Section Steps.
Context {S : Type}.
Variable generate_video : str -> VideoStyle -> Z -> bool -> M S (option str).
Variable schedule_post :
  Platform -> str -> str -> list str -> dict -> M S (option SocialPost).
Variable settings : Settings.

Lemma same_table_refl cid (w : world S) : same_table_but cid w w.
Proof. split; intros; reflexivity. Qed.

Lemma same_table_trans cid (a b c : world S) :
  same_table_but cid a b -> same_table_but cid b c -> same_table_but cid a c.
Proof.
  intros [H1 H2] [H3 H4]. split.
  - intros key. rewrite H3. apply H1.
  - intros key Hk. rewrite H4, H2 by assumption. reflexivity.
Qed.

Lemma same_table_eq cid (w w1 : world S) :
  campaigns w1 = campaigns w -> same_table_but cid w w1.
Proof. intros H. split; intros; rewrite H; reflexivity. Qed.

Lemma same_table_insert cid (w w1 : world S) row row1 :
  campaigns w !! cid = Some row ->
  campaigns w1 = <[cid := row1]> (campaigns w) ->
  same_table_but cid w w1.
Proof.
  intros Hrow H. split.
  - intros key. rewrite H. destruct (decide (cid = key)) as [<-|Hne].
    + rewrite lookup_insert_eq, Hrow. split; eauto.
    + rewrite lookup_insert_ne by assumption. reflexivity.
  - intros key Hne. rewrite H. apply lookup_insert_ne. congruence.
Qed.

Lemma frames_all {A} cid (m : M (world S) A) :
  (forall w, frames_from cid w m) -> frames cid m.
Proof. intros H w r w1. apply H. Qed.

Lemma frames_ret {A} cid (a : A) : frames cid (ret a : M (world S) A).
Proof. intros w r w1 [= <- <-]. apply same_table_refl. Qed.

Lemma frames_raise {A} cid e : frames cid (raise e : M (world S) A).
Proof. intros w r w1 [= <- <-]. apply same_table_refl. Qed.

Lemma frames_lift {A} cid (x : result A) : frames cid (lift x : M (world S) A).
Proof. intros w r w1 [= <- <-]. apply same_table_refl. Qed.

Lemma frames_service {A} cid (m : M S A) : frames cid (service m).
Proof.
  intros w r w1. unfold service. destruct (m (services w)) as [x s].
  intros [= <- <-]. now apply same_table_eq.
Qed.

Lemma frames_logger cid l msg : frames cid (logger (S := S) l msg).
Proof. intros w r w1 [= <- <-]. now apply same_table_eq. Qed.

(** Sequencing, with what is known of the first step's value. *)
Lemma frames_bind {A B} cid (P : A -> Prop) (m : M (world S) A)
    (k : A -> M (world S) B) :
  frames cid m ->
  (forall w a w1, m w = (Ok a, w1) -> P a) ->
  (forall a, P a -> frames cid (k a)) ->
  frames cid (bind m k).
Proof.
  intros Hm HP Hk w r w1. unfold bind.
  destruct (m w) as [[a|e] w2] eqn:Em.
  - intros Hka. eapply same_table_trans; [eapply Hm, Em|].
    eapply Hk; [eapply HP, Em | exact Hka].
  - intros [= <- <-]. eapply Hm, Em.
Qed.

Lemma frames_seq {A B} cid (m : M (world S) A) (k : A -> M (world S) B) :
  frames cid m -> (forall a, frames cid (k a)) -> frames cid (bind m k).
Proof.
  intros Hm Hk. apply (frames_bind cid (fun _ => True)); auto.
Qed.

Lemma frames_try {A} cid (m : M (world S) A) (h : exn -> M (world S) A) :
  frames cid m -> (forall e, frames cid (h e)) -> frames cid (try_except m h).
Proof.
  intros Hm Hh w r w1. unfold try_except.
  destruct (m w) as [[a|e] w2] eqn:Em.
  - intros [= <- <-]. eapply Hm, Em.
  - intros Hhe. eapply same_table_trans; [eapply Hm, Em | eapply Hh, Hhe].
Qed.

Lemma frames_update_campaign_status cid st :
  frames cid (update_campaign_status (S := S) cid st).
Proof.
  intros w r w1 H. destruct (campaigns w !! cid) as [row|] eqn:Hrow.
  - rewrite (status_written _ _ _ _ Hrow) in H. injection H as <- <-.
    eapply same_table_insert; [exact Hrow | reflexivity].
  - rewrite (status_not_written _ _ _ Hrow) in H. injection H as <- <-.
    apply same_table_refl.
Qed.

(** Writing a column of the row that was read, as both stages do. *)
Lemma same_table_commit_video_urls cid urls row (w w1 : world S) r :
  campaigns w !! cid = Some row ->
  commit_video_urls cid urls row w = (r, w1) ->
  same_table_but cid w w1.
Proof.
  intros Hrow. unfold commit_video_urls.
  destruct (bool_decide (urls = c_video_urls row)).
  - intros [= <- <-]. apply same_table_refl.
  - unfold bind, utcnow, tick, commit, modify. intros [= <- <-].
    eapply same_table_insert; [exact Hrow | reflexivity].
Qed.

Lemma same_table_commit_posts cid new_posts row (w w1 : world S) r :
  campaigns w !! cid = Some row ->
  commit_posts cid new_posts row w = (r, w1) ->
  same_table_but cid w w1.
Proof.
  intros Hrow. unfold commit_posts.
  destruct (json_serializable new_posts && same_posts new_posts (c_posts row)).
  - intros [= <- <-]. apply same_table_refl.
  - unfold bind, utcnow, tick.
    destruct (json_serializable new_posts).
    + unfold commit, modify. intros [= <- <-].
      eapply same_table_insert; [exact Hrow | reflexivity].
    + unfold raise. intros [= <- <-]. now apply same_table_eq.
Qed.

Lemma frames_variations_loop cid content base n : forall i urls,
  frames cid (variations_loop generate_video content base i n urls).
Proof.
  induction n as [|n IH]; intros i urls; cbn [variations_loop].
  - apply frames_ret.
  - apply frames_seq; [apply frames_lift|]. intros p.
    apply frames_seq; [apply frames_service|]. intros url. apply IH.
Qed.

Lemma frames_generate_campaign_videos campaign :
  frames (id campaign) (_generate_campaign_videos generate_video campaign).
Proof.
  unfold _generate_campaign_videos.
  apply frames_seq; [apply frames_service|]. intros url.
  apply frames_seq; [apply frames_variations_loop|]. intros urls.
  intros w r w1. unfold bind at 1. unfold get.
  destruct (campaigns w !! id campaign) as [row|] eqn:Hrow.
  - unfold bind.
    destruct (commit_video_urls (id campaign) urls row w) as [[[]|e] w2] eqn:Hc.
    + unfold ret. intros [= <- <-].
      eapply same_table_commit_video_urls; eassumption.
    + intros [= <- <-]. eapply same_table_commit_video_urls; eassumption.
  - unfold bind, ret. intros [= <- <-]. apply same_table_refl.
Qed.

Lemma frames_posts_loop cid campaign urls targets : forall i acc,
  frames cid (posts_loop schedule_post settings campaign urls i targets acc).
Proof.
  induction targets as [|p rest IH]; intros i acc; cbn [posts_loop].
  - apply frames_ret.
  - apply frames_seq; [apply frames_lift|]. intros url.
    apply frames_seq; [apply frames_service|]. intros post. apply IH.
Qed.

Lemma frames_create_social_posts campaign urls :
  frames (id campaign)
    (_create_social_posts schedule_post settings campaign urls).
Proof.
  unfold _create_social_posts. destruct urls as [|x urls].
  - apply frames_logger.
  - apply frames_seq; [apply frames_posts_loop|]. intros new_posts.
    intros w r w1. unfold bind, get.
    destruct (campaigns w !! id campaign) as [row|] eqn:Hrow.
    + intros Hc. eapply same_table_commit_posts; eassumption.
    + unfold ret. intros [= <- <-]. apply same_table_refl.
Qed.

Lemma get_campaign_id cid (w w1 : world S) c :
  get_campaign cid w = (Ok (Some c), w1) -> id c = cid.
Proof.
  unfold get_campaign, bind, get.
  destruct (campaigns w !! cid) as [row|]; [|discriminate].
  unfold lift, ret. destruct (to_campaign cid row) as [c'|e] eqn:Hc;
    [|discriminate].
  intros [= <- _]. eapply to_campaign_id, Hc.
Qed.

Lemma frames_get_campaign cid : frames cid (get_campaign (S := S) cid).
Proof.
  intros w r w1. unfold get_campaign, bind, get.
  destruct (campaigns w !! cid) as [row|].
  - unfold lift, ret. destruct (to_campaign cid row); intros [= <- <-];
      apply same_table_refl.
  - intros [= <- <-]. apply same_table_refl.
Qed.

(** X4.  A run of [process_campaign] adds no row to the table, removes none,
    and leaves the row of every other campaign exactly as it was. *)
Theorem process_campaign_frame
    (cid : str) (w w' : world S) (r : result unit) :
  process_campaign generate_video schedule_post settings cid w = (r, w') ->
  (forall key, is_Some (campaigns w' !! key) <-> is_Some (campaigns w !! key))
  /\ (forall key, key <> cid -> campaigns w' !! key = campaigns w !! key).
Proof.
  revert w r w'. change (frames cid (process_campaign generate_video
                                        schedule_post settings cid)).
  unfold process_campaign. apply frames_try.
  - unfold process_campaign_body.
    apply (frames_bind cid (fun c => forall c', c = Some c' -> id c' = cid)).
    + apply frames_get_campaign.
    + intros w a w1 H c' ->. eapply get_campaign_id, H.
    + intros [campaign|] Hid; [|apply frames_logger].
      specialize (Hid campaign eq_refl).
      apply frames_seq; [apply frames_update_campaign_status|]. intros _.
      apply frames_seq.
      { rewrite <- Hid. apply frames_generate_campaign_videos. }
      intros urls. apply frames_seq.
      { rewrite <- Hid. apply frames_create_social_posts. }
      intros _.
      apply frames_seq; [apply frames_update_campaign_status|]. intros _.
      apply frames_logger.
  - intros e. apply frames_seq; [apply frames_logger|]. intros _.
    apply frames_update_campaign_status.
Qed.

(** X5.  A row whose type or status column holds a string outside its
    enumeration cannot be read: [get_campaign] raises a validation error.
    [process_campaign] on such a row calls neither service; it writes
    "failed" on the row and logs the validation error. *)
Theorem process_campaign_invalid_row
    (cid : str) (w : world S) (row : CampaignDB) :
  campaigns w !! cid = Some row ->
  ~ valid_row row ->
  get_campaign cid w
  = (Raise (ValueError (u "validation error for Campaign")), w)
  /\ process_campaign generate_video schedule_post settings cid w
     = (Ok tt,
        {| campaigns :=
             <[cid := set_status (u "failed") (readings (now w) (reads (now w)))
                        row]> (campaigns w);
           now := {| readings := readings (now w);
                     reads := Datatypes.S (reads (now w)) |};
           log := log w
                  ++ [(ERROR, u "Error processing campaign " ++ cid ++ u ": "
                              ++ u "validation error for Campaign")];
           services := services w |}).
Proof.
  intros Hrow Hinv.
  assert (Hget : get_campaign cid w
                 = (Raise (ValueError (u "validation error for Campaign")), w)).
  { rewrite (get_campaign_row _ _ _ Hrow), (to_campaign_invalid _ _ Hinv).
    reflexivity. }
  split; [exact Hget|].
  unfold process_campaign, try_except, process_campaign_body.
  rewrite (bind_raise _ _ _ _ _ Hget).
  unfold bind at 1. unfold logger at 1. unfold modify.
  rewrite (status_written cid FAILED _ row) by exact Hrow.
  reflexivity.
Qed.


End Steps.

Lemma process_campaign_frame_witness :
  campaigns (snd (process_campaign (failing (Exception (u "render failed")))
                    no_post PublishNotions.app_no_credentials (u "c1")
                    two_drafts)) !! u "c2"
  = Some draft_row.
Proof.
  destruct (process_campaign (failing (Exception (u "render failed")))
              no_post PublishNotions.app_no_credentials (u "c1") two_drafts)
    as [r w'] eqn:Hrun.
  destruct (process_campaign_frame _ _ _ _ _ _ _ Hrun) as [_ Hother].
  cbn [snd]. rewrite Hother.
  - vm_compute. reflexivity.
  - vm_compute. discriminate.
Defined.

Lemma process_campaign_invalid_row_witness :
  get_campaign (u "c1") archived_world
  = (Raise (ValueError (u "validation error for Campaign")), archived_world)
  /\ exists w' row',
       process_campaign some_video posts_now PublishNotions.app_no_credentials
         (u "c1") archived_world = (Ok tt, w')
       /\ campaigns w' !! u "c1" = Some row'
       /\ c_status row' = u "failed" /\ c_video_urls row' = [].
Proof.
  destruct (process_campaign_invalid_row some_video posts_now
              PublishNotions.app_no_credentials (u "c1") archived_world
              archived_row) as [Hget Hrun].
  - vm_compute. reflexivity.
  - intros [_ [st Hst]]. vm_compute in Hst. discriminate.
  - split; [exact Hget|]. eexists. eexists. split; [exact Hrun|].
    cbn [campaigns]. rewrite lookup_insert_eq. repeat split.
Defined.


End ManagerFrameFacts.

(** ** The campaign manager with services that answer *)

Module ManagerServicesFacts.
Import App.Models App.Config App.Database PyFacts.
Import App.CampaignManager.
Import ManagerNotions ManagerMoreNotions ManagerServicesNotions.
Import ManagerMoreFacts.

Section Steps.
Context {S : Type}.
Variable generate_video : str -> VideoStyle -> Z -> bool -> M S (option str).
Variable schedule_post :
  Platform -> str -> str -> list str -> dict -> M S (option SocialPost).
Variable settings : Settings.
Hypothesis video_ok : video_generator_answers generate_video.
Hypothesis poster_ok : social_poster_answers schedule_post.








End Steps.


End ManagerServicesFacts.

(** ** Creating, listing and archiving campaigns *)

Module LifecycleFacts.
Import App.Models App.Config App.Database PyFacts.
Import App.CampaignManager.
Import AppMore.Manager AppMore.Api AppMore.CleanupWorker.
Import ManagerNotions ManagerMoreNotions ManagerMoreFacts LifecycleNotions.

Section Steps.
Context {S : Type}.
Variable generate_video : str -> VideoStyle -> Z -> bool -> M S (option str).
Variable schedule_post :
  Platform -> str -> str -> list str -> dict -> M S (option SocialPost).
Variable settings : Settings.

(** The row [create_campaign] stores. *)
Lemma create_campaign_fresh new_id data (w : world S) :
  campaigns w !! new_id = None ->
  exists c row,
    create_campaign new_id data w
    = (Ok c,
       {| campaigns := <[new_id := row]> (campaigns w);
          now := {| readings := readings (now w);
                    reads := Datatypes.S (Datatypes.S (reads (now w))) |};
          log := log w ++ [(INFO, u "Created campaign: " ++ new_id)];
          services := services w |})
    /\ to_campaign new_id row = Ok c
    /\ valid_row row
    /\ id c = new_id /\ status c = u "draft"
    /\ posts c = [] /\ video_urls c = []
    /\ created_at c = readings (now w) (reads (now w))
    /\ updated_at c = readings (now w) (Datatypes.S (reads (now w))).
Proof.
  intros Hfresh.
  unfold create_campaign, bind, utcnow, tick, get.
  cbn [campaigns now log services readings reads].
  rewrite Hfresh. unfold commit, modify, logger, ret.
  cbn [campaigns now log services id].
  eexists. eexists. split; [reflexivity|].
  unfold to_campaign, valid_row.
  cbn [c_campaign_type c_status c_name c_description c_video_content c_config
       c_posts c_video_urls c_analytics c_created_at c_updated_at
       campaign_type status name description video_content config
       created_at updated_at].
  rewrite CampaignType_of_value, CampaignStatus_of_value.
  split; [reflexivity|]. split; [split; eauto|]. repeat split.
Qed.

(** X8.  Creating and reading back: with an identifier the table does not
    hold yet, [create_campaign] stores one new row and returns a campaign in
    status "draft" without posts or videos; [get_campaign] on that
    identifier then gives exactly the campaign returned, and no other row
    has changed. *)
Theorem create_campaign_get_campaign
    (new_id : str) (data : CampaignCreate) (w : world S) :
  campaigns w !! new_id = None ->
  exists c w1,
    create_campaign new_id data w = (Ok c, w1)
    /\ get_campaign new_id w1 = (Ok (Some c), w1)
    /\ id c = new_id /\ status c = u "draft"
    /\ posts c = [] /\ video_urls c = []
    /\ (forall key, key <> new_id -> campaigns w1 !! key = campaigns w !! key).
Proof.
  intros Hfresh.
  destruct (create_campaign_fresh new_id data w Hfresh)
    as (c & row & Hrun & Hc & _ & Hid & Hst & Hp & Hv & _).
  exists c. eexists. split; [exact Hrun|]. split.
  - erewrite get_campaign_row by (cbn [campaigns]; apply lookup_insert_eq).
    rewrite Hc. reflexivity.
  - repeat split; try assumption.
    intros key Hne. cbn [campaigns]. apply lookup_insert_ne. congruence.
Qed.

(** A campaign that is in the table ends in one of the two final states. *)
Lemma process_campaign_final cid (w : world S) row :
  campaigns w !! cid = Some row ->
  exists w' row',
    process_campaign generate_video schedule_post settings cid w = (Ok tt, w')
    /\ campaigns w' !! cid = Some row'
    /\ (c_status row' = u "completed" \/ c_status row' = u "failed").
Proof.
  intros Hrow. unfold process_campaign, try_except.
  destruct (process_campaign_body generate_video schedule_post settings cid w)
    as [[[]|e] w1] eqn:Hb.
  - destruct (body_returned_completed _ _ _ _ _ _ _ Hrow Hb) as (row1 & H1 & H2).
    exists w1, row1. split; [reflexivity|]. split; [exact H1 | left; exact H2].
  - destruct (ManagerFacts.preserves_process_campaign_body generate_video
                schedule_post settings cid w (Raise e) w1 Hb cid)
      as [row1 Hrow1]; [eauto|].
    unfold bind at 1. unfold logger at 1. unfold modify.
    rewrite (status_written cid FAILED _ row1) by exact Hrow1.
    eexists. eexists. split; [reflexivity|]. cbn [campaigns].
    rewrite lookup_insert_eq. split; [reflexivity | right; reflexivity].
Qed.

(** X9.  [POST /campaigns] with a fresh identifier answers with the campaign
    in status "draft"; once the background task it added has run, the stored
    status is "completed" or "failed", whatever the services did. *)
Theorem create_campaign_endpoint_processed
    (new_id : str) (data : CampaignCreate) (w : world S) :
  campaigns w !! new_id = None ->
  exists c w' row',
    create_campaign_endpoint generate_video schedule_post settings new_id data w
    = (Ok c, w')
    /\ id c = new_id /\ status c = u "draft"
    /\ campaigns w' !! new_id = Some row'
    /\ (c_status row' = u "completed" \/ c_status row' = u "failed").
Proof.
  intros Hfresh.
  destruct (create_campaign_fresh new_id data w Hfresh)
    as (c & row & Hrun & _ & _ & Hid & Hst & _).
  unfold create_campaign_endpoint, try_except. unfold bind at 1.
  rewrite Hrun. cbv beta iota. rewrite Hid.
  match goal with
  | |- context [bind (process_campaign _ _ _ new_id) _ ?w1] =>
      destruct (process_campaign_final new_id w1 row) as (w' & row' & Hp & Hr & Hs);
      [cbn [campaigns]; apply lookup_insert_eq|]
  end.
  rewrite (bind_ok _ _ _ _ _ Hp). unfold ret.
  exists c, w', row'. repeat split; assumption.
Qed.

(** X10.  [POST /campaigns/{id}/stop] never reports a missing campaign: it
    answers "Campaign stopped" for every identifier.  A row under that
    identifier gets status "paused", whatever its status was; without one
    nothing changes. *)
Theorem stop_campaign_endpoint_answer (cid : str) (w : world S) :
  exists w',
    stop_campaign_endpoint cid w
    = (Ok [ (u "message", VStr (u "Campaign stopped"));
            (u "campaign_id", VStr cid) ], w')
    /\ match campaigns w !! cid with
       | Some row =>
           campaigns w'
           = <[cid := set_status (u "paused") (readings (now w) (reads (now w)))
                        row]> (campaigns w)
       | None => w' = w
       end.
Proof.
  unfold stop_campaign_endpoint, try_except, stop_campaign.
  destruct (campaigns w !! cid) as [row|] eqn:Hrow.
  - rewrite (bind_ok _ _ _ _ _ (status_written cid PAUSED w row Hrow)).
    unfold ret. eexists. split; reflexivity.
  - rewrite (bind_ok _ _ _ _ _ (status_not_written cid PAUSED w Hrow)).
    unfold ret. eexists. split; reflexivity.
Qed.

End Steps.

Lemma create_campaign_get_campaign_witness :
  exists c w1,
    create_campaign (u "c1") draft_request no_campaigns = (Ok c, w1)
    /\ get_campaign (u "c1") w1 = (Ok (Some c), w1)
    /\ status c = u "draft".
Proof.
  destruct (create_campaign_get_campaign (u "c1") draft_request no_campaigns)
    as (c & w1 & H1 & H2 & _ & H3 & _).
  - vm_compute. reflexivity.
  - exists c, w1. repeat split; assumption.
Defined.

Lemma create_campaign_endpoint_processed_witness :
  exists c w' row',
    create_campaign_endpoint some_video posts_now
      PublishNotions.app_no_credentials (u "c1") draft_request no_campaigns
    = (Ok c, w')
    /\ status c = u "draft"
    /\ campaigns w' !! u "c1" = Some row'
    /\ (c_status row' = u "completed" \/ c_status row' = u "failed").
Proof.
  destruct (create_campaign_endpoint_processed some_video posts_now
              PublishNotions.app_no_credentials (u "c1") draft_request
              no_campaigns) as (c & w' & row' & H1 & _ & H2 & H3 & H4).
  - vm_compute. reflexivity.
  - exists c, w', row'. repeat split; assumption.
Defined.

End LifecycleFacts.

(** ** Archiving and listing *)

Module ArchiveFacts.
Import App.Models App.Config App.Database PyFacts.
Import App.CampaignManager.
Import AppMore.Manager AppMore.Api AppMore.CleanupWorker.
Import ManagerNotions ManagerMoreNotions ManagerMoreFacts.
Import LifecycleNotions ArchiveNotions.

Lemma filter_length_perm {A} (f : A -> bool) (l l' : list A) :
  l ≡ₚ l' -> length (List.filter f l) = length (List.filter f l').
Proof.
  induction 1 as [|x l l' _ IH|x y l|l l' l'' _ IH1 _ IH2]; cbn.
  - reflexivity.
  - destruct (f x); cbn; congruence.
  - destruct (f x), (f y); reflexivity.
  - congruence.
Qed.

Lemma in_table_order_yields : yields_campaigns in_table_order.
Proof. intros table. reflexivity. Qed.

Lemma selected_elem rows_of (f : CampaignDB -> bool) table key row :
  yields_campaigns rows_of ->
  (key, row) ∈ List.filter (fun r => f (snd r)) (rows_of table)
  <-> table !! key = Some row /\ f row = true.
Proof.
  intros Hy.
  rewrite list_elem_of_In, List.filter_In, <- list_elem_of_In, (Hy table),
    elem_of_map_to_list.
  reflexivity.
Qed.

Lemma selected_keys_NoDup rows_of (f : str * CampaignDB -> bool) table :
  yields_campaigns rows_of -> NoDup (List.filter f (rows_of table)).*1.
Proof.
  intros Hy.
  assert (Hs : (List.filter f (rows_of table)).*1 `sublist_of` (rows_of table).*1)
    by apply fmap_sublist, filter_sublist.
  assert (Hn : NoDup (rows_of table).*1)
    by (rewrite (Hy table); apply NoDup_fst_map_to_list).
  eauto using sublist_NoDup.
Qed.

Lemma archived_not_valid t row : ~ valid_row (set_status (u "archived") t row).
Proof. intros [_ [st H]]. vm_compute in H. discriminate. Qed.

Lemma archived_not_old d t row : is_old d (set_status (u "archived") t row) = false.
Proof. reflexivity. Qed.

Section Steps.
Context {S : Type}.

(** The loop over the selected rows. *)
Lemma for_each_archive_row rows : forall (w : world S),
  NoDup rows.*1 ->
  (forall key row, (key, row) ∈ rows -> campaigns w !! key = Some row) ->
  exists w',
    for_each rows archive_row w = (Ok tt, w')
    /\ log w' = log w /\ services w' = services w
    /\ (forall key, key ∉ rows.*1 -> campaigns w' !! key = campaigns w !! key)
    /\ (forall key row, (key, row) ∈ rows ->
          exists t, campaigns w' !! key = Some (set_status (u "archived") t row)).
Proof.
  induction rows as [|[k r] rows IH]; intros w Hnd Hin.
  - exists w. cbn. unfold ret. repeat split; auto.
    intros key row H. now apply elem_of_nil in H.
  - cbn [fmap list_fmap fst] in Hnd. apply NoDup_cons in Hnd as [Hk Hnd].
    cbn [for_each]. unfold bind at 1. unfold archive_row at 1.
    unfold bind at 1. unfold utcnow, tick, commit, modify.
    cbn [campaigns now log services].
    match goal with
    | |- context [for_each rows archive_row ?w1] =>
        destruct (IH w1 Hnd) as (w' & Hrun & Hlog & Hserv & Hother & Harch)
    end.
    + intros key row Hel. cbn [campaigns].
      rewrite lookup_insert_ne.
      * apply Hin. now right.
      * intros ->. apply Hk. apply list_elem_of_fmap. now exists (key, row).
    + exists w'. split; [exact Hrun|]. split; [exact Hlog|].
      split; [exact Hserv|]. split.
      * intros key Hnot. cbn [fmap list_fmap fst] in Hnot.
        apply not_elem_of_cons in Hnot as [Hne Hnot].
        rewrite (Hother key Hnot). cbn [campaigns].
        apply lookup_insert_ne. congruence.
      * intros key row Hel. apply elem_of_cons in Hel as [Heq|Hel].
        -- injection Heq as -> ->. rewrite (Hother k Hk). cbn [campaigns].
           rewrite lookup_insert_eq. eauto.
        -- now apply Harch.
Qed.

(** What an archiving run does: the loop over the rows it selected. *)
Lemma archive_old_campaigns_run
    (rows_of : gmap str CampaignDB -> list (str * CampaignDB)) (w : world S) :
  yields_campaigns rows_of ->
  let rows := List.filter (fun r => is_old (archive_date w) (snd r))
                (rows_of (campaigns w)) in
  exists w',
    archive_old_campaigns rows_of w
    = (Ok [ (u "archived_count", VInt (Z.of_nat (length rows))) ], w')
    /\ services w' = services w
    /\ (forall key, key ∉ rows.*1 -> campaigns w' !! key = campaigns w !! key)
    /\ (forall key row, (key, row) ∈ rows ->
          exists t, campaigns w' !! key = Some (set_status (u "archived") t row)).
Proof.
  intros Hy rows. unfold archive_old_campaigns, try_except.
  unfold bind at 1. unfold logger at 1. unfold modify at 1.
  unfold bind at 1. unfold utcnow at 1. unfold tick.
  cbn [campaigns now log services readings reads].
  unfold bind at 1. unfold get at 1. cbn [campaigns].
  fold (archive_date w). fold rows.
  match goal with
  | |- context [bind (for_each rows archive_row) _ ?w1] =>
      destruct (for_each_archive_row rows w1)
        as (w' & Hrun & Hlog & Hserv & Hother & Harch)
  end.
  - apply selected_keys_NoDup, Hy.
  - intros key row Hel. cbn [campaigns].
    apply (selected_elem rows_of (is_old (archive_date w))) in Hel; [|exact Hy].
    tauto.
  - rewrite (bind_ok _ _ _ _ _ Hrun).
    unfold bind at 1. unfold logger at 1. unfold modify at 1. unfold ret.
    eexists. split; [reflexivity|]. cbn [campaigns services].
    split; [exact Hserv|]. split; [exact Hother | exact Harch].
Qed.

(** X11.  An archiving run gives status "archived" to exactly the rows
    whose status is "completed" or "failed" and whose last update is more
    than thirty days before the time the run reads; every other row is left
    as it was, no row is added or removed, and the answer counts the rows
    archived. *)
Theorem archive_old_campaigns_effect
    (rows_of : gmap str CampaignDB -> list (str * CampaignDB)) (w : world S) :
  yields_campaigns rows_of ->
  exists w',
    archive_old_campaigns rows_of w
    = (Ok [ (u "archived_count", VInt (Z.of_nat (length (old_rows w)))) ], w')
    /\ services w' = services w
    /\ forall key,
         match campaigns w !! key with
         | Some row =>
             if is_old (archive_date w) row
             then exists t,
                 campaigns w' !! key = Some (set_status (u "archived") t row)
             else campaigns w' !! key = Some row
         | None => campaigns w' !! key = None
         end.
Proof.
  intros Hy.
  destruct (archive_old_campaigns_run rows_of w Hy)
    as (w' & Hrun & Hserv & Hother & Harch).
  assert (Hlen : length (List.filter (fun r => is_old (archive_date w) (snd r))
                           (rows_of (campaigns w)))
                 = length (old_rows w))
    by (apply filter_length_perm, Hy).
  assert (Hsel : forall key row,
             campaigns w !! key = Some row ->
             is_old (archive_date w) row = false ->
             campaigns w' !! key = Some row).
  { intros key row Hrow Hold. rewrite Hother; [exact Hrow|].
    intros Hin. apply list_elem_of_fmap in Hin as [[k r] [-> Hin]].
    apply (selected_elem rows_of (is_old (archive_date w))) in Hin
      as [Hr Ho]; [|exact Hy].
    cbn [fst] in Hrow. congruence. }
  exists w'. rewrite <- Hlen. split; [exact Hrun|]. split; [exact Hserv|].
  intros key. destruct (campaigns w !! key) as [row|] eqn:Hrow.
  - destruct (is_old (archive_date w) row) eqn:Hold.
    + apply (Harch key row).
      apply (selected_elem rows_of (is_old (archive_date w))); auto.
    + now apply Hsel.
  - rewrite Hother; [exact Hrow|].
    intros Hin. apply list_elem_of_fmap in Hin as [[k r] [-> Hin]].
    apply (selected_elem rows_of (is_old (archive_date w))) in Hin
      as [Hr Ho]; [|exact Hy].
    cbn [fst] in Hrow. congruence.
Qed.

(** X12.  A campaign that an archiving run has archived can no longer be
    read: its status "archived" is not a value of [CampaignStatus], so
    [get_campaign] raises the validation error and [GET /campaigns/{id}]
    answers 500.  No later archiving run selects the row again. *)
Theorem archived_campaign_unreadable
    (rows_of : gmap str CampaignDB -> list (str * CampaignDB)) (w : world S)
    (key : str) (row : CampaignDB) :
  yields_campaigns rows_of ->
  campaigns w !! key = Some row ->
  is_old (archive_date w) row = true ->
  let w' := snd (archive_old_campaigns rows_of w) in
  get_campaign key w'
  = (Raise (ValueError (u "validation error for Campaign")), w')
  /\ (exists w2,
        get_campaign_endpoint key w'
        = (Raise (HTTPException 500 (u "validation error for Campaign")), w2))
  /\ (exists row', campaigns w' !! key = Some row'
                   /\ forall d, is_old d row' = false).
Proof.
  intros Hy Hrow Hold w'.
  destruct (archive_old_campaigns_run rows_of w Hy)
    as (w1 & Hrun & _ & _ & Harch).
  assert (Hw : w' = w1) by (unfold w'; now rewrite Hrun).
  clearbody w'. subst w1.
  destruct (Harch key row) as [t Hk].
  { apply (selected_elem rows_of (is_old (archive_date w))); auto. }
  assert (Hget : get_campaign key w'
                 = (Raise (ValueError (u "validation error for Campaign")), w')).
  { rewrite (get_campaign_row _ _ _ Hk).
    now rewrite (to_campaign_invalid key _ (archived_not_valid t row)). }
  split; [exact Hget|]. split.
  - unfold get_campaign_endpoint, http_errors, try_except.
    unfold bind at 1. rewrite Hget. cbv beta iota.
    unfold bind, logger, modify, raise. cbn [str_of_exn]. eauto.
  - eexists. split; [exact Hk|]. intros d. apply archived_not_old.
Qed.

End Steps.

Lemma archive_old_campaigns_effect_witness :
  exists w',
    archive_old_campaigns in_table_order forty_days_later
    = (Ok [ (u "archived_count", VInt 2) ], w')
    /\ (exists t, campaigns w' !! u "c1"
                  = Some (set_status (u "archived") t draft_row))
    /\ campaigns w' !! u "c3"
       = Some (set_status (u "running") 1000%Z draft_row).
Proof.
  destruct (archive_old_campaigns_effect in_table_order forty_days_later
              in_table_order_yields) as (w' & Hrun & _ & Hk).
  exists w'. split; [exact Hrun|]. split.
  - pose proof (Hk (u "c1")) as H1. vm_compute in H1. vm_compute. exact H1.
  - pose proof (Hk (u "c3")) as H3. vm_compute in H3. vm_compute. exact H3.
Defined.

Lemma archived_campaign_unreadable_witness :
  exists w',
    get_campaign (u "c2") (snd (archive_old_campaigns in_table_order
                                  forty_days_later))
    = (Raise (ValueError (u "validation error for Campaign")), w').
Proof.
  eexists.
  refine (proj1 (archived_campaign_unreadable in_table_order forty_days_later
                   (u "c2") (set_status (u "failed") 1000%Z draft_row)
                   in_table_order_yields _ _)).
  - vm_compute. reflexivity.
  - vm_compute. reflexivity.
Defined.

End ArchiveFacts.

(** ** Listing *)

Module ListingFacts.
Import App.Models App.Config App.Database PyFacts.
Import App.CampaignManager.
Import AppMore.Manager.
Import ManagerNotions ManagerMoreNotions ManagerMoreFacts.
Import LifecycleNotions ArchiveNotions.

Lemma to_campaign_raises key row e :
  to_campaign key row = Raise e ->
  e = ValueError (u "validation error for Campaign").
Proof.
  unfold to_campaign.
  destruct (CampaignType_of (c_campaign_type row));
    destruct (CampaignStatus_of (c_status row)); congruence.
Qed.



Lemma to_campaigns_invalid rows key row :
  (key, row) ∈ rows -> ~ valid_row row ->
  to_campaigns rows = Raise (ValueError (u "validation error for Campaign")).
Proof.
  intros Hel Hbad. induction rows as [|[k r] rows IH].
  - now apply elem_of_nil in Hel.
  - cbn [to_campaigns]. destruct (to_campaign k r) as [c|e] eqn:Hc.
    + apply elem_of_cons in Hel as [Heq|Hel].
      * injection Heq as <- <-.
        rewrite (to_campaign_invalid key row Hbad) in Hc. discriminate.
      * now rewrite (IH Hel).
    + now rewrite (to_campaign_raises _ _ _ Hc).
Qed.




Lemma rows_length
    (rows_of : gmap str CampaignDB -> list (str * CampaignDB)) table :
  yields_campaigns rows_of -> length (rows_of table) = size table.
Proof. intros Hy. rewrite (Hy table). apply length_map_to_list. Qed.

Section Steps.
Context {S : Type}.



(** X14.  One row that cannot be read as a [Campaign] makes the listing of
    the whole table fail: [list_campaigns] without filter and offset and
    with a limit of at least the size of the table raises the validation
    error, and returns no campaign at all. *)
Theorem list_campaigns_invalid_row
    (rows_of : gmap str CampaignDB -> list (str * CampaignDB))
    (limit : nat) (w : world S) (key : str) (row : CampaignDB) :
  yields_campaigns rows_of ->
  campaigns w !! key = Some row ->
  ~ valid_row row ->
  (size (campaigns w) <= limit)%nat ->
  list_campaigns rows_of 0 limit None w
  = (Raise (ValueError (u "validation error for Campaign")), w).
Proof.
  intros Hy Hrow Hbad Hsize.
  unfold list_campaigns, bind, get, lift.
  rewrite drop_0, take_ge by (now rewrite (rows_length rows_of _ Hy)).
  rewrite (to_campaigns_invalid _ key row); [reflexivity| |exact Hbad].
  rewrite (Hy (campaigns w)). now apply elem_of_map_to_list.
Qed.

End Steps.


Lemma list_campaigns_invalid_row_witness :
  list_campaigns in_table_order 0 100 None archived_world
  = (Raise (ValueError (u "validation error for Campaign")), archived_world).
Proof.
  apply (list_campaigns_invalid_row in_table_order 100 archived_world
           (u "c1") archived_row ArchiveFacts.in_table_order_yields).
  - vm_compute. reflexivity.
  - exact (ArchiveFacts.archived_not_valid 950%Z draft_row).
  - vm_compute. lia.
Defined.

End ListingFacts.

(** ** The social poster service *)

Module PosterFacts.
Import App.Models App.Config App.SocialPoster PyFacts.
Import PosterNotions.

Lemma randint_range (a b : N) (g : rng) :
  a <= b -> a <= fst (randint a b g) <= b.
Proof.
  intros Hab. unfold randint, next. cbn [fst].
  pose proof (N.mod_lt (draw g (pos g)) (b - a + 1)) as Hlt.
  specialize (Hlt ltac:(lia)).
  set (r := draw g (pos g) mod (b - a + 1)) in *. clearbody r. lia.
Qed.

Lemma _calculate_scheduled_time_window (schedule : dict) (w : world) :
  exists t w1,
    _calculate_scheduled_time schedule w = (Ok t, w1)
    /\ (reading w + 3600 <= t <= reading w + 21600)%Z
    /\ client_calls w1 = client_calls w.
Proof.
  unfold _calculate_scheduled_time, bind, utcnow, tick, with_rand, ret.
  cbn [rand now client_calls log].
  pose proof (randint_range 1 6 (rand w) ltac:(lia)) as Hr.
  destruct (randint 1 6 (rand w)) as [h g]. cbn [fst] in Hr.
  eexists. eexists. split; [reflexivity|]. split; [|reflexivity].
  unfold reading, timedelta_hours. lia.
Qed.

(** X15.  [schedule_post] never answers [None]: for every platform and
    every service it returns a post that is already marked as posted, whose
    caption is the given one followed by the hashtags, and whose scheduled
    time lies between one and six hours after the time read.  The platform's
    API client is called once when the service holds one, and not at all
    otherwise. *)
Theorem schedule_post_posted
    (self : SocialPosterService) (p : Platform) (video_url caption : str)
    (tags : list str) (schedule : dict) (w : world) :
  exists post w',
    schedule_post self p video_url caption tags schedule w = (Ok (Some post), w')
    /\ posted post = true
    /\ platform post = p
    /\ hashtags post = tags
    /\ App.Models.caption post = caption ++ [0x0A; 0x0A] ++ join (u " ") tags
    /\ (exists t, scheduled_time post = Some t
                  /\ (reading w + 3600 <= t <= reading w + 21600)%Z)
    /\ client_calls w'
       = client_calls w
         ++ (if has_client self p
             then [(p, video_url, caption ++ [0x0A; 0x0A] ++ join (u " ") tags)]
             else []).
Proof.
  destruct (_calculate_scheduled_time_window schedule w)
    as (t & w1 & Ht & Hwin & Hcalls).
  unfold schedule_post, try_except. rewrite (bind_ok _ _ _ _ _ Ht).
  unfold has_client.
  destruct p, (tiktok_client self), (instagram_client self),
    (youtube_client self);
    unfold post_video, post_reel, post_short, client_post, called, try_except,
      bind, with_rand, randint, next, logger, modify, ret;
    cbn [rand now client_calls log App.Models.caption];
    (eexists; eexists; split; [reflexivity|]);
    cbn [posted platform hashtags App.Models.caption scheduled_time mark_posted
         client_calls];
    rewrite ?Hcalls, ?app_nil_r; eauto 10.
Qed.

(** X16.  [engage_with_content] always answers with a dictionary, and its
    "success" entry is true exactly when the engagement type is "reply",
    "like" or "share" and the platform is a member of [Platform]: given the
    platform as a plain string, every known action fails on
    [platform.value], and the failure is reported, not raised. *)
Theorem engage_with_content_outcome
    (self : SocialPosterService) (campaign : str) (p : platform_arg)
    (post ty : str) (w : world) :
  exists r w',
    engage_with_content self campaign p post ty w = (Ok r, w')
    /\ dict_get r (u "success")
       = VBool (known_engagement ty && is_member p)
    /\ (known_engagement ty = true -> is_member p = false ->
        dict_get r (u "error")
        = VStr (u "'str' object has no attribute 'value'")).
Proof.
  unfold engage_with_content, try_except, known_engagement.
  destruct (choice_elem replies (rand w)) as (x & Hx & _); [discriminate|].
  destruct (bool_decide (ty = u "reply")).
  { unfold _auto_reply, bind, with_rand, lift, randint, next, ret. rewrite Hx.
    destruct p; cbn [value_of is_member orb andb];
      unfold bind, logger, modify, ret; cbn [str_of_exn];
      (eexists; eexists; split; [reflexivity|]); split; auto; discriminate. }
  destruct (bool_decide (ty = u "like")).
  { unfold _auto_like, bind, lift, ret.
    destruct p; cbn [value_of is_member orb andb];
      unfold bind, logger, modify, ret; cbn [str_of_exn];
      (eexists; eexists; split; [reflexivity|]); split; auto; discriminate. }
  destruct (bool_decide (ty = u "share")).
  { unfold _auto_share, bind, lift, ret.
    destruct p; cbn [value_of is_member orb andb];
      unfold bind, logger, modify, ret; cbn [str_of_exn];
      (eexists; eexists; split; [reflexivity|]); split; auto; discriminate. }
  unfold bind, logger, modify, ret. cbn [orb andb].
  eexists. eexists. split; [reflexivity|]. split; [reflexivity | discriminate].
Qed.

End PosterFacts.

(** ** The template catalog: the first match *)

Module CatalogFacts.
Import Src.Models Src.Templates.
Import TemplatesNotions ComposerNotions.

Lemma first_with_key_first k ts :
  k ∈ map key ts ->
  exists t before after,
    first_with_key k ts = Ok t /\ key t = k
    /\ ts = before ++ t :: after /\ k ∉ map key before.
Proof.
  induction ts as [|t ts IH]; intros Hk; simpl in *.
  - inversion Hk.
  - destruct (decide (key t = k)) as [Heq|Hne].
    + exists t, [], ts. rewrite bool_decide_eq_true_2 by assumption.
      repeat split; [assumption|]. simpl. apply not_elem_of_nil.
    + rewrite bool_decide_eq_false_2 by assumption.
      apply elem_of_cons in Hk as [Hk|Hk]; [congruence|].
      destruct (IH Hk) as (t' & before & after & H1 & H2 & H3 & H4).
      exists t', (t :: before), after. repeat split; [assumption.. | |].
      * simpl. now rewrite H3.
      * simpl. intros Hin. apply elem_of_cons in Hin as [Hin|Hin];
          [congruence | contradiction].
Qed.

(** X17.  Whatever set of templates is in effect, looking up a key that
    occurs in it succeeds, both in the loader and in the HTTP handler, and
    gives the first template of the set that carries the key: a later
    template with the same key is never returned. *)
Theorem get_template_by_key_first (f : config_file) (k : str) :
  k ∈ map key (load_templates f) ->
  exists t before after,
    get_template_by_key f k = Ok t
    /\ Src.Main.get_template f k = Ok t
    /\ key t = k
    /\ load_templates f = before ++ t :: after
    /\ k ∉ map key before.
Proof.
  intros Hk.
  destruct (first_with_key_first k _ Hk) as (t & before & after & H1 & H2 & H3 & H4).
  exists t, before, after. unfold Src.Main.get_template, get_template_by_key.
  rewrite H1. repeat split; assumption.
Qed.

Lemma get_template_by_key_first_witness :
  get_template_by_key twice_tech (u "tech")
  = Ok MockScriptNotions.tech_without_keywords.
Proof.
  destruct (get_template_by_key_first twice_tech (u "tech"))
    as (t & before & after & H1 & _).
  - apply (bool_decide_unpack _). vm_compute. exact I.
  - rewrite H1. vm_compute in H1. injection H1 as <-. reflexivity.
Defined.

End CatalogFacts.

(** ** The script composer: what the parser and the fallback keep *)

Module ComposerFacts.
Import Src.Models Src.ContentGenerator PyFacts.
Import MockScriptNotions ParseNotions ComposerNotions.
Import MockScriptFacts ParseFacts.

Lemma grows_refl st : grows st st.
Proof. split; reflexivity. Qed.

Lemma grows_trans a b c : grows a b -> grows b c -> grows a c.
Proof. intros [? ?] [? ?]. split; etransitivity; eassumption. Qed.

Ltac grows_field :=
  unfold grows; cbn; repeat split;
  first [reflexivity | apply prefix_app_r; reflexivity | lia
        | rewrite length_app; cbn; lia].

(** One turn of the loop appends at most one bullet. *)
Lemma parse_line_grows lower st raw :
  exists st', parse_line lower st raw = Ok st' /\ grows st st'
              /\ (length (bullets (script st'))
                  <= S (length (bullets (script st))))%nat.
Proof.
  unfold parse_line. set (line := strip raw).
  destruct (negb (truthy line)).
  { eexists; split; [reflexivity | grows_field]. }
  destruct (contains (u "フック") line || contains (u "hook") (lower line)).
  { destruct (contains (u ":") line) eqn:Hc.
    - destruct (after_first_ok 0x3A line Hc) as [v ->].
      eexists; split; [reflexivity | grows_field].
    - eexists; split; [reflexivity | grows_field]. }
  destruct (contains (u "メインコンテンツ") line || contains (u "ポイント") line).
  { eexists; split; [reflexivity | grows_field]. }
  destruct (contains (u "ツイスト") line || contains (u "twist") (lower line)).
  { destruct (contains (u ":") line) eqn:Hc.
    - destruct (after_first_ok 0x3A line Hc) as [v ->].
      eexists; split; [reflexivity | grows_field].
    - eexists; split; [reflexivity | grows_field]. }
  destruct (contains (u "CTA") line || contains (u "行動喚起") line).
  { destruct (contains (u ":") line) eqn:Hc.
    - destruct (after_first_ok 0x3A line Hc) as [v ->].
      eexists; split; [reflexivity | grows_field].
    - eexists; split; [reflexivity | grows_field]. }
  destruct (contains (u "ハッシュタグ") line || contains (u "#") line).
  { eexists; split; [reflexivity | grows_field]. }
  destruct (is_section sec_bullets st && bullet_marker line).
  { destruct (contains (u ".") line) eqn:Hc.
    - destruct (after_first_ok 0x2E line Hc) as [v ->].
      eexists; split; [reflexivity | grows_field].
    - eexists; split; [reflexivity | grows_field]. }
  destruct (is_section sec_hook st && negb (truthy (hook (script st)))).
  { eexists; split; [reflexivity | grows_field]. }
  destruct (is_section sec_twist st && negb (truthy (twist (script st)))).
  { eexists; split; [reflexivity | grows_field]. }
  destruct (is_section sec_cta st && negb (truthy (cta (script st)))).
  { eexists; split; [reflexivity | grows_field]. }
  eexists; split; [reflexivity | grows_field].
Qed.

Lemma parse_lines_grows lower lines : forall st,
  exists st', parse_lines lower st lines = Ok st' /\ grows st st'
              /\ (length (bullets (script st'))
                  <= length (bullets (script st)) + length lines)%nat.
Proof.
  induction lines as [|line rest IH]; intros st; simpl.
  - exists st. split; [reflexivity|]. split; [apply grows_refl | lia].
  - destruct (parse_line_grows lower st line) as (st1 & -> & H1 & L1).
    destruct (IH st1) as (st2 & H2 & H3 & L2).
    exists st2. split; [exact H2|]. split; [eauto using grows_trans | lia].
Qed.

Lemma parse_script_styled lower response template :
  exists s, _parse_script_response lower response template = Ok s
            /\ style s = style_primary template
            /\ estimated_duration s = 25.
Proof.
  unfold _parse_script_response.
  destruct (parse_lines_ok lower (split 0x0A (strip response))
              {| script := empty_script template; current_section := None |})
    as (st & -> & Hs & Hd & _).
  exists (script st). cbn in Hs, Hd. auto.
Qed.

Lemma parse_script_total lower response template :
  exists s, _parse_script_response lower response template = Ok s.
Proof.
  destruct (parse_script_styled lower response template) as (s & Hs & _).
  eauto.
Qed.

(** X18.  The parsing loop only ever appends: from any state and over any
    lines it ends with the bullets and the hashtags it started from as
    prefixes of the final ones, and it adds at most one bullet per line.  So
    a parsed answer never has more bullets than lines. *)
Theorem parse_lines_append_only
    (lower : str -> str) (lines : list str) (st : parse_state) :
  (exists st', parse_lines lower st lines = Ok st' /\ grows st st'
               /\ (length (bullets (script st'))
                   <= length (bullets (script st)) + length lines)%nat)
  /\ forall response template,
       exists s, _parse_script_response lower response template = Ok s
                 /\ (length (bullets s)
                     <= length (split 0x0A (strip response)))%nat.
Proof.
  split; [apply parse_lines_grows|].
  intros response template. unfold _parse_script_response.
  destruct (parse_lines_grows lower (split 0x0A (strip response))
              {| script := empty_script template; current_section := None |})
    as (st' & -> & _ & L).
  exists (script st'). split; [reflexivity | exact L].
Qed.

(** X19.  A line in which one of the section or hashtag keywords occurs is
    never stored as a bullet, in whatever section it is met: the bullets
    are as before the line.  A numbered line that repeats the word of the
    requested format ("1. [ポイント1]") is such a line. *)
Theorem parse_line_keyword_no_bullet
    (lower : str -> str) (st : parse_state) (raw : str) :
  has_keyword lower (strip raw) = true ->
  exists st', parse_line lower st raw = Ok st'
              /\ bullets (script st') = bullets (script st).
Proof.
  unfold has_keyword, parse_line. set (line := strip raw). intros Hk.
  destruct (negb (truthy line)); [eauto|].
  destruct (contains (u "フック") line || contains (u "hook") (lower line)) eqn:E1.
  { destruct (contains (u ":") line) eqn:Hc.
    - destruct (after_first_ok 0x3A line Hc) as [v ->]. eauto.
    - eauto. }
  destruct (contains (u "メインコンテンツ") line || contains (u "ポイント") line) eqn:E2.
  { eauto. }
  destruct (contains (u "ツイスト") line || contains (u "twist") (lower line)) eqn:E3.
  { destruct (contains (u ":") line) eqn:Hc.
    - destruct (after_first_ok 0x3A line Hc) as [v ->]. eauto.
    - eauto. }
  destruct (contains (u "CTA") line || contains (u "行動喚起") line) eqn:E4.
  { destruct (contains (u ":") line) eqn:Hc.
    - destruct (after_first_ok 0x3A line Hc) as [v ->]. eauto.
    - eauto. }
  destruct (contains (u "ハッシュタグ") line || contains (u "#") line) eqn:E5.
  { eauto. }
  exfalso.
  apply orb_false_elim in E1 as [A1 B1]. apply orb_false_elim in E2 as [A2 B2].
  apply orb_false_elim in E3 as [A3 B3]. apply orb_false_elim in E4 as [A4 B4].
  apply orb_false_elim in E5 as [A5 B5].
  rewrite ?A1, ?B1, ?A2, ?B2, ?A3, ?B3, ?A4, ?B4, ?A5, ?B5 in Hk.
  discriminate.
Qed.

Lemma parse_line_keyword_no_bullet_witness :
  exists st',
    parse_line ascii_lower (reading_bullets tech) (u "1. [ポイント1]") = Ok st'
    /\ bullets (script st') = [].
Proof.
  apply (parse_line_keyword_no_bullet ascii_lower (reading_bullets tech)
           (u "1. [ポイント1]")).
  vm_compute. reflexivity.
Defined.

(** The fallback script in detail. *)
Lemma _generate_mock_script_shape template content_type w keyword0 rest :
  keywords template = keyword0 :: rest ->
  exists s w', _generate_mock_script template content_type w = (Ok s, w')
               /\ bullets s ≡ₚ mock_bullets keyword0
               /\ 20 <= estimated_duration s <= 35
               /\ style s = style_primary template
               /\ stdout w' = stdout w.
Proof.
  intros Ek. unfold _generate_mock_script. rewrite Ek.
  unfold bind at 1. unfold lift, index. cbn [lookup list_lookup].
  match goal with
  | |- context [random_choice ?l] =>
      destruct (random_choice_elem l w) as (h & w1 & Hh & Hhin & Ho1);
      [discriminate|]
  end.
  rewrite (bind_ok _ _ _ _ _ Hh).
  match goal with
  | |- context [random_sample ?l 3] =>
      destruct (random_sample_all l w1) as (b & w2 & Hb & Hbp & Ho2)
  end.
  cbn [length] in Hb. rewrite (bind_ok _ _ _ _ _ Hb).
  match goal with
  | |- context [random_choice ?l] =>
      destruct (random_choice_elem l w2) as (t & w3 & Ht & Htin & Ho3);
      [discriminate|]
  end.
  rewrite (bind_ok _ _ _ _ _ Ht).
  match goal with
  | |- context [random_choice ?l] =>
      destruct (random_choice_elem l w3) as (c & w4 & Hc & Hcin & Ho4);
      [discriminate|]
  end.
  rewrite (bind_ok _ _ _ _ _ Hc).
  unfold bind, random_randint, with_rand, ret.
  pose proof (PosterFacts.randint_range 20 35 (rand w4) ltac:(lia)) as Hd.
  destruct (randint 20 35 (rand w4)) as [d g5]. cbn [fst] in Hd.
  eexists. eexists. split; [reflexivity|].
  cbn [bullets estimated_duration style stdout].
  split; [exact Hbp|]. split; [exact Hd|]. split; [reflexivity | congruence].
Qed.

(** X20.  The fallback script of a template with a first keyword: its
    bullets are the three fixed bullets in some order, the first of them
    naming that keyword, its estimated duration lies between 20 and 35
    seconds, and nothing is printed. *)
Theorem generate_mock_script_bullets
    (template : CampaignTemplate) (content_type : ContentType) (w : world)
    (keyword0 : str) (rest : list str) :
  keywords template = keyword0 :: rest ->
  exists s w', _generate_mock_script template content_type w = (Ok s, w')
               /\ bullets s ≡ₚ mock_bullets keyword0
               /\ 20 <= estimated_duration s <= 35
               /\ stdout w' = stdout w.
Proof.
  intros Ek.
  destruct (_generate_mock_script_shape template content_type w keyword0 rest Ek)
    as (s & w' & H1 & H2 & H3 & _ & H4).
  eauto 10.
Qed.

Lemma generate_mock_script_bullets_witness :
  exists s w', _generate_mock_script tech AI_PRODUCT_REACTION quiet = (Ok s, w')
               /\ bullets s ≡ₚ mock_bullets (u "発表").
Proof.
  destruct (generate_mock_script_bullets tech AI_PRODUCT_REACTION quiet
              (u "発表") [u "発売"; u "比較"; u "性能"; u "レビュー"; u "新製品"])
    as (s & w' & H1 & H2 & _).
  - reflexivity.
  - eauto.
Defined.

(** X21.  When the backend answers, [generate_script] returns what the
    parser makes of the answer and nothing else happens: no fallback, no
    random draw, nothing printed.  An answer without any recognizable line
    therefore gives a script whose fields are all empty, and a template
    without keywords is no obstacle. *)
Theorem generate_script_backend_answer
    (generate_content : str -> result str) (lower : str -> str)
    (template : CampaignTemplate) (content_type : ContentType)
    (topic : option str) (w : world) (text : str) :
  generate_content (_build_prompt template content_type topic) = Ok text ->
  exists s,
    generate_script {| model := Some generate_content |} lower template
      content_type topic w = (Ok s, w)
    /\ _parse_script_response lower text template = Ok s
    /\ (strip text = [] -> s = empty_script template).
Proof.
  intros Hg. unfold generate_script, try_except. cbn [model].
  unfold bind, lift. rewrite Hg.
  destruct (parse_script_total lower text template) as [s Hs].
  rewrite Hs. exists s. split; [reflexivity|]. split; [reflexivity|].
  intros He. unfold _parse_script_response in Hs. rewrite He in Hs.
  cbn in Hs. congruence.
Qed.

Lemma generate_script_backend_answer_witness :
  generate_script (answering (u "すみません、わかりません。")) ascii_lower
    tech_without_keywords AI_PRODUCT_REACTION None quiet
  = (Ok (empty_script tech_without_keywords), quiet).
Proof.
  destruct (generate_script_backend_answer
              (fun _ => Ok (u "すみません、わかりません。")) ascii_lower
              tech_without_keywords AI_PRODUCT_REACTION None quiet
              (u "すみません、わかりません。") eq_refl) as (s & Hrun & Hp & _).
  unfold answering. rewrite Hrun. vm_compute in Hp. injection Hp as <-.
  reflexivity.
Defined.

(** X22.  For a template with at least one keyword [generate_script]
    returns a script whatever the backend does (absent, failing or
    answering); its style is the template's primary style and its estimated
    duration lies between 20 and 35 seconds. *)
Theorem generate_script_returns
    (self : GeminiContentGenerator) (lower : str -> str)
    (template : CampaignTemplate) (content_type : ContentType)
    (topic : option str) (w : world) :
  keywords template <> [] ->
  exists s w',
    generate_script self lower template content_type topic w = (Ok s, w')
    /\ style s = style_primary template
    /\ 20 <= estimated_duration s <= 35.
Proof.
  intros Hk. destruct (keywords template) as [|keyword0 rest] eqn:Ek;
    [congruence|].
  unfold generate_script.
  destruct (model self) as [generate_content|].
  - unfold try_except, bind at 1, lift at 1.
    destruct (generate_content (_build_prompt template content_type topic))
      as [text|e].
    + unfold lift.
      destruct (parse_script_styled lower text template) as (s & Hs & H1 & H2).
      rewrite Hs. exists s, w. split; [reflexivity|]. split; [exact H1|].
      rewrite H2. lia.
    + unfold bind at 1, print, modify.
      match goal with
      | |- context [_generate_mock_script _ _ ?w0] =>
          destruct (_generate_mock_script_shape template content_type w0
                      keyword0 rest Ek) as (s & w' & Hs & _ & Hd & Hst & _)
      end.
      rewrite Hs. eauto.
  - destruct (_generate_mock_script_shape template content_type w
                keyword0 rest Ek) as (s & w' & Hs & _ & Hd & Hst & _).
    eauto.
Qed.

Lemma generate_script_returns_witness :
  exists s w',
    generate_script (answering (u "フック: すごい！")) ascii_lower tech
      DAY_IN_LIFE None quiet = (Ok s, w')
    /\ style s = u "tech".
Proof.
  destruct (generate_script_returns (answering (u "フック: すごい！"))
              ascii_lower tech DAY_IN_LIFE None quiet)
    as (s & w' & H1 & H2 & _).
  - discriminate.
  - eauto.
Defined.

End ComposerFacts.

(** ** The content task *)

Module ContentTaskFacts.
Import Src.Models Src.Templates Src.Main PyFacts.
Import SrcMore.CampaignTasks.
Import ManagerMoreNotions ContentTaskNotions.

Section Steps.
Context {S : Type}.
Variable new_content_generator : M S unit.
Variable new_video_generator : M S unit.
Variable new_storage : M S unit.
Variable upload_file : str -> str -> M S (option str).
Variable cleanup : M S unit.
Variable templates_file : config_file.

Ltac handler_runs earlier :=
  unfold bind, update_state, modify, raise;
  cbn [updates now outside str_of_exn];
  eexists; eexists; split; [reflexivity|];
  cbn [updates]; rewrite <- ?app_assoc; exists earlier; split;
  [unfold failure_update, progress_update; cbn [app str_of_exn]; reflexivity
  | repeat constructor].

(** X23.  The content task never returns a result: for every request,
    every templates file and whatever the services it builds do, it ends by
    raising, after recording a "FAILURE" state that carries the text of the
    exception; every state recorded before is a "PROGRESS" report, so
    "SUCCESS" is never recorded. *)
Theorem generate_campaign_content_raises
    (campaign_config : task_config) (w : world S) :
  exists e w',
    generate_campaign_content new_content_generator new_video_generator
      new_storage upload_file cleanup templates_file campaign_config w
    = (Raise e, w')
    /\ exists earlier,
         updates w' = updates w ++ earlier ++ [failure_update (str_of_exn e)]
         /\ Forall (fun s => state s = u "PROGRESS") earlier.
Proof.
  unfold generate_campaign_content, try_except.
  unfold bind at 1. unfold update_state at 1. unfold modify at 1.
  unfold bind at 1. unfold lift at 1.
  destruct (get_template_by_key templates_file (tc_template_key campaign_config))
    as [template|e]; [|handler_runs [progress_update (u "Starting content generation") 10]].
  unfold bind at 1. unfold external at 1. cbn [updates now outside].
  destruct (new_content_generator (outside w)) as [[[]|e] o1]; [|handler_runs [progress_update (u "Starting content generation") 10]].
  unfold bind at 1. unfold external at 1. cbn [updates now outside].
  destruct (new_video_generator o1) as [[[]|e] o2]; [|handler_runs [progress_update (u "Starting content generation") 10]].
  unfold bind at 1. unfold external at 1. cbn [updates now outside].
  destruct (new_storage o2) as [[[]|e] o3]; [|handler_runs [progress_update (u "Starting content generation") 10]].
  unfold bind at 1. unfold update_state at 1. unfold modify at 1.
  unfold bind at 1. unfold lift at 1.
  destruct (ContentType_of (tc_content_type campaign_config))
    as [content_type|e];
    [|handler_runs [progress_update (u "Starting content generation") 10;
                    progress_update (u "Generating script") 30]].
  unfold bind at 1. unfold update_state at 1. unfold modify at 1.
  unfold bind at 1. unfold update_state at 1. unfold modify at 1.
  unfold bind at 1. unfold upload_if_present at 1.
  unfold bind at 1. unfold lift at 1. cbn [object_get].
  handler_runs [progress_update (u "Starting content generation") 10;
                progress_update (u "Generating script") 30;
                progress_update (u "Generating video") 60;
                progress_update (u "Uploading assets") 80].
Qed.

(** X24.  With a known template, a valid content type and service
    constructors that return, the task fails on the coroutine that
    [generate_video] gave back without [await]: it raises the
    [AttributeError] of [video_result.get] after the four progress reports
    10, 30, 60 and 80, and neither the clock is read nor anything uploaded
    or cleaned up. *)
Theorem generate_campaign_content_coroutine
    (campaign_config : task_config) (w : world S)
    (template : CampaignTemplate) (content_type : ContentType) :
  get_template_by_key templates_file (tc_template_key campaign_config)
  = Ok template ->
  ContentType_of (tc_content_type campaign_config) = Ok content_type ->
  answers new_content_generator ->
  answers new_video_generator ->
  answers new_storage ->
  exists o1 o2 o3,
    new_content_generator (outside w) = (Ok tt, o1)
    /\ new_video_generator o1 = (Ok tt, o2)
    /\ new_storage o2 = (Ok tt, o3)
    /\ generate_campaign_content new_content_generator new_video_generator
         new_storage upload_file cleanup templates_file campaign_config w
       = (Raise coroutine_error,
          {| updates :=
               updates w
               ++ [ progress_update (u "Starting content generation") 10;
                    progress_update (u "Generating script") 30;
                    progress_update (u "Generating video") 60;
                    progress_update (u "Uploading assets") 80;
                    failure_update (str_of_exn coroutine_error) ];
             now := now w;
             outside := o3 |}).
Proof.
  intros Ht Hc H1 H2 H3.
  destruct (H1 (outside w)) as ([] & o1 & E1).
  destruct (H2 o1) as ([] & o2 & E2).
  destruct (H3 o2) as ([] & o3 & E3).
  exists o1, o2, o3. split; [exact E1|]. split; [exact E2|]. split; [exact E3|].
  unfold generate_campaign_content, try_except.
  unfold bind at 1. unfold update_state at 1. unfold modify at 1.
  unfold bind at 1. unfold lift at 1. rewrite Ht.
  unfold bind at 1. unfold external at 1. cbn [updates now outside]. rewrite E1.
  unfold bind at 1. unfold external at 1. cbn [updates now outside]. rewrite E2.
  unfold bind at 1. unfold external at 1. cbn [updates now outside]. rewrite E3.
  unfold bind at 1. unfold update_state at 1. unfold modify at 1.
  unfold bind at 1. unfold lift at 1. rewrite Hc.
  unfold bind at 1. unfold update_state at 1. unfold modify at 1.
  unfold bind at 1. unfold update_state at 1. unfold modify at 1.
  unfold bind at 1. unfold upload_if_present at 1.
  unfold bind at 1. unfold lift at 1. cbn [object_get].
  unfold bind, update_state, modify, raise. cbn [updates now outside].
  rewrite <- !app_assoc. unfold failure_update, progress_update, coroutine_error.
  cbn [app str_of_exn]. reflexivity.
Qed.

End Steps.

Lemma generate_campaign_content_coroutine_witness :
  fst (generate_campaign_content idle idle idle no_upload idle FileNotFoundError
         tech_task fresh_task)
  = Raise coroutine_error.
Proof.
  destruct (generate_campaign_content_coroutine idle idle idle no_upload idle
              FileNotFoundError tech_task fresh_task
              MockScriptNotions.tech DAY_IN_LIFE)
    as (o1 & o2 & o3 & _ & _ & _ & Hrun).
  - vm_compute. reflexivity.
  - vm_compute. reflexivity.
  - intros s. exists tt, s. reflexivity.
  - intros s. exists tt, s. reflexivity.
  - intros s. exists tt, s. reflexivity.
  - rewrite Hrun. reflexivity.
Defined.

End ContentTaskFacts.

(** ** The HTTP handlers of the launcher *)

Module ApiFacts.
Import Src.Models Src.Templates Src.Main PyFacts.
Import SrcMore.Api.
Import TemplatesNotions ApiNotions.

Lemma count_disjoint {A} (f g : A -> bool) (l : list A) :
  (forall x, f x && g x = false) ->
  (length (List.filter f l) + length (List.filter g l) <= length l)%nat.
Proof.
  intros Hd. induction l as [|x l IH]; cbn; [lia|].
  specialize (Hd x). destruct (f x), (g x); cbn in *; try discriminate; lia.
Qed.

Section Steps.
Variable templates_file : config_file.
Variable VideoGenerationRequest_of :
  value -> value -> value -> value -> result VideoGenerationRequest.

(** X25.  [POST /campaigns] for a template key that no template of the set
    in effect carries is answered with status 400 and the not-found text,
    and leaves everything as it was: no identifier is drawn, no campaign
    stored, no workflow started. *)
Theorem create_campaign_unknown_template
    (request : CreateCampaignRequest) (w : world) :
  rq_template_key request ∉ map key (load_templates templates_file) ->
  create_campaign templates_file VideoGenerationRequest_of request w
  = (Raise (HTTPException 400
              (str_of_exn (not_found (rq_template_key request)))), w).
Proof.
  intros Hk. unfold create_campaign, try_except.
  unfold bind at 1. unfold lift at 1. unfold get_template_by_key.
  rewrite (TemplatesFacts.first_with_key_absent _ _ Hk). reflexivity.
Qed.

(** X26.  [POST /campaigns] for a known template and video settings that
    pass validation stores one campaign under a fresh identifier and
    answers with it.  With a schedule the campaign is stored as "scheduled"
    and no task is started; without one it is stored as "processing" and
    exactly one workflow task is put on the queue, whose identifier is
    answered.  No other campaign is touched, and [GET /campaigns/{id}]
    returns the stored campaign. *)
Theorem create_campaign_stored
    (request : CreateCampaignRequest) (w : world)
    (video : VideoGenerationRequest) :
  rq_template_key request ∈ map key (load_templates templates_file) ->
  VideoGenerationRequest_of
    (get_default (rq_video_config request) (u "style") (VStr (u "kawaii")))
    (get_default (rq_video_config request) (u "voice_language") (VStr (u "ja")))
    (get_default (rq_video_config request) (u "duration") (VInt 30))
    (get_default (rq_video_config request) (u "resolution")
       (VStr (u "1080x1920")))
  = Ok video ->
  exists answer c w',
    create_campaign templates_file VideoGenerationRequest_of request w
    = (Ok answer, w')
    /\ cr_campaign_id answer = next_uuid w
    /\ cr_status answer = CampaignStatus_value (initial_status request)
    /\ cr_task_id answer
       = (if truthy_opt (rq_schedule request) then None
          else Some (next_workflow_id w))
    /\ get_campaign (next_uuid w) w' = (Ok c, w')
    /\ id c = next_uuid w
    /\ status c = initial_status request
    /\ video_config (config c) = video
    /\ template_key (config c) = rq_template_key request
    /\ workflows w'
       = workflows w
         ++ (if truthy_opt (rq_schedule request) then []
             else [(next_workflow_id w,
                    (next_uuid w, workflow_of request (next_uuid w)))])
    /\ (forall other, other <> next_uuid w ->
          campaigns_db (base w') !! other = campaigns_db (base w) !! other).
Proof.
  intros Hk Hv.
  destruct (TemplatesFacts.first_with_key_present _ _ Hk) as (t & Ht & _).
  unfold create_campaign, try_except.
  unfold bind at 1. unfold lift at 1. unfold get_template_by_key. rewrite Ht.
  unfold bind at 1. unfold uuid4 at 1.
  unfold bind at 1. unfold lift at 1. rewrite Hv.
  unfold initial_status, next_uuid, next_workflow_id, workflow_of.
  destruct (truthy_opt (rq_schedule request));
    cbv beta iota zeta delta
      [bind on_base datetime_now tick store modify ret
       execute_campaign_workflow_delay set_campaigns_db Src.Main.set_status];
    cbn [base workflows workflow_ids uuids drawn campaigns_db delayed task_ids
         now readings reads];
    (eexists; eexists; eexists; split; [reflexivity|]);
    unfold get_campaign; cbv beta iota zeta delta [bind get ret];
    cbn [base workflows campaigns_db cr_campaign_id cr_status cr_task_id];
    rewrite ?lookup_insert_eq;
    (split; [reflexivity|]); (split; [reflexivity|]); (split; [reflexivity|]);
    (split; [reflexivity|]); (split; [reflexivity|]); (split; [reflexivity|]);
    (split; [reflexivity|]); (split; [reflexivity|]);
    (split; [rewrite ?app_nil_r; reflexivity|]);
    intros other Hne; rewrite !lookup_insert_ne by congruence; reflexivity.
Qed.

End Steps.

(** X27.  [DELETE /campaigns/{id}]: for a stored campaign the entry is
    removed and nothing else, a workflow already queued for the campaign
    stays on the queue, and afterwards both reading and deleting the
    campaign are answered with 404; for an identifier that is not stored
    the answer is 404 and nothing changes. *)
Theorem delete_campaign_outcome (campaign_id : str) (w : world) :
  match campaigns_db (base w) !! campaign_id with
  | Some _ =>
      exists w',
        delete_campaign campaign_id w = (Ok campaign_deleted, w')
        /\ campaigns_db (base w') = delete campaign_id (campaigns_db (base w))
        /\ workflows w' = workflows w
        /\ delayed (base w') = delayed (base w)
        /\ get_campaign campaign_id w' = (Raise campaign_not_found, w')
        /\ delete_campaign campaign_id w' = (Raise campaign_not_found, w')
  | None =>
      delete_campaign campaign_id w = (Raise campaign_not_found, w)
      /\ get_campaign campaign_id w = (Raise campaign_not_found, w)
  end.
Proof.
  destruct (campaigns_db (base w) !! campaign_id) as [c|] eqn:Hc.
  - unfold delete_campaign at 1. unfold bind at 1. unfold get at 1. rewrite Hc.
    unfold bind, on_base, modify, ret, set_campaigns_db.
    eexists. split; [reflexivity|].
    cbn [base campaigns_db workflows delayed].
    split; [reflexivity|]. split; [reflexivity|]. split; [reflexivity|].
    unfold get_campaign, delete_campaign, bind, get.
    cbn [base campaigns_db]. rewrite lookup_delete_eq. split; reflexivity.
  - unfold delete_campaign, get_campaign, bind, get. rewrite Hc.
    split; reflexivity.
Qed.

(** X28.  [GET /analytics/overview] always answers, also for an empty
    store: the success rate is the integer 0 when there is no campaign and
    the quotient of completed by total otherwise, so no division by zero
    occurs.  The total is the number of stored campaigns, completed and
    failed together never exceed it, and the store is left as it was. *)
Theorem get_analytics_overview_answers (w : world) :
  exists o w',
    get_analytics_overview w = (Ok o, w')
    /\ total_campaigns o = size (campaigns_db (base w))
    /\ (completed_campaigns o + failed_campaigns o <= total_campaigns o)%nat
    /\ success_rate o
       = (if (0 <? total_campaigns o)%nat
          then Float (PrimFloat.div (float_of_nat (completed_campaigns o))
                        (float_of_nat (total_campaigns o)))
          else Int 0)
    /\ campaigns_db (base w') = campaigns_db (base w)
    /\ workflows w' = workflows w.
Proof.
  unfold get_analytics_overview. unfold bind at 1. unfold get at 1.
  set (db := campaigns_db (base w)).
  assert (Hcount : (count_campaigns is_completed db
                    + count_campaigns is_failed db <= size db)%nat).
  { unfold count_campaigns.
    etransitivity; [apply count_disjoint|].
    - intros c. unfold is_completed, is_failed. now destruct (status c).
    - rewrite length_map, length_map_to_list. reflexivity. }
  destruct (size db) as [|n] eqn:Hsize.
  - cbn [Nat.ltb Nat.leb]. unfold bind, ret, on_base, datetime_now, tick.
    eexists. eexists. split; [reflexivity|].
    cbn [total_campaigns completed_campaigns failed_campaigns success_rate
         base campaigns_db workflows].
    repeat split; try reflexivity. exact Hcount.
  - change (0 <? S n)%nat with true. cbv iota.
    unfold truediv, bind, lift, ret, on_base, datetime_now, tick.
    eexists. eexists. split; [reflexivity|].
    cbn [total_campaigns completed_campaigns failed_campaigns success_rate
         base campaigns_db workflows].
    repeat split; try reflexivity. exact Hcount.
Qed.

Lemma create_campaign_unknown_template_witness :
  create_campaign FileNotFoundError accept_video unknown_template server
  = (Raise (HTTPException 400 (u "Template with key 'cooking' not found")),
     server).
Proof.
  apply (create_campaign_unknown_template FileNotFoundError accept_video
           unknown_template server).
  apply (bool_decide_unpack _). vm_compute. exact I.
Defined.

Lemma create_campaign_stored_witness :
  exists answer w',
    create_campaign FileNotFoundError accept_video start_now server
    = (Ok answer, w')
    /\ cr_campaign_id answer = u "uuid-0"
    /\ cr_status answer = u "processing"
    /\ cr_task_id answer = Some (u "workflow-0").
Proof.
  destruct (create_campaign_stored FileNotFoundError accept_video start_now
              server
              {| vg_script := []; vg_style := u "kawaii";
                 voice_language := u "ja"; duration := Some 30;
                 resolution := u "1080x1920"; background_music := true |})
    as (answer & c & w' & Hrun & H1 & H2 & H3 & _).
  - apply (bool_decide_unpack _). vm_compute. exact I.
  - reflexivity.
  - exists answer, w'. split; [exact Hrun|]. split; [exact H1|].
    split; [exact H2 | exact H3].
Defined.

End ApiFacts.

(** ** Starting a campaign by hand *)

Module StartFacts.
Import App.Models App.Config App.Database PyFacts.
Import App.CampaignManager.
Import AppMore.Manager AppMore.Api.
Import ManagerNotions ManagerMoreNotions ManagerMoreFacts.

Section Steps.
Context {S : Type}.
Variable generate_video : str -> VideoStyle -> Z -> bool -> M S (option str).
Variable schedule_post :
  Platform -> str -> str -> list str -> dict -> M S (option SocialPost).
Variable settings : Settings.


End Steps.


End StartFacts.

(** ** Publishing: what the task can report *)

Module PublishOutcomeFacts.
Import Src.Models Src.Config Src.SocialTasks PyFacts.
Import PublishNotions PublishFacts.

(** X30.  The publishing task never reports a successful publication.
    With a video at hand and at least one of "tiktok", "instagram" and
    "youtube" in the list it fails on the coroutine it stored; in every
    other case it returns an aggregate with one entry per listed platform
    and [successful_publishes = 0]. *)
Theorem publish_to_platforms_never_succeeds
    (settings : Settings) (cid : str) (content : dict) (platforms : list str)
    (log : celery) :
  if bool_of (dict_get content (u "video_url")) && existsb known_platform platforms
  then exists log',
      publish_to_platforms settings cid content platforms log
      = (Raise no_attribute_get, log')
  else exists final log',
      publish_to_platforms settings cid content platforms log = (Ok final, log')
      /\ successful_publishes final = 0%nat
      /\ total_platforms final = length platforms
      /\ (forall p, is_Some (platform_results final !! p) <-> p ∈ platforms).
Proof.
  destruct (bool_of (dict_get content (u "video_url"))) eqn:Hv; cbn [andb].
  - destruct (existsb known_platform platforms) eqn:Hk.
    + apply existsb_exists in Hk as (p & Hin & Hp).
      apply (publish_to_platforms_known_raises settings cid content platforms
               log p Hv); [now apply list_elem_of_In | exact Hp].
    + destruct (publish_to_platforms_only_errors settings cid content platforms
                  log) as (final & log' & Hrun & _ & Hdom & Htot & Hsucc).
      { right. apply List.Forall_forall. intros p Hin.
        destruct (known_platform p) eqn:Hp; [|reflexivity].
        assert (existsb known_platform platforms = true)
          by (apply existsb_exists; eauto).
        congruence. }
      eauto 10.
  - destruct (publish_to_platforms_only_errors settings cid content platforms
                log) as (final & log' & Hrun & _ & Hdom & Htot & Hsucc);
      [now left|].
    eauto 10.
Qed.

End PublishOutcomeFacts.
